(** * Resumator: the layout optimizer and the resume preprocessor

    A shallow embedding of [src/lib/layoutOptimizer.ts],
    [src/lib/universalTemplateHelpers.ts] and [src/lib/resumePreprocess.ts].

    The TypeScript code works on values that come out of [JSON.parse]: the
    declared type [ResumeData] is erased at run time, and the code defends
    itself with [||], [?.] and [Array.isArray].  The embedding therefore keeps
    the run-time view: a resume is a JSON tree [JsVal], property reads follow
    the JavaScript rules, and a method call on a value that lacks the method
    is a [TypeError].

    Scope of the value model.
    - Strings are sequences of UTF-16 code units, so [length] is the
      JavaScript [.length].
    - Numbers inside a resume are integers.
    - [ToString] raises a [TypeError] on an object with an own property
      [toString], as the runtime does for an object that came out of
      [JSON.parse].
    - An integer is printed with all its digits, and an object has no
      [length].  This is what the runtime does on the values that
      [ordinary] describes: integers below 2^52 in magnitude, and no
      object with an own property [length].  The statements that depend
      on it carry [ordinary] as a hypothesis.
    - Heights are kept as exact rationals; [x / 80 * 20] on a double is exact
      for every integer [x] that can be a string length.

    The functions are first given on trees ([Js], [LayoutOptimizer],
    [TemplateHelpers], [Preprocess]).  [Store] then puts the objects in a
    store, where the validated object shares the arrays of the input and
    the copy of line 56 is made of new cells; on an input that the store
    holds as a tree, the call in the store computes what the call on the
    tree computes.

    Around these, [LayoutUtilities] has the class and limit helpers of the
    layout optimizer, [Templates] the data handling of the creative and the
    modern template (what they show of a resume, without the markup),
    [HomeContent] the call of [preprocessResume] in the submit handler,
    [GeminiModelSelector] the rate-limited model selector as a state and
    clock passing program, and [StatsEndpoint] the handler that reports its
    statistics.  Left out: [getPrintStyles] and the font sizes of
    [preprocessResume], which print or round floating-point numbers, and
    the constant style sheet of [getPDFSafeStyles]. *)

From Stdlib Require Import List ZArith QArith Qminmax Lia Bool String Ascii.
From Stdlib Require Import DecimalString Lqa.
Import ListNotations.

Local Open Scope Z_scope.

(* ===================================================================== *)
(** ** JavaScript values                                                  *)
(* ===================================================================== *)

Module Js.

(** One UTF-16 code unit. *)
Definition char16 := N.
Definition jsstring := list char16.

(** An ASCII literal of the source, as code units. *)
Definition lit (s : string) : jsstring :=
  List.map N_of_ascii (list_ascii_of_string s).

Definition jsstring_eqb (a b : jsstring) : bool :=
  if list_eq_dec N.eq_dec a b then true else false.

#[warnings="-register-all"]
Inductive JsVal : Type :=
| JUndef
| JNull
| JBool (b : bool)
| JNum (z : Z)
| JStr (s : jsstring)
| JArr (elems : list JsVal)
| JObj (props : list (string * JsVal)).

Inductive exn : Type :=
| InputRequired   (* new Error('preprocessResume: input is required') *)
| TypeError.      (* raised by the runtime *)

Inductive result (A : Type) : Type :=
| Ok (a : A)
| Throw (e : exn).
Arguments Ok {A} a.
Arguments Throw {A} e.

Definition bind {A B} (c : result A) (k : A -> result B) : result B :=
  match c with
  | Ok a => k a
  | Throw e => Throw e
  end.

Fixpoint mapM {A B} (f : A -> result B) (l : list A) : result (list B) :=
  match l with
  | [] => Ok []
  | x :: r =>
      bind (f x) (fun y => bind (mapM f r) (fun ys => Ok (y :: ys)))
  end.

(** [ToBoolean]. *)
Definition truthy (v : JsVal) : bool :=
  match v with
  | JUndef | JNull => false
  | JBool b => b
  | JNum z => negb (z =? 0)
  | JStr s => match s with [] => false | _ => true end
  | JArr _ | JObj _ => true
  end.

Definition nullish (v : JsVal) : bool :=
  match v with
  | JUndef | JNull => true
  | _ => false
  end.

(** [a || b]. *)
Definition or_ (a b : JsVal) : JsVal := if truthy a then a else b.

Definition isArray (v : JsVal) : bool :=
  match v with
  | JArr _ => true
  | _ => false
  end.

Fixpoint lookup (k : string) (ps : list (string * JsVal)) : JsVal :=
  match ps with
  | [] => JUndef
  | (k', v) :: r => if String.eqb k k' then v else lookup k r
  end.

(** [v?.k] for the property names the code reads: none of them is
    [length], and none is defined on a string, a number or an array, or
    inherited by an object. *)
Definition field (v : JsVal) (k : string) : JsVal :=
  match v with
  | JObj ps => lookup k ps
  | _ => JUndef
  end.

(** [v.k]: reading a property of [null] or [undefined] throws. *)
Definition prop (v : JsVal) (k : string) : result JsVal :=
  if nullish v then Throw TypeError else Ok (field v k).

(** [v?.length || 0]; also the truth value of [v?.length] when compared
    with zero.  A string and an array have a length; any other value has
    none unless it is an object with an own property [length], which
    [ordinary] below excludes. *)
Definition optLen (v : JsVal) : Z :=
  match v with
  | JStr s => Z.of_nat (List.length s)
  | JArr l => Z.of_nat (List.length l)
  | _ => 0
  end.

(** The receiver of [.map], [.filter], [.join], [.forEach], [.reduce]:
    only arrays have these methods. *)
Definition as_array (v : JsVal) : result (list JsVal) :=
  match v with
  | JArr l => Ok l
  | _ => Throw TypeError
  end.

(** [sep]-separated concatenation. *)
Fixpoint join (sep : jsstring) (l : list jsstring) : jsstring :=
  match l with
  | [] => []
  | [x] => x
  | x :: r => x ++ sep ++ join sep r
  end.

(** [Number.prototype.toString] on an integer: all its digits.  This is
    what JavaScript prints for the integers that [ordinary] below admits;
    from 10^21 on it prints an exponent. *)
Definition Number_toString (z : Z) : jsstring :=
  lit (NilZero.string_of_int (Z.to_int z)).

(** [Object.prototype.hasOwnProperty]. *)
Definition hasOwn (k : string) (ps : list (string * JsVal)) : bool :=
  existsb (fun p => String.eqb k (fst p)) ps.

(** [ToString], as used by template literals, by [+] and by [join].  An
    array prints its elements, [null] and [undefined] as the empty string.
    An object is printed by its [toString] method: the inherited one gives
    "[object Object]"; an own property [toString] of an object that came
    out of [JSON.parse] is not callable, the inherited [valueOf] returns
    the object itself, and the conversion raises a [TypeError]. *)
Fixpoint ToString (v : JsVal) : result jsstring :=
  match v with
  | JUndef => Ok (lit "undefined")
  | JNull => Ok (lit "null")
  | JBool true => Ok (lit "true")
  | JBool false => Ok (lit "false")
  | JNum z => Ok (Number_toString z)
  | JStr s => Ok s
  | JArr l =>
      bind ((fix each (l : list JsVal) : result (list jsstring) :=
               match l with
               | [] => Ok []
               | x :: r =>
                   bind (if nullish x then Ok [] else ToString x) (fun s =>
                   bind (each r) (fun ss => Ok (s :: ss)))
               end) l)
           (fun parts => Ok (join (lit ",") parts))
  | JObj ps =>
      if hasOwn "toString" ps then Throw TypeError
      else Ok (lit "[object Object]")
  end.

(** An element as [join] prints it. *)
Definition printElement (x : JsVal) : result jsstring :=
  if nullish x then Ok [] else ToString x.

(** [Array.prototype.join(sep)]. *)
Definition js_join (sep : jsstring) (l : list JsVal) : result jsstring :=
  bind (mapM printElement l) (fun parts => Ok (join sep parts)).

(** White space and line terminators removed by [String.prototype.trim]. *)
Definition is_ws (c : char16) : bool :=
  match c with
  | 9 | 10 | 11 | 12 | 13 | 32 | 160 | 5760 | 8232 | 8233 | 8239 | 8287
  | 12288 | 65279 => true
  | _ => ((8192 <=? c) && (c <=? 8202))%N
  end%N.

Fixpoint trimStart (s : jsstring) : jsstring :=
  match s with
  | c :: r => if is_ws c then trimStart r else s
  | [] => []
  end.

Fixpoint trimEnd (s : jsstring) : jsstring :=
  match s with
  | [] => []
  | c :: r =>
      match trimEnd r with
      | [] => if is_ws c then [] else [c]
      | t => c :: t
      end
  end.

Definition trim (s : jsstring) : jsstring := trimEnd (trimStart s).

(** [v.trim()]: only strings have the method. *)
Definition trim_method (v : JsVal) : result jsstring :=
  match v with
  | JStr s => Ok (trim s)
  | _ => Throw TypeError
  end.

(** [(v || "").trim()]. *)
Definition or_empty_trim (v : JsVal) : result jsstring :=
  trim_method (or_ v (JStr [])).

(** [a + b] where both operands are truthy values or the empty string:
    numeric addition when neither is a string, an array or an object,
    concatenation of the printed operands otherwise.  The sum is then
    printed by [join]. *)
Definition plus_then_print (a b : JsVal) : result jsstring :=
  let num v := match v with
               | JNum z => Some z
               | JBool true => Some 1
               | JBool false | JNull => Some 0
               | _ => None
               end in
  match num a, num b with
  | Some x, Some y => Ok (Number_toString (x + y))
  | _, _ => bind (ToString a) (fun x => bind (ToString b) (fun y => Ok (x ++ y)))
  end.

(** [Array.from(new Set(l))]: insertion order, first occurrence kept. *)
Fixpoint uniq_from (seen l : list jsstring) : list jsstring :=
  match l with
  | [] => []
  | x :: r =>
      if existsb (jsstring_eqb x) seen then uniq_from seen r
      else x :: uniq_from (x :: seen) r
  end.

Definition uniq (l : list jsstring) : list jsstring := uniq_from [] l.

Definition nonempty (s : jsstring) : bool :=
  match s with [] => false | _ => true end.

(** [JSON.parse(JSON.stringify(v))] below the top level: an [undefined]
    array element becomes [null], an [undefined] property is dropped. *)
Fixpoint json_clone (v : JsVal) : JsVal :=
  match v with
  | JUndef => JNull
  | JArr l => JArr (List.map json_clone l)
  | JObj ps =>
      JObj ((fix props (ps : list (string * JsVal)) :=
               match ps with
               | [] => []
               | (k, x) :: r =>
                   match x with
                   | JUndef => []
                   | _ => [(k, json_clone x)]
                   end ++ props r
               end) ps)
  | other => other
  end.

(** [{ ...e, k: v }] and [e.k = v] for an object [e]: an existing property
    keeps its place, a new one comes last.  (The code spreads only entries
    that passed the filter of line 152, and those are objects.) *)
Fixpoint set_prop (k : string) (v : JsVal) (ps : list (string * JsVal))
  : list (string * JsVal) :=
  match ps with
  | [] => [(k, v)]
  | (k', x) :: r =>
      if String.eqb k k' then (k, v) :: r else (k', x) :: set_prop k v r
  end.

Definition with_prop (e : JsVal) (k : string) (v : JsVal) : JsVal :=
  match e with
  | JObj ps => JObj (set_prop k v ps)
  | _ => JObj [(k, v)]
  end.

(** JavaScript numbers that may be [NaN]: [None] is [NaN]. *)
Definition num := option Q.

Definition nlift2 (f : Q -> Q -> Q) (a b : num) : num :=
  match a, b with
  | Some x, Some y => Some (f x y)
  | _, _ => None
  end.

Definition nadd := nlift2 Qplus.
Definition nmul := nlift2 Qmult.
Definition ndiv := nlift2 Qdiv.
Definition nmax := nlift2 Qmax.   (* Math.max is NaN as soon as one argument is *)

Definition Qgtb (a b : Q) : bool := negb (Qle_bool a b).
Definition Qltb (a b : Q) : bool := negb (Qle_bool b a).

(** [a <= b] and [a > b]: both false when an operand is [NaN]. *)
Definition nle (a b : num) : bool :=
  match a, b with
  | Some x, Some y => Qle_bool x y
  | _, _ => false
  end.

Definition ngt (a b : num) : bool :=
  match a, b with
  | Some x, Some y => Qgtb x y
  | _, _ => false
  end.

(** [v.length] as a number, for a [v] that is not [null] or [undefined]:
    [undefined] (a [NaN] in arithmetic) unless [v] is a string or an
    array, or an object with an own property [length], which [ordinary]
    below excludes. *)
Definition length_num (v : JsVal) : num :=
  match v with
  | JStr s => Some (inject_Z (Z.of_nat (List.length s)))
  | JArr l => Some (inject_Z (Z.of_nat (List.length l)))
  | _ => None
  end.

End Js.

(* ===================================================================== *)
(** ** lib/layoutOptimizer.ts                                             *)
(* ===================================================================== *)

Module LayoutOptimizer.
Import Js.

(** [A4_DIMENSIONS]. *)
Definition A4_width : Z := 794.
Definition A4_height : Z := 1123.
Definition A4_margin : Z := 32.
Definition A4_usableWidth : Z := 730.
Definition A4_usableHeight : Z := 1059.

Inductive TemplateType : Type := minimal | modern | creative.

Inductive Density : Type := sparse | normal | dense | overflow.

Record LayoutConfig : Type := {
  nameFontSize : Z;
  titleFontSize : Z;
  sectionTitleFontSize : Z;
  bodyFontSize : Z;
  smallFontSize : Z;
  sectionSpacing : Z;
  itemSpacing : Z;
  lineHeight : Q;
  containerPadding : Z;
  sidebarWidth : option Z;
  compactMode : bool;
  scaleFactor : Q;
  maxExperienceItems : Z;
  maxEducationItems : Z;
  maxBulletsPerExp : Z;
  maxSkillsDisplay : Z;
  maxAchievements : Z;
  templateType : TemplateType
}.

Record ContentMetrics : Type := {
  experienceCount : Z;
  educationCount : Z;
  skillsCount : Z;
  achievementsCount : Z;
  totalBulletPoints : Z;
  summaryLength : Z;
  hasImage : bool;
  sectionCount : Z;
  estimatedHeight : Z;
  contentDensity : Density
}.

(** [Math.ceil(n / d)] for a length [n] and a positive [d]. *)
Definition ceil_div (n d : Z) : Z := (n + d - 1) / d.

(** The density test at the end of [analyzeContent] (lines 129-137). *)
Definition classifyDensity (estimatedHeight : Q) : Density :=
  if Qgtb estimatedHeight (inject_Z A4_usableHeight * (11 # 10)) then overflow
  else if Qgtb estimatedHeight (inject_Z A4_usableHeight * (85 # 100)) then dense
  else if Qltb estimatedHeight (inject_Z A4_usableHeight * (6 # 10)) then sparse
  else normal.

(** The callback of [data.experience.reduce]. *)
Definition bulletsOf (exp : JsVal) : result Z :=
  bind (prop exp "description") (fun d =>
  Ok (if isArray d then optLen d else 1)).

Fixpoint sumM (f : JsVal -> result Z) (l : list JsVal) (total : Z) : result Z :=
  match l with
  | [] => Ok total
  | x :: r => bind (f x) (fun n => sumM f r (total + n))
  end.

Definition b2z (b : bool) : Z := if b then 1 else 0.

Definition analyzeContent (data : JsVal) : result ContentMetrics :=
  bind (prop data "experience") (fun experience =>
  let experienceCount := optLen experience in
  let educationCount := optLen (field data "education") in
  let skillsCount := optLen (field data "skills") in
  let achievementsCount := optLen (field data "achivements") in
  let summaryLength := optLen (field data "summary") in
  bind (if nullish experience then Ok 0
        else bind (as_array experience) (fun l => sumM bulletsOf l 0))
       (fun totalBulletPoints =>
  let softSkills := optLen (field data "softSkills") in
  let languages := optLen (field data "languages") in
  let certifications := optLen (field data "certifications") in
  let volunteer := optLen (field data "volunteer") in
  let interests := optLen (field data "interests") in
  let summary := truthy (field data "summary") in
  let sectionCount :=
    b2z summary + b2z (0 <? experienceCount) + b2z (0 <? educationCount)
    + b2z (0 <? skillsCount) + b2z (negb (softSkills =? 0))
    + b2z (negb (languages =? 0)) + b2z (negb (certifications =? 0))
    + b2z (0 <? achievementsCount) + b2z (negb (volunteer =? 0))
    + b2z (negb (interests =? 0)) in
  let h := 100 in
  let h := if truthy (field data "photoUrl") then h + 40 else h in
  let h := if summary then h + (30 + ceil_div summaryLength 80 * 16) else h in
  let h :=
    if 0 <? experienceCount then
      let limitedExperienceCount := Z.min experienceCount 6 in
      h + 35 + limitedExperienceCount * 60
        + Z.min totalBulletPoints (limitedExperienceCount * 4) * 16
    else h in
  let h := if 0 <? educationCount
           then h + (35 + Z.min educationCount 4 * 45) else h in
  let h := if 0 <? skillsCount
           then h + (35 + ceil_div skillsCount 6 * 25) else h in
  let h := if negb (softSkills =? 0)
           then h + (35 + ceil_div softSkills 4 * 20) else h in
  let otherSections :=
    0 + (if negb (languages =? 0) then 55 else 0)
      + (if negb (certifications =? 0)
         then 35 + Z.min certifications 4 * 25 else 0)
      + (if negb (achievementsCount =? 0)
         then 35 + Z.min achievementsCount 6 * 18 else 0)
      + (if negb (volunteer =? 0) then 35 + Z.min volunteer 3 * 50 else 0)
      + (if negb (interests =? 0) then 55 else 0) in
  let h := h + otherSections in
  Ok {| experienceCount := experienceCount;
        educationCount := educationCount;
        skillsCount := skillsCount;
        achievementsCount := achievementsCount;
        totalBulletPoints := totalBulletPoints;
        summaryLength := summaryLength;
        hasImage := truthy (field data "photoUrl");
        sectionCount := sectionCount;
        estimatedHeight := h;
        contentDensity := classifyDensity (inject_Z h) |})).

(** [baseConfigs[templateType]] with [templateType], [compactMode: false]
    and [scaleFactor: 1.0] spread in. *)
Definition baseConfig (t : TemplateType) : LayoutConfig :=
  match t with
  | minimal =>
      {| nameFontSize := 32; titleFontSize := 18; sectionTitleFontSize := 16;
         bodyFontSize := 12; smallFontSize := 11; sectionSpacing := 24;
         itemSpacing := 14; lineHeight := 14 # 10; containerPadding := 32;
         sidebarWidth := None; compactMode := false; scaleFactor := 1;
         maxExperienceItems := 6; maxEducationItems := 4;
         maxBulletsPerExp := 4; maxSkillsDisplay := 20; maxAchievements := 8;
         templateType := minimal |}
  | modern =>
      {| nameFontSize := 36; titleFontSize := 20; sectionTitleFontSize := 15;
         bodyFontSize := 13; smallFontSize := 11; sectionSpacing := 28;
         itemSpacing := 18; lineHeight := 15 # 10; containerPadding := 40;
         sidebarWidth := Some 220; compactMode := false; scaleFactor := 1;
         maxExperienceItems := 5; maxEducationItems := 4;
         maxBulletsPerExp := 4; maxSkillsDisplay := 16; maxAchievements := 6;
         templateType := modern |}
  | creative =>
      {| nameFontSize := 34; titleFontSize := 18; sectionTitleFontSize := 15;
         bodyFontSize := 12; smallFontSize := 11; sectionSpacing := 22;
         itemSpacing := 16; lineHeight := 14 # 10; containerPadding := 36;
         sidebarWidth := None; compactMode := false; scaleFactor := 1;
         maxExperienceItems := 5; maxEducationItems := 4;
         maxBulletsPerExp := 3; maxSkillsDisplay := 18; maxAchievements := 6;
         templateType := creative |}
  end.

(** [templateType === 'modern' && config.sidebarWidth ? f(width) : width]. *)
Definition adjustSidebar (t : TemplateType) (f : Z -> Z) (w : option Z)
  : option Z :=
  match t, w with
  | modern, Some x => if x =? 0 then w else Some (f x)
  | _, _ => w
  end.

(** The [switch] of [optimizeLayout]. *)
Definition applyDensity (d : Density) (t : TemplateType) (config : LayoutConfig)
  : LayoutConfig :=
  match d with
  | overflow =>
      {| nameFontSize := Z.max (nameFontSize config - 6) 26;
         titleFontSize := Z.max (titleFontSize config - 3) 15;
         sectionTitleFontSize := Z.max (sectionTitleFontSize config - 2) 13;
         bodyFontSize := Z.max (bodyFontSize config - 1) 11;
         smallFontSize := Z.max (smallFontSize config - 1) 10;
         sectionSpacing := Z.max (sectionSpacing config - 8) 16;
         itemSpacing := Z.max (itemSpacing config - 4) 10;
         lineHeight := Qmax (lineHeight config - (1 # 10)) (13 # 10);
         containerPadding := Z.max (containerPadding config - 8) 24;
         sidebarWidth :=
           adjustSidebar t (fun w => Z.max (w - 30) 180) (sidebarWidth config);
         compactMode := true;
         scaleFactor := 95 # 100;
         maxExperienceItems := Z.max (maxExperienceItems config - 2) 3;
         maxEducationItems := maxEducationItems config;
         maxBulletsPerExp := Z.max (maxBulletsPerExp config - 1) 2;
         maxSkillsDisplay := maxSkillsDisplay config;
         maxAchievements := Z.max (maxAchievements config - 2) 4;
         templateType := templateType config |}
  | dense =>
      {| nameFontSize := Z.max (nameFontSize config - 2) 28;
         titleFontSize := titleFontSize config;
         sectionTitleFontSize := sectionTitleFontSize config;
         bodyFontSize := bodyFontSize config;
         smallFontSize := smallFontSize config;
         sectionSpacing := Z.max (sectionSpacing config - 4) 18;
         itemSpacing := Z.max (itemSpacing config - 2) 12;
         lineHeight := lineHeight config;
         containerPadding := containerPadding config;
         sidebarWidth := sidebarWidth config;
         compactMode := true;
         scaleFactor := 98 # 100;
         maxExperienceItems := maxExperienceItems config;
         maxEducationItems := maxEducationItems config;
         maxBulletsPerExp := Z.max (maxBulletsPerExp config - 1) 3;
         maxSkillsDisplay := maxSkillsDisplay config;
         maxAchievements := maxAchievements config;
         templateType := templateType config |}
  | sparse =>
      {| nameFontSize := Z.min (nameFontSize config + 4) 40;
         titleFontSize := Z.min (titleFontSize config + 2) 22;
         sectionTitleFontSize := Z.min (sectionTitleFontSize config + 1) 17;
         bodyFontSize := Z.min (bodyFontSize config + 1) 14;
         smallFontSize := smallFontSize config;
         sectionSpacing := Z.min (sectionSpacing config + 6) 36;
         itemSpacing := Z.min (itemSpacing config + 4) 22;
         lineHeight := Qmin (lineHeight config + (1 # 10)) (16 # 10);
         containerPadding := containerPadding config;
         sidebarWidth :=
           adjustSidebar t (fun w => Z.min (w + 20) 250) (sidebarWidth config);
         compactMode := false;
         scaleFactor := 102 # 100;
         maxExperienceItems := maxExperienceItems config;
         maxEducationItems := maxEducationItems config;
         maxBulletsPerExp := maxBulletsPerExp config;
         maxSkillsDisplay := maxSkillsDisplay config;
         maxAchievements := maxAchievements config;
         templateType := templateType config |}
  | normal =>
      {| nameFontSize := nameFontSize config;
         titleFontSize := titleFontSize config;
         sectionTitleFontSize := sectionTitleFontSize config;
         bodyFontSize := bodyFontSize config;
         smallFontSize := smallFontSize config;
         sectionSpacing := sectionSpacing config;
         itemSpacing := itemSpacing config;
         lineHeight := lineHeight config;
         containerPadding := containerPadding config;
         sidebarWidth := sidebarWidth config;
         compactMode := false;
         scaleFactor := 1;
         maxExperienceItems := maxExperienceItems config;
         maxEducationItems := maxEducationItems config;
         maxBulletsPerExp := maxBulletsPerExp config;
         maxSkillsDisplay := maxSkillsDisplay config;
         maxAchievements := maxAchievements config;
         templateType := templateType config |}
  end.

Definition optimizeLayout (data : JsVal) (t : TemplateType)
  : result LayoutConfig :=
  bind (analyzeContent data) (fun metrics =>
  Ok (applyDensity (contentDensity metrics) t (baseConfig t))).

End LayoutOptimizer.

(* ===================================================================== *)
(** ** lib/universalTemplateHelpers.ts                                    *)
(* ===================================================================== *)

Module TemplateHelpers.
Import Js.

(** [data?.k || '']. *)
Definition orEmpty (data : JsVal) (k : string) : JsVal :=
  or_ (field data k) (JStr []).

(** [Array.isArray(data?.k) ? data.k : []]. *)
Definition orNoItems (data : JsVal) (k : string) : JsVal :=
  if isArray (field data k) then field data k else JArr [].

Definition validateResumeData (data : JsVal) : JsVal :=
  JObj
    [ ("name", orEmpty data "name");
      ("title", orEmpty data "title");
      ("photoUrl", orEmpty data "photoUrl");
      ("contact",
        JObj [ ("phone", orEmpty (field data "contact") "phone");
               ("email", orEmpty (field data "contact") "email");
               ("address", orEmpty (field data "contact") "address");
               ("linkedin", orEmpty (field data "contact") "linkedin") ]);
      ("summary", orEmpty data "summary");
      ("experience", orNoItems data "experience");
      ("education", orNoItems data "education");
      ("certifications", orNoItems data "certifications");
      ("achivements", orNoItems data "achivements");
      ("volunteer", orNoItems data "volunteer");
      ("skills", orNoItems data "skills");
      ("softSkills", orNoItems data "softSkills");
      ("languages", orNoItems data "languages");
      ("interests", orNoItems data "interests") ]%string.

Definition zq (z : Z) : num := Some (inject_Z z).

(** The callback of [data.experience.forEach]:
    [(exp.description?.length || 0) * 20]. *)
Definition bulletHeight (exp : JsVal) : result Z :=
  bind (prop exp "description") (fun d => Ok (optLen d * 20)).

(** [if (data.k?.length) estimatedHeight += f(data.k.length)]. *)
Definition whenItems (v : JsVal) (f : Z -> Z) (h : num) : num :=
  if optLen v =? 0 then h else nadd h (zq (f (optLen v))).

Definition estimateContentHeight (data : JsVal) : result num :=
  bind (prop data "summary") (fun summary =>
  let h := zq 80 in
  let h :=
    if truthy summary
    then nadd h (nmax (zq 40) (nmul (ndiv (length_num summary) (zq 80)) (zq 20)))
    else h in
  bind (as_array (field data "experience")) (fun experience =>
  let h := nadd h (zq (Z.of_nat (List.length experience) * 60)) in
  bind (LayoutOptimizer.sumM bulletHeight experience 0) (fun bullets =>
  let h := nadd h (zq bullets) in
  bind (prop (field data "education") "length") (fun _ =>
  let h := nadd h (nmul (length_num (field data "education")) (zq 40)) in
  let h := whenItems (field data "achivements") (fun n => Z.min (n * 20) 100) h in
  let h := whenItems (field data "volunteer") (fun n => n * 50) h in
  let h := whenItems (field data "skills") (fun _ => 40) h in
  let h := whenItems (field data "softSkills") (fun _ => 30) h in
  let h := whenItems (field data "certifications") (fun n => n * 25) h in
  let h := whenItems (field data "languages") (fun _ => 30) h in
  let h := whenItems (field data "interests") (fun _ => 30) h in
  Ok h)))).

End TemplateHelpers.

(* ===================================================================== *)
(** ** lib/resumePreprocess.ts                                            *)
(* ===================================================================== *)

Module Preprocess.
Import Js.

(** [LayoutHints].  The per-section font sizes (lines 103-141) go through
    [Math.pow] on doubles; they do not influence the content of the record
    and are left out of the embedding. *)
Record LayoutHints : Type := {
  compactMode : bool;
  maxExperienceItems : nat;
  maxBulletsPerExp : nat;
  maxEducationItems : nat;
  truncateCharPerLine : nat;
  sidebarWidthPx : Z
}.

(** [ProcessedResume]: the resume object with its layout annotations. *)
Record ProcessedResume : Type := {
  data : JsVal;
  _layout : LayoutHints;
  _layoutConfig : LayoutOptimizer.LayoutConfig;
  _contentMetrics : LayoutOptimizer.ContentMetrics
}.

Definition emDash : jsstring := [32; 8212; 32]%N.     (* " — " *)
Definition bulletSep : jsstring := [32; 8226; 32]%N.  (* " • " *)
Definition ellipsis : jsstring := [8230]%N.           (* "…" *)
Definition space : jsstring := lit " ".

(** [(arr || []).map((s) => (s || "").trim()).filter(Boolean)] through a
    [Set]. *)
Definition uniqStrings (arr : JsVal) : result (list jsstring) :=
  bind (as_array (or_ arr (JArr []))) (fun l =>
  bind (mapM or_empty_trim l) (fun trimmed =>
  Ok (uniq (filter nonempty trimmed)))).

(** The callback of line 35:
    [`${e.role} ${e.company} ${e.duration} ${(e.description || []).join(" ")}`]. *)
Definition expText (e : JsVal) : result jsstring :=
  bind (prop e "role") (fun role =>
  bind (ToString role) (fun role =>
  bind (ToString (field e "company")) (fun company =>
  bind (ToString (field e "duration")) (fun duration =>
  bind (as_array (or_ (field e "description") (JArr []))) (fun d =>
  bind (js_join space d) (fun bullets =>
  Ok (role ++ space ++ company ++ space ++ duration ++ space ++ bullets))))))).

Definition joinExpText (exp : JsVal) : result jsstring :=
  bind (as_array (or_ exp (JArr []))) (fun l =>
  bind (mapM expText l) (fun parts =>
  Ok (join space parts))).

(** The callback of line 38: [`${e.degree} ${e.school} ${e.year}`]. *)
Definition eduText (e : JsVal) : result jsstring :=
  bind (prop e "degree") (fun degree =>
  bind (ToString degree) (fun degree =>
  bind (ToString (field e "school")) (fun school =>
  bind (ToString (field e "year")) (fun year =>
  Ok (degree ++ space ++ school ++ space ++ year))))).

Definition joinEduText (edu : JsVal) : result jsstring :=
  bind (as_array (or_ edu (JArr []))) (fun l =>
  bind (mapM eduText l) (fun parts =>
  Ok (join space parts))).

Definition joinSimple (arr : JsVal) : result jsstring :=
  bind (as_array (or_ arr (JArr []))) (fun l => js_join space l).

(** The callback of line 76: [(c.name || "") + (c.year || "")], as
    [join] prints it. *)
Definition certEntryText (c : JsVal) : result jsstring :=
  bind (prop c "name") (fun name =>
  plus_then_print (or_ name (JStr [])) (or_ (field c "year") (JStr []))).

Definition certText (certifications : JsVal) : result jsstring :=
  bind (as_array (or_ certifications (JArr []))) (fun l =>
  bind (mapM certEntryText l) (fun parts =>
  Ok (join space parts))).

(** The callback of line 77:
    [`${v?.role || ''} ${v?.org || ''} ${(v?.description || []).join(" ")}`]. *)
Definition volunteerEntryText (v : JsVal) : result jsstring :=
  bind (ToString (or_ (field v "role") (JStr []))) (fun role =>
  bind (ToString (or_ (field v "org") (JStr []))) (fun org =>
  bind (as_array (or_ (field v "description") (JArr []))) (fun d =>
  bind (js_join space d) (fun bullets =>
  Ok (role ++ space ++ org ++ space ++ bullets))))).

Definition volunteerText (volunteer : JsVal) : result jsstring :=
  bind (as_array (or_ volunteer (JArr []))) (fun l =>
  bind (mapM volunteerEntryText l) (fun parts =>
  Ok (join space parts))).

Definition strLen (s : jsstring) : num :=
  TemplateHelpers.zq (Z.of_nat (List.length s)).

(** [totalChars] (lines 66-92). *)
Definition totalChars (data : JsVal) : result num :=
  let nameLen := length_num (or_ (field data "name") (JStr [])) in
  let titleLen := length_num (or_ (field data "title") (JStr [])) in
  let summaryLen := length_num (or_ (field data "summary") (JStr [])) in
  bind (joinExpText (field data "experience")) (fun expText =>
  bind (joinEduText (field data "education")) (fun eduText =>
  bind (joinSimple (field data "skills")) (fun skillsText =>
  bind (joinSimple (field data "softSkills")) (fun softText =>
  bind (joinSimple (field data "achivements")) (fun achText =>
  bind (joinSimple (field data "languages")) (fun langsText =>
  bind (certText (field data "certifications")) (fun certsText =>
  bind (volunteerText (field data "volunteer")) (fun volunteerTxt =>
  Ok (nmax
        (nadd (nadd (nadd (nadd (nadd (nadd (nadd (nadd (nadd (nadd
           nameLen titleLen) summaryLen) (strLen expText)) (strLen eduText))
           (strLen skillsText)) (strLen softText)) (strLen achText))
           (strLen langsText)) (strLen certsText)) (strLen volunteerTxt))
        (TemplateHelpers.zq 50)))))))))).

Definition MEDIUM_CHARS : Z := 2200.

(** The caps chosen by compact mode (lines 143-147, 183-185, 190). *)
Definition hints (compact : bool) : LayoutHints :=
  {| compactMode := compact;
     maxExperienceItems := if compact then 3 else 6;
     maxBulletsPerExp := if compact then 2 else 4;
     maxEducationItems := if compact then 2 else 6;
     truncateCharPerLine := if compact then 120 else 220;
     sidebarWidthPx := 180 |}.

Definition maxSoftSkills (compact : bool) : nat := if compact then 6 else 12.
Definition maxSkills (compact : bool) : nat := if compact then 12 else 30.
Definition maxLanguages (compact : bool) : nat := if compact then 3 else 8.
Definition maxCertifications : nat := 20.
Definition achCap (compact : bool) : nat := if compact then 6 else 12.

(** [exp => exp && (exp.role || exp.company)]. *)
Definition keepExperience (exp : JsVal) : bool :=
  truthy exp && truthy (or_ (field exp "role") (field exp "company")).

(** [edu => edu && (edu.degree || edu.school)]. *)
Definition keepEducation (edu : JsVal) : bool :=
  truthy edu && truthy (or_ (field edu "degree") (field edu "school")).

(** [Array.isArray(v) ? v.filter(keep) : []]. *)
Definition sanitized (keep : JsVal -> bool) (v : JsVal) : list JsVal :=
  match v with
  | JArr l => filter keep l
  | _ => []
  end.

(** The body of [extras.forEach] for an experience entry (lines 159-161):
    the achievement string, empty when there is nothing to push. *)
Definition experienceAsAchievement (maxBullets : nat) (e : JsVal)
  : result jsstring :=
  bind (ToString (or_ (field e "role") (JStr []))) (fun role =>
  bind (ToString (or_ (field e "company") (JStr []))) (fun company =>
  let title := trim (role ++ emDash ++ company) in
  bind (as_array (or_ (field e "description") (JArr []))) (fun d =>
  bind (mapM or_empty_trim (firstn maxBullets d)) (fun bullets =>
  Ok (join bulletSep (filter nonempty (title :: bullets))))))).

(** The body of [extras.forEach] for an education entry (line 170). *)
Definition educationAsAchievement (ed : JsVal) : result jsstring :=
  bind (ToString (or_ (field ed "degree") (JStr []))) (fun degree =>
  bind (ToString (or_ (field ed "school") (JStr []))) (fun school =>
  bind (or_empty_trim (field ed "year")) (fun year =>
  Ok (trim (degree ++ emDash ++ school ++ space ++ year))))).

(** [d.length > limit ? d.slice(0, limit - 1).trim() + "…" : d]. *)
Definition truncateLine (limit : nat) (d : jsstring) : jsstring :=
  if (limit <? List.length d)%nat
  then trim (firstn (limit - 1) d) ++ ellipsis
  else d.

(** The callback of [data.experience.map] (lines 176-179). *)
Definition capBullets (maxBullets limit : nat) (e : JsVal) : result JsVal :=
  bind (match field e "description" with
        | JArr d => mapM or_empty_trim (firstn maxBullets d)
        | _ => Ok []
        end) (fun desc =>
  Ok (with_prop e "description"
        (JArr (List.map (fun d => JStr (truncateLine limit d)) desc)))).

(** The callback of [data.certifications.map] (line 182). *)
Definition normalizeCertification (c : JsVal) : result JsVal :=
  bind (prop c "name") (fun name =>
  bind (or_empty_trim name) (fun name' =>
  bind (or_empty_trim (field c "year")) (fun year' =>
  Ok (JObj [("name", JStr name'); ("year", JStr year')]%string)))).

Definition strings (l : list jsstring) : JsVal := JArr (List.map JStr l).

Definition emptyWarning : string :=
  "preprocessResume: Processed resume appears to be mostly empty".

(** Lines 149-216, for a given compact mode: the record after all
    assignments and the lines written by [console.warn]. *)
Definition applyCaps (compact : bool) (data : JsVal)
  : result (JsVal * list string) :=
  let h := hints compact in
  let experience := sanitized keepExperience (field data "experience") in
  let education := sanitized keepEducation (field data "education") in
  bind (mapM (experienceAsAchievement (maxBulletsPerExp h))
          (skipn (maxExperienceItems h) experience)) (fun expExtras =>
  let experience := firstn (maxExperienceItems h) experience in
  bind (mapM educationAsAchievement
          (skipn (maxEducationItems h) education)) (fun eduExtras =>
  let education := firstn (maxEducationItems h) education in
  let extraAchievements := filter nonempty (expExtras ++ eduExtras) in
  bind (mapM (capBullets (maxBulletsPerExp h) (truncateCharPerLine h))
          experience) (fun experience =>
  let data := with_prop data "experience" (JArr experience) in
  let data := with_prop data "education" (JArr education) in
  bind (match field data "certifications" with
        | JArr l => bind (mapM normalizeCertification l) (fun cs =>
                    Ok (firstn maxCertifications cs))
        | _ => Ok []
        end) (fun certifications =>
  let data := with_prop data "certifications" (JArr certifications) in
  bind (uniqStrings (field data "softSkills")) (fun softSkills =>
  let data := with_prop data "softSkills"
                (strings (firstn (maxSoftSkills compact) softSkills)) in
  bind (uniqStrings (field data "skills")) (fun skills =>
  let data := with_prop data "skills"
                (strings (firstn (maxSkills compact) skills)) in
  bind (uniqStrings (field data "languages")) (fun languages =>
  let data := with_prop data "languages"
                (strings (firstn (maxLanguages compact) languages)) in
  bind (match field data "achivements" with
        | JArr l => mapM or_empty_trim l
        | _ => Ok []
        end) (fun existingAch =>
  let combined := filter nonempty (uniq (existingAch ++ extraAchievements)) in
  let data := with_prop data "achivements"
                (strings (firstn (achCap compact) combined)) in
  let log :=
    if negb (truthy (field data "name")) && negb (truthy (field data "title"))
       && negb (truthy (field data "summary"))
       && (List.length experience =? 0)%nat
    then [emptyWarning] else [] in
  Ok (data, log))))))))).

(** [compactMode] (line 101). *)
Definition decideCompact (totalChars estimatedHeight : num) : bool :=
  let isPDFSafe := nle estimatedHeight (TemplateHelpers.zq 800) in
  ngt totalChars (TemplateHelpers.zq MEDIUM_CHARS) || negb isPDFSafe.

(** The function after the copy of line 56: [data] is the private copy. *)
Definition process (data : JsVal) : result (ProcessedResume * list string) :=
  bind (TemplateHelpers.estimateContentHeight data) (fun estimatedHeight =>
  bind (LayoutOptimizer.analyzeContent data) (fun contentMetrics =>
  bind (LayoutOptimizer.optimizeLayout data LayoutOptimizer.modern)
       (fun layoutConfig =>
  bind (totalChars data) (fun chars =>
  let compact := decideCompact chars estimatedHeight in
  bind (applyCaps compact data) (fun '(data, log) =>
  Ok ({| data := data;
         _layout := hints compact;
         _layoutConfig := layoutConfig;
         _contentMetrics := contentMetrics |}, log)))))).

Definition preprocessResume (input : JsVal)
  : result (ProcessedResume * list string) :=
  if negb (truthy input) then Throw InputRequired
  else
    let validatedData := TemplateHelpers.validateResumeData input in
    process (json_clone validatedData).

End Preprocess.

(* ===================================================================== *)
(** ** The store: objects, aliasing and the copy of line 56               *)
(* ===================================================================== *)

(** Objects and arrays live in a store and are held by reference, so that
    two properties can share one array.  [validateResumeData] builds a new
    object whose list properties are the input's own arrays;
    [JSON.parse(JSON.stringify(...))] then builds the private copy, and all
    the assignments of [preprocessResume] go to that copy. *)
Module Store.
Import Js.

Definition loc := nat.

Inductive hval : Type :=
| HUndef
| HNull
| HBool (b : bool)
| HNum (z : Z)
| HStr (s : jsstring)
| HRef (l : loc).

Inductive cell : Type :=
| CArr (elems : list hval)
| CObj (props : list (string * hval)).

(** A location is a position in the store; allocation appends. *)
Definition heap := list cell.

Definition alloc (h : heap) (c : cell) : heap * hval :=
  (h ++ [c], HRef (List.length h)).

(** [h[l] := c]. *)
Definition store (h : heap) (l : loc) (c : cell) : heap :=
  firstn l h ++ c :: skipn (S l) h.

Definition htruthy (v : hval) : bool :=
  match v with
  | HUndef | HNull => false
  | HBool b => b
  | HNum z => negb (z =? 0)
  | HStr s => match s with [] => false | _ => true end
  | HRef _ => true
  end.

Fixpoint hlookup (k : string) (ps : list (string * hval)) : hval :=
  match ps with
  | [] => HUndef
  | (k', v) :: r => if String.eqb k k' then v else hlookup k r
  end.

(** [v?.k]. *)
Definition hfield (h : heap) (v : hval) (k : string) : hval :=
  match v with
  | HRef l =>
      match nth_error h l with
      | Some (CObj ps) => hlookup k ps
      | _ => HUndef
      end
  | _ => HUndef
  end.

Definition hisArray (h : heap) (v : hval) : bool :=
  match v with
  | HRef l =>
      match nth_error h l with
      | Some (CArr _) => true
      | _ => false
      end
  | _ => false
  end.

Fixpoint mapO {A B} (f : A -> option B) (l : list A) : option (list B) :=
  match l with
  | [] => Some []
  | x :: r =>
      match f x, mapO f r with
      | Some y, Some ys => Some (y :: ys)
      | _, _ => None
      end
  end.

(** The tree that [JSON.stringify] walks through, before any property is
    dropped.  The walk fails on a circular structure: with more steps than
    the store has cells, a path must pass twice through one cell. *)
Fixpoint reify (fuel : nat) (h : heap) (v : hval) : option JsVal :=
  match v with
  | HUndef => Some JUndef
  | HNull => Some JNull
  | HBool b => Some (JBool b)
  | HNum z => Some (JNum z)
  | HStr s => Some (JStr s)
  | HRef l =>
      match fuel with
      | O => None
      | S fuel' =>
          match nth_error h l with
          | None => None
          | Some (CArr es) => option_map JArr (mapO (reify fuel' h) es)
          | Some (CObj ps) =>
              option_map JObj
                (mapO (fun p => option_map (pair (fst p))
                                  (reify fuel' h (snd p))) ps)
          end
      end
  end.

(** Building the elements of a list one after the other, each in the
    store left by the one before. *)
Definition thread {X Y} (f : X -> heap -> heap * Y)
  : list X -> heap -> heap * list Y :=
  fix go (l : list X) (h : heap) : heap * list Y :=
    match l with
    | [] => (h, [])
    | x :: r =>
        let '(h1, v) := f x h in
        let '(h2, vs) := go r h1 in
        (h2, v :: vs)
    end.

(** The objects that [JSON.parse] creates for a tree. *)
Fixpoint build (t : JsVal) (h : heap) : heap * hval :=
  match t with
  | JUndef => (h, HUndef)
  | JNull => (h, HNull)
  | JBool b => (h, HBool b)
  | JNum z => (h, HNum z)
  | JStr s => (h, HStr s)
  | JArr l =>
      let '(h', vs) := thread build l h in
      alloc h' (CArr vs)
  | JObj ps =>
      let '(h', vs) :=
        thread (fun p h => let '(h1, v) := build (snd p) h in
                           (h1, (fst p, v))) ps h in
      alloc h' (CObj vs)
  end.

(** The property values of an object, built one after the other. *)
Definition buildProps (ps : list (string * JsVal)) (h : heap)
  : heap * list (string * hval) :=
  thread (fun p h => let '(h1, v) := build (snd p) h in (h1, (fst p, v)))
    ps h.

(** [data?.k || '']. *)
Definition orEmpty (h : heap) (data : hval) (k : string) : hval :=
  if htruthy (hfield h data k) then hfield h data k else HStr [].

(** [Array.isArray(data?.k) ? data.k : []]: the input's own array, or a
    new empty one. *)
Definition orNoItems (h : heap) (data : hval) (k : string) : heap * hval :=
  if hisArray h (hfield h data k) then (h, hfield h data k)
  else alloc h (CArr []).

Definition validateResumeData (h : heap) (data : hval) : heap * hval :=
  let '(h, contact) :=
    alloc h (CObj [ ("phone", orEmpty h (hfield h data "contact") "phone");
                    ("email", orEmpty h (hfield h data "contact") "email");
                    ("address", orEmpty h (hfield h data "contact") "address");
                    ("linkedin",
                      orEmpty h (hfield h data "contact") "linkedin") ]%string)
  in
  let '(h, experience) := orNoItems h data "experience" in
  let '(h, education) := orNoItems h data "education" in
  let '(h, certifications) := orNoItems h data "certifications" in
  let '(h, achivements) := orNoItems h data "achivements" in
  let '(h, volunteer) := orNoItems h data "volunteer" in
  let '(h, skills) := orNoItems h data "skills" in
  let '(h, softSkills) := orNoItems h data "softSkills" in
  let '(h, languages) := orNoItems h data "languages" in
  let '(h, interests) := orNoItems h data "interests" in
  alloc h (CObj [ ("name", orEmpty h data "name");
                  ("title", orEmpty h data "title");
                  ("photoUrl", orEmpty h data "photoUrl");
                  ("contact", contact);
                  ("summary", orEmpty h data "summary");
                  ("experience", experience);
                  ("education", education);
                  ("certifications", certifications);
                  ("achivements", achivements);
                  ("volunteer", volunteer);
                  ("skills", skills);
                  ("softSkills", softSkills);
                  ("languages", languages);
                  ("interests", interests) ]%string).

(** The properties of the processed record, to be written to [data]. *)
Definition propsOf (v : JsVal) : list (string * JsVal) :=
  match v with
  | JObj ps => ps
  | _ => []
  end.

(** [data.k = ...] for every [k]: the cell of [data] is overwritten in
    place with property values that are new objects. *)
Definition assign (h : heap) (data : hval) (ps : list (string * JsVal))
  : heap :=
  let '(h', vs) := buildProps ps h in
  match data with
  | HRef l => store h' l (CObj vs)
  | _ => h'
  end.

(** [preprocessResume] with its effect on the store: the store after the
    call, and what is returned or thrown. *)
Definition preprocessResume (h : heap) (input : hval)
  : heap * result (hval * Preprocess.ProcessedResume * list string) :=
  if negb (htruthy input) then (h, Throw InputRequired)
  else
    let '(h1, validatedData) := validateResumeData h input in
    match reify (S (List.length h1)) h1 validatedData with
    | None => (h1, Throw TypeError)
    | Some tree =>
        let '(h2, data) := build (json_clone tree) h1 in
        match Preprocess.process (json_clone tree) with
        | Throw e => (h2, Throw e)
        | Ok (p, log) =>
            (assign h2 data (propsOf (Preprocess.data p)), Ok (data, p, log))
        end
    end.




End Store.


(* ===================================================================== *)
(** ** lib/layoutOptimizer.ts: classes and content limits                 *)
(* ===================================================================== *)

Module LayoutUtilities.
Import Js.

(** [a.slice(0, end)] for an integer [end]: a negative [end] counts from
    the end of [a]. *)
Definition slice_to {A} (a : list A) (e : Z) : list A :=
  firstn (Z.to_nat (if e <? 0 then Z.of_nat (List.length a) + e else e)) a.

Definition getFontSizeClass (size : Z) : string :=
  if size >=? 36 then "text-4xl"
  else if size >=? 30 then "text-3xl"
  else if size >=? 24 then "text-2xl"
  else if size >=? 20 then "text-xl"
  else if size >=? 18 then "text-lg"
  else if size >=? 16 then "text-base"
  else if size >=? 14 then "text-sm"
  else "text-xs".

Definition getSpacingClass (spacing : Z) : string :=
  if spacing >=? 32 then "mb-8"
  else if spacing >=? 24 then "mb-6"
  else if spacing >=? 16 then "mb-4"
  else if spacing >=? 12 then "mb-3"
  else "mb-2".

Record ResponsiveClasses : Type := {
  name : string;
  title : string;
  sectionTitle : string;
  body : string;
  small : string;
  sectionSpacing : string;
  itemSpacing : string;
  compact : string
}.

Definition getResponsiveClasses (config : LayoutOptimizer.LayoutConfig)
  : ResponsiveClasses :=
  {| name :=
       getFontSizeClass (LayoutOptimizer.nameFontSize config) ++ " font-bold";
     title :=
       getFontSizeClass (LayoutOptimizer.titleFontSize config)
       ++ " text-gray-600";
     sectionTitle :=
       getFontSizeClass (LayoutOptimizer.sectionTitleFontSize config)
       ++ " font-semibold";
     body := getFontSizeClass (LayoutOptimizer.bodyFontSize config);
     small :=
       getFontSizeClass (LayoutOptimizer.smallFontSize config)
       ++ " text-gray-500";
     sectionSpacing := getSpacingClass (LayoutOptimizer.sectionSpacing config);
     itemSpacing := getSpacingClass (LayoutOptimizer.itemSpacing config);
     compact :=
       if LayoutOptimizer.compactMode config then "space-y-1" else "space-y-2"
  |}%string.

(** [items.slice(0, maxItems)]: arrays and strings have the method. *)
Definition limitContent (items : JsVal) (maxItems : Z) : result JsVal :=
  match items with
  | JArr l => Ok (JArr (slice_to l maxItems))
  | JStr s => Ok (JStr (slice_to s maxItems))
  | _ => Throw TypeError
  end.

Definition limitBulletPoints (description : JsVal) (maxBullets : Z)
  : result JsVal :=
  match description with
  | JStr _ => Ok (JArr [description])
  | JArr l => Ok (JArr (slice_to l maxBullets))
  | _ => Throw TypeError
  end.

End LayoutUtilities.

(* ===================================================================== *)
(** ** The templates: what they show of a resume                          *)
(* ===================================================================== *)

(** The data handling of [components/templates/creative.tsx] (lines 50-119
    and the experience list of lines 267-276) and of the modern template
    ([src/unnamed/part_001], lines 65-118 and 213-249).  The markup is left
    out: a template is described by the entries and bullets it shows. *)
Module Templates.
Import Js.

(** [Array.isArray(a) ? a : []]. *)
Definition safeArr (a : JsVal) : list JsVal :=
  match a with
  | JArr l => l
  | _ => []
  end.

(** [s && s.length > n ? s.slice(0, n - 1).trim() + "…" : s]. *)
Definition truncate (n : Z) (s : JsVal) : result JsVal :=
  match s with
  | JStr t =>
      Ok (if truthy s && (Z.of_nat (List.length t) >? n)
          then JStr (trim (LayoutUtilities.slice_to t (n - 1))
                     ++ Preprocess.ellipsis)
          else s)
  | JArr l =>
      if Z.of_nat (List.length l) >? n then Throw TypeError else Ok s
  | _ => Ok s
  end.

Section Creative.

(** [data._layout], if the resume went through [preprocessResume]. *)
Variable layout : option Preprocess.LayoutHints.

(** [layout.k ?? d]. *)
Definition hint {A} (k : Preprocess.LayoutHints -> A) (d : A) : A :=
  match layout with
  | Some l => k l
  | None => d
  end.

Definition maxBullets : Z :=
  hint (fun l => Z.of_nat (Preprocess.maxBulletsPerExp l)) 4.
Definition maxExperienceItems : Z :=
  hint (fun l => Z.of_nat (Preprocess.maxExperienceItems l)) 6.
Definition maxEducationItems : Z :=
  hint (fun l => Z.of_nat (Preprocess.maxEducationItems l)) 6.
Definition truncateChars : Z :=
  hint (fun l => Z.of_nat (Preprocess.truncateCharPerLine l)) 220.
Definition compact : bool := hint Preprocess.compactMode false.

Definition limitedExperience (experience : JsVal) : list JsVal :=
  LayoutUtilities.slice_to (safeArr experience) maxExperienceItems.

Definition limitedEducation (education : JsVal) : list JsVal :=
  LayoutUtilities.slice_to (safeArr education) maxEducationItems.

(** The [description] of an entry of [processedExp]. *)
Definition processedDescription (exp : JsVal) : result (list JsVal) :=
  bind (prop exp "description") (fun d =>
  Ok (LayoutUtilities.slice_to (safeArr d) maxBullets)).

Definition processedCerts (certifications : JsVal) : list JsVal :=
  LayoutUtilities.slice_to (safeArr certifications) (if compact then 8 else 15).
Definition processedSkills (skills : JsVal) : list JsVal :=
  LayoutUtilities.slice_to (safeArr skills) (if compact then 12 else 25).
Definition processedAchievements (achivements : JsVal) : list JsVal :=
  LayoutUtilities.slice_to (safeArr achivements) (if compact then 6 else 12).
Definition processedVolunteer (volunteer : JsVal) : list JsVal :=
  LayoutUtilities.slice_to (safeArr volunteer) (if compact then 3 else 6).
Definition processedSoftSkills (softSkills : JsVal) : list JsVal :=
  LayoutUtilities.slice_to (safeArr softSkills) (if compact then 6 else 12).
Definition processedLanguages (languages : JsVal) : list JsVal :=
  LayoutUtilities.slice_to (safeArr languages) (if compact then 4 else 8).
Definition processedInterests (interests : JsVal) : list JsVal :=
  LayoutUtilities.slice_to (safeArr interests) (if compact then 6 else 12).

(** The bullets shown for one entry of [processedExp]:
    [exp.description.map((desc) => truncate(desc))]. *)
Definition creativeBullets (exp : JsVal) : result (list JsVal) :=
  bind (processedDescription exp) (mapM (truncate truncateChars)).

(** The experience section: one list of bullets for each entry shown. *)
Definition creativeExperience (data : JsVal) : result (list (list JsVal)) :=
  mapM creativeBullets (limitedExperience (field data "experience")).

End Creative.

Section Modern.

(** [(data as any)._layoutConfig || optimizeLayout(data, 'modern')]. *)
Definition modernLayoutConfig (given : option LayoutOptimizer.LayoutConfig)
    (data : JsVal) : result LayoutOptimizer.LayoutConfig :=
  match given with
  | Some c => Ok c
  | None => LayoutOptimizer.optimizeLayout data LayoutOptimizer.modern
  end.

Variable layoutConfig : LayoutOptimizer.LayoutConfig.

Definition modernTruncateChars : Z :=
  if LayoutOptimizer.compactMode layoutConfig then 180 else 220.

(** [limitBulletPoints(exp.description || [], maxBullets)
       .map((d) => truncate(d))]. *)
Definition modernBullets (exp : JsVal) : result (list JsVal) :=
  bind (prop exp "description") (fun d =>
  bind (LayoutUtilities.limitBulletPoints (or_ d (JArr []))
          (LayoutOptimizer.maxBulletsPerExp layoutConfig)) (fun shown =>
  bind (as_array shown) (mapM (truncate modernTruncateChars)))).

(** The experience section:
    [experience.length > 0 &&
       limitContent(experience, maxExperienceItems).map(...)], where
    [experience] is [data.experience], or [[]] when that is [undefined]. *)
Definition modernExperience (data : JsVal) : result (list (list JsVal)) :=
  let experience :=
    match field data "experience" with
    | JUndef => JArr []
    | v => v
    end in
  if nullish experience then Throw TypeError
  else if optLen experience >? 0 then
    bind (LayoutUtilities.limitContent experience
            (LayoutOptimizer.maxExperienceItems layoutConfig)) (fun shown =>
    bind (as_array shown) (mapM modernBullets))
  else Ok [].

End Modern.

End Templates.

(* ===================================================================== *)
(** ** The submit handler of the home page                                *)
(* ===================================================================== *)

(** [handleSubmit] in [components/templateindex.tsx] (lines 821-858), from
    the point where the answer of the server has been parsed: [data] is
    [payload?.data]. *)
Module HomeContent.
Import Js.

Inductive Outcome : Type :=
| InvalidData                      (* "Model returned invalid resume data." *)
| Processed (processed : Preprocess.ProcessedResume) (log : list string)
| RawData (data : JsVal).          (* "falling back to raw data" *)

Definition handleSubmit (data : JsVal) : Outcome :=
  if negb (truthy data) || negb (truthy (field data "name")) then InvalidData
  else
    match Preprocess.preprocessResume data with
    | Ok (processed, log) => Processed processed log
    | Throw _ => RawData data
    end.

End HomeContent.

(* ===================================================================== *)
(** ** The Gemini model selector (lib/layoutOptimizer.ts, lines 368-640)  *)
(* ===================================================================== *)

(** The selector is a class with three private fields.  [models] and
    [fallbackChain] are written by the constructor only; the [ModelUsage]
    objects held by the [usage] map are mutated in place by the methods and
    are reachable through that map alone, so a mutation is an update of
    the map.  Every method that needs the time calls [Date.now()]; the
    embedding numbers these calls and takes the value of the n-th call from
    the environment.  Token counts are integers. *)
Module GeminiModelSelector.

Record GeminiModel : Type := {
  name : string;
  rpm : Z;
  tpm : Z;
  rpd : Z;
  priority : Z
}.

Record ModelUsage : Type := {
  requestsThisMinute : Z;
  requestsToday : Z;
  tokensThisMinute : Z;
  lastResetMinute : Z;
  lastResetDay : Z
}.

Definition GEMINI_MODELS : list GeminiModel :=
  [ {| name := "gemini-2.5-pro"; rpm := 5; tpm := 250000; rpd := 100;
       priority := 5 |};
    {| name := "gemini-2.5-flash"; rpm := 10; tpm := 250000; rpd := 250;
       priority := 4 |};
    {| name := "gemini-2.0-flash"; rpm := 15; tpm := 1000000; rpd := 200;
       priority := 3 |};
    {| name := "gemini-2.5-flash-lite"; rpm := 15; tpm := 250000; rpd := 1000;
       priority := 2 |};
    {| name := "gemini-2.0-flash-lite"; rpm := 30; tpm := 1000000; rpd := 200;
       priority := 1 |} ]%string.

(** A [Map] with string keys: the entries in insertion order. *)
Definition Map (V : Type) : Type := list (string * V).

Fixpoint get {V} (k : string) (m : Map V) : option V :=
  match m with
  | [] => None
  | (k', v) :: r => if String.eqb k k' then Some v else get k r
  end.

(** [m.set(k, v)]: a known key keeps its place. *)
Fixpoint set {V} (k : string) (v : V) (m : Map V) : Map V :=
  match m with
  | [] => [(k, v)]
  | (k', x) :: r =>
      if String.eqb k k' then (k, v) :: r else (k', x) :: set k v r
  end.

Record Selector : Type := {
  models : Map GeminiModel;
  usage : Map ModelUsage;
  fallbackChain : list string
}.

(** The selector together with the number of calls of [Date.now()] made
    so far. *)
Record World : Type := {
  self : Selector;
  reads : nat
}.

(** [Array.prototype.sort((a, b) => b.priority - a.priority)]: a stable
    sort, highest priority first. *)
Fixpoint insertByPriority (m : GeminiModel) (sorted : list GeminiModel)
  : list GeminiModel :=
  match sorted with
  | [] => [m]
  | x :: r =>
      if priority m <? priority x then x :: insertByPriority m r
      else m :: sorted
  end.

Definition sortByPriority (l : list GeminiModel) : list GeminiModel :=
  fold_right insertByPriority [] l.

(** [Array.prototype.indexOf]: [-1] when the element is absent. *)
Fixpoint indexOf (x : string) (l : list string) : Z :=
  match l with
  | [] => -1
  | y :: r =>
      if String.eqb x y then 0
      else let i := indexOf x r in if i <? 0 then -1 else i + 1
  end.

Inductive UseCase : Type := resume_generation | simple_task | complex_analysis.

Definition tokenEstimates (useCase : UseCase) : Z :=
  match useCase with
  | resume_generation => 2000
  | simple_task => 500
  | complex_analysis => 5000
  end.

(** A parameter with a default value: [None] is an omitted argument. *)
Definition orDefault {A} (d : A) (given : option A) : A :=
  match given with
  | Some a => a
  | None => d
  end.

(** The statistics of one model, as [getUsageStats] reports them. *)
Record ModelStats : Type := {
  stat_rpm : Z;
  stat_tpm : Z;
  stat_rpd : Z;
  stat_priority : Z;
  current_requestsThisMinute : Z;
  current_requestsToday : Z;
  current_tokensThisMinute : Z;
  current_available : bool;
  rpmUsage : Js.jsstring;
  rpdUsage : Js.jsstring;
  tpmUsage : Js.jsstring
}.

(** Computations that read and update the selector and read the clock. *)
Definition M (A : Type) : Type := World -> A * World.

Definition ret {A} (a : A) : M A := fun w => (a, w).

Definition bindM {A B} (c : M A) (k : A -> M B) : M B :=
  fun w => let (a, w') := c w in k a w'.

Notation "x <- c ;; k" := (bindM c (fun x => k))
  (at level 61, c at next level, right associativity).
Notation "c ;;; k" := (bindM c (fun _ => k))
  (at level 61, right associativity).

Definition getModel (modelName : string) : M (option GeminiModel) :=
  fun w => (get modelName (models (self w)), w).

Definition getUsage (modelName : string) : M (option ModelUsage) :=
  fun w => (get modelName (usage (self w)), w).

Definition getFallbackChain : M (list string) :=
  fun w => (fallbackChain (self w), w).

(** An assignment to fields of the usage object of [modelName]. *)
Definition mutate (modelName : string) (f : ModelUsage -> ModelUsage)
  : M unit :=
  fun w =>
    match get modelName (usage (self w)) with
    | Some u =>
        (tt, {| self := {| models := models (self w);
                           usage := set modelName (f u) (usage (self w));
                           fallbackChain := fallbackChain (self w) |};
                reads := reads w |})
    | None => (tt, w)
    end.

Section Clock.

(** [Date_now n] is what the call number [n] of [Date.now()] returns, in
    milliseconds. *)
Variable Date_now : nat -> Z.

Definition now : M Z :=
  fun w => (Date_now (reads w), {| self := self w; reads := S (reads w) |}).

Definition getCurrentMinute : M Z :=
  ms <- now ;; ret (ms / (1000 * 60)).

Definition getCurrentDay : M Z :=
  ms <- now ;; ret (ms / (1000 * 60 * 60 * 24)).

(** The two [if] statements of [resetCountersIfNeeded]. *)
Definition resetMinute (currentMinute : Z) (u : ModelUsage) : ModelUsage :=
  if currentMinute >? lastResetMinute u then
    {| requestsThisMinute := 0;
       requestsToday := requestsToday u;
       tokensThisMinute := 0;
       lastResetMinute := currentMinute;
       lastResetDay := lastResetDay u |}
  else u.

Definition resetDay (currentDay : Z) (u : ModelUsage) : ModelUsage :=
  if currentDay >? lastResetDay u then
    {| requestsThisMinute := requestsThisMinute u;
       requestsToday := 0;
       tokensThisMinute := tokensThisMinute u;
       lastResetMinute := lastResetMinute u;
       lastResetDay := currentDay |}
  else u.

Definition resetCountersIfNeeded (modelName : string) : M unit :=
  usage <- getUsage modelName ;;
  match usage with
  | None => ret tt
  | Some _ =>
      currentMinute <- getCurrentMinute ;;
      currentDay <- getCurrentDay ;;
      mutate modelName (fun u => resetDay currentDay (resetMinute currentMinute u))
  end.

(** The three rate limits. *)
Definition withinLimits (model : GeminiModel) (usage : ModelUsage)
    (estimatedTokens : Z) : bool :=
  let withinRPM := requestsThisMinute usage <? rpm model in
  let withinTPM := tokensThisMinute usage + estimatedTokens <=? tpm model in
  let withinRPD := requestsToday usage <? rpd model in
  withinRPM && withinTPM && withinRPD.

Definition isModelAvailable (modelName : string) (estimatedTokens : option Z)
  : M bool :=
  let estimatedTokens := orDefault 1000 estimatedTokens in
  model <- getModel modelName ;;
  usage <- getUsage modelName ;;
  match model, usage with
  | Some model, Some _ =>
      resetCountersIfNeeded modelName ;;;
      usage <- getUsage modelName ;;   (* the same object, after the resets *)
      match usage with
      | Some usage => ret (withinLimits model usage estimatedTokens)
      | None => ret false
      end
  | _, _ => ret false
  end.

(** [for (const modelName of chain)
       if (this.isModelAvailable(modelName, estimatedTokens)) return modelName;
     return null]. *)
Fixpoint firstAvailable (chain : list string) (estimatedTokens : Z)
  : M (option string) :=
  match chain with
  | [] => ret None
  | modelName :: rest =>
      available <- isModelAvailable modelName (Some estimatedTokens) ;;
      if available : bool then ret (Some modelName)
      else firstAvailable rest estimatedTokens
  end.

Definition selectModel (estimatedTokens : option Z)
    (preferHighPerformance : option bool) : M (option string) :=
  let estimatedTokens := orDefault 1000 estimatedTokens in
  chain <- getFallbackChain ;;
  if orDefault true preferHighPerformance
  then firstAvailable chain estimatedTokens
  else firstAvailable (rev chain) estimatedTokens.

Definition recordUsage (modelName : string) (actualTokens : Z) : M unit :=
  usage <- getUsage modelName ;;
  match usage with
  | None => ret tt
  | Some _ =>
      resetCountersIfNeeded modelName ;;;
      mutate modelName (fun u =>
        {| requestsThisMinute := requestsThisMinute u + 1;
           requestsToday := requestsToday u + 1;
           tokensThisMinute := tokensThisMinute u + actualTokens;
           lastResetMinute := lastResetMinute u;
           lastResetDay := lastResetDay u |})
  end.

(** [`${a}/${b}`]. *)
Definition ratio (a b : Z) : Js.jsstring :=
  (Js.Number_toString a ++ Js.lit "/" ++ Js.Number_toString b)%list.

(** The callback of [this.models.forEach] in [getUsageStats]: the entry of
    [stats] for one model, if any. *)
Definition statsOf (name : string) (model : GeminiModel)
  : M (option ModelStats) :=
  usage <- getUsage name ;;
  resetCountersIfNeeded name ;;;
  match usage with
  | None => ret None
  | Some _ =>
      current <- getUsage name ;;
      available <- isModelAvailable name None ;;
      after <- getUsage name ;;
      match current, after with
      | Some current, Some after =>
          ret (Some
            {| stat_rpm := rpm model;
               stat_tpm := tpm model;
               stat_rpd := rpd model;
               stat_priority := priority model;
               current_requestsThisMinute := requestsThisMinute current;
               current_requestsToday := requestsToday current;
               current_tokensThisMinute := tokensThisMinute current;
               current_available := available;
               rpmUsage := ratio (requestsThisMinute after) (rpm model);
               rpdUsage := ratio (requestsToday after) (rpd model);
               tpmUsage := ratio (tokensThisMinute after) (tpm model) |})
      | _, _ => ret None
      end
  end.

Fixpoint forEachModel (ms : Map GeminiModel)
    (stats : Map ModelStats) : M (Map ModelStats) :=
  match ms with
  | [] => ret stats
  | (name, model) :: rest =>
      entry <- statsOf name model ;;
      forEachModel rest
        (match entry with
         | Some e => set name e stats
         | None => stats
         end)
  end.

Definition getUsageStats : M (Map ModelStats) :=
  fun w => forEachModel (models (self w)) [] w.

Definition getNextBestModel (currentModel : string)
    (estimatedTokens : option Z) : M (option string) :=
  let estimatedTokens := orDefault 1000 estimatedTokens in
  chain <- getFallbackChain ;;
  let currentIndex := indexOf currentModel chain in
  firstAvailable (skipn (Z.to_nat (currentIndex + 1)) chain) estimatedTokens.

Definition highPerfModels : list string :=
  ["gemini-2.5-pro"; "gemini-2.5-flash"; "gemini-2.0-flash"]%string.

Definition selectForUseCase (useCase : UseCase) (estimatedTokens : option Z)
  : M (option string) :=
  (* [estimatedTokens || tokenEstimates[useCase]]: zero counts as omitted *)
  let tokens :=
    match estimatedTokens with
    | Some t => if t =? 0 then tokenEstimates useCase else t
    | None => tokenEstimates useCase
    end in
  match useCase with
  | resume_generation => selectModel (Some tokens) (Some true)
  | simple_task => selectModel (Some tokens) (Some false)
  | complex_analysis => firstAvailable highPerfModels tokens
  end.

(** The constructor: the body of [GEMINI_MODELS.forEach], then the chain. *)
Definition register (model : GeminiModel) : M unit :=
  minute <- getCurrentMinute ;;
  day <- getCurrentDay ;;
  fun w =>
    (tt, {| self :=
              {| models := set (name model) model (models (self w));
                 usage := set (name model)
                            {| requestsThisMinute := 0;
                               requestsToday := 0;
                               tokensThisMinute := 0;
                               lastResetMinute := minute;
                               lastResetDay := day |}
                            (usage (self w));
                 fallbackChain := fallbackChain (self w) |};
            reads := reads w |}).

Fixpoint forEach {A} (f : A -> M unit) (l : list A) : M unit :=
  match l with
  | [] => ret tt
  | x :: r => f x ;;; forEach f r
  end.

Definition constructor : M unit :=
  forEach register GEMINI_MODELS ;;;
  fun w =>
    (tt, {| self := {| models := models (self w);
                       usage := usage (self w);
                       fallbackChain :=
                         List.map name (sortByPriority GEMINI_MODELS) |};
            reads := reads w |}).

(** [new GeminiModelSelector()], when [Date.now()] has been called [n]
    times before. *)
Definition newSelector (n : nat) : World :=
  snd (constructor
         {| self := {| models := []; usage := []; fallbackChain := [] |};
            reads := n |}).

End Clock.

End GeminiModelSelector.

(* ===================================================================== *)
(** ** The statistics endpoint                                            *)
(* ===================================================================== *)

(** The statistics endpoint (pages/api, in src/unnamed/part_002): what it
    answers to a request with the given method.  The time stamp of the
    summary is left out. *)
Module StatsEndpoint.
Import GeminiModelSelector.

Record Summary : Type := {
  totalModels : Z;
  availableModels : Z;
  recommendedModel : option string
}.

Inductive Response : Type :=
| MethodNotAllowed                                       (* status 405 *)
| Statistics (summary : Summary) (models : Map ModelStats). (* status 200 *)

Definition handler (Date_now : nat -> Z) (method : string) : M Response :=
  if negb (String.eqb method "GET") then ret MethodNotAllowed
  else
    stats <- getUsageStats Date_now ;;
    recommended <- selectForUseCase Date_now resume_generation None ;;
    ret (Statistics
           {| totalModels := Z.of_nat (List.length stats);
              availableModels :=
                Z.of_nat (List.length
                            (filter current_available (List.map snd stats)));
              recommendedModel := recommended |}
           stats).

End StatsEndpoint.

(* ===================================================================== *)
(** ** Vocabulary of the statements and example resumes                   *)
(* ===================================================================== *)

Import Js.

(** *** Layout configurations *)
Section LayoutVocabulary.
Import LayoutOptimizer.

(** The floors of the [overflow] and [dense] branches and the ceilings of
    the [sparse] branch; where a branch has no bound of its own the largest
    (smallest) base value closes the interval. *)
Definition within_ranges (t : TemplateType) (c : LayoutConfig) : Prop :=
  26 <= nameFontSize c <= 40 /\
  15 <= titleFontSize c <= 22 /\
  13 <= sectionTitleFontSize c <= 17 /\
  11 <= bodyFontSize c <= 14 /\
  10 <= smallFontSize c <= 11 /\
  16 <= sectionSpacing c <= 36 /\
  10 <= itemSpacing c <= 22 /\
  ((13 # 10) <= lineHeight c /\ lineHeight c <= (16 # 10))%Q /\
  24 <= containerPadding c <= 40 /\
  match t with
  | modern => exists w, sidebarWidth c = Some w /\ 180 <= w <= 250
  | _ => sidebarWidth c = None
  end.

(** The inputs on which [analyzeContent] returns: [data] is not [null] or
    [undefined], and [data.experience] is absent or an array without
    [null] entries. *)
Definition analyzable (data : JsVal) : bool :=
  negb (nullish data) &&
  match field data "experience" with
  | JUndef | JNull => true
  | JArr l => forallb (fun e => negb (nullish e)) l
  | _ => false
  end.

End LayoutVocabulary.

(** *** Resumes and processed records *)
Section ResumeVocabulary.
Import Preprocess.

(** A string without white space at either end. *)
Definition trimmed (s : jsstring) : Prop :=
  match s with
  | [] => True
  | c :: r => is_ws c = false /\ is_ws (last r c) = false
  end.

(** A value that [JSON.parse] can produce: no [undefined] inside. *)
Fixpoint isJSON (v : JsVal) : bool :=
  match v with
  | JUndef => false
  | JArr l => forallb isJSON l
  | JObj ps => forallb (fun p => isJSON (snd p)) ps
  | _ => true
  end.

(** The values on which the embedding is exact.  Every number is an
    integer below 2^52 in magnitude: such an integer and the sum of two of
    them are exact doubles, printed with all their digits.  No object has
    an own property [toString], which would replace the inherited method,
    or [length], which a read of [.length] would find. *)
Definition plainKey (k : string) : bool :=
  negb (String.eqb k "toString") && negb (String.eqb k "length").

Fixpoint ordinary (v : JsVal) : bool :=
  match v with
  | JNum z => Z.abs z <? 2 ^ 52
  | JArr l => forallb ordinary l
  | JObj ps => forallb (fun p => plainKey (fst p) && ordinary (snd p)) ps
  | _ => true
  end.

(** The elements of an array; nothing for any other value. *)
Definition items (v : JsVal) : list JsVal :=
  match v with
  | JArr l => l
  | _ => []
  end.

(** [data] as bound at line 56. *)
Definition privateCopy (input : JsVal) : JsVal :=
  json_clone (TemplateHelpers.validateResumeData input).

(** The entries that survive the filters of lines 152-153. *)
Definition experiencesOf (d : JsVal) : list JsVal :=
  sanitized keepExperience (field d "experience").

Definition educationsOf (d : JsVal) : list JsVal :=
  sanitized keepEducation (field d "education").

(** The seven assignments of lines 157-191, in program order. *)
Definition assignAll (d : JsVal) (experience education certifications : list JsVal)
    (softSkills skills languages achivements : list jsstring) : JsVal :=
  let d := with_prop d "experience" (JArr experience) in
  let d := with_prop d "education" (JArr education) in
  let d := with_prop d "certifications" (JArr certifications) in
  let d := with_prop d "softSkills" (strings softSkills) in
  let d := with_prop d "skills" (strings skills) in
  let d := with_prop d "languages" (strings languages) in
  with_prop d "achivements" (strings achivements).

Definition normalizedCertifications (v : JsVal) : result (list JsVal) :=
  match v with
  | JArr l => bind (mapM normalizeCertification l) (fun cs =>
              Ok (firstn maxCertifications cs))
  | _ => Ok []
  end.

Definition trimmedAchievements (v : JsVal) : result (list jsstring) :=
  match v with
  | JArr l => mapM or_empty_trim l
  | _ => Ok []
  end.

(** The test of line 212. *)
Definition mostlyEmpty (d : JsVal) : bool :=
  negb (truthy (field d "name")) && negb (truthy (field d "title"))
  && negb (truthy (field d "summary"))
  && (List.length (items (field d "experience")) =? 0)%nat.

Definition warningFor (d : JsVal) : list string :=
  if mostlyEmpty d then [emptyWarning] else [].

(** [(v || "")] is a string: [v] is a string or a falsy value. *)
Definition textual (v : JsVal) : bool :=
  match or_ v (JStr []) with
  | JStr _ => true
  | _ => false
  end.

(** A list property: anything that is not an array is replaced by [[]]
    by the validator, an array must have acceptable entries. *)
Definition listOf (ok : JsVal -> bool) (v : JsVal) : bool :=
  forallb ok (items v).

(** [(d || [])] is an array of texts. *)
Definition bulletsOk (d : JsVal) : bool :=
  match or_ d (JArr []) with
  | JArr l => forallb textual l
  | _ => false
  end.

Definition experienceOk (e : JsVal) : bool :=
  negb (nullish e) && bulletsOk (field e "description").

Definition educationOk (e : JsVal) : bool :=
  negb (nullish e) && textual (field e "year").

Definition certificationOk (c : JsVal) : bool :=
  negb (nullish c) && textual (field c "name") && textual (field c "year").

Definition volunteerOk (v : JsVal) : bool :=
  isArray (or_ (field v "description") (JArr [])).

(** The resumes on which no method is called on a value that lacks it:
    every property may be missing, [null] or of another type than
    expected, except inside the lists.  There an entry whose properties
    are read is not [null]; a value that is trimmed (a skill, a soft
    skill, a language, an achievement, a bullet of an experience entry,
    the year of an education entry, the name and the year of a
    certification) is a string or falsy; and a description is an array or
    falsy.  The values that are only printed (role, company, duration,
    degree, school, the texts of a volunteer entry) are left open: they
    print unless [ToString] raises, which [ordinary] excludes. *)
Definition tolerated (input : JsVal) : bool :=
  listOf experienceOk (field input "experience")
  && listOf educationOk (field input "education")
  && listOf certificationOk (field input "certifications")
  && listOf textual (field input "achivements")
  && listOf volunteerOk (field input "volunteer")
  && listOf textual (field input "skills")
  && listOf textual (field input "softSkills")
  && listOf textual (field input "languages").

(** An entry that is there and has one of two texts: an experience entry
    with a role or a company, an education entry with a degree or a
    school. *)
Definition withHeading (a b : string) (e : JsVal) : bool :=
  truthy e && (truthy (field e a) || truthy (field e b)).

(** The experience entries of the input with a role or a company, and
    its education entries with a degree or a school. *)
Definition keptExperience (input : JsVal) : list JsVal :=
  filter (withHeading "role" "company") (items (field input "experience")).

Definition keptEducation (input : JsVal) : list JsVal :=
  filter (withHeading "degree" "school") (items (field input "education")).

(** How the processed record [p] is built from a JSON [input]. *)
Definition processed_from (input : JsVal) (p : ProcessedResume) : Prop :=
  let h := _layout p in
  let c := compactMode h in
  exists expExtras eduExtras experience certs soft skills langs existing,
    h = hints c /\
    mapM (experienceAsAchievement (maxBulletsPerExp h))
      (skipn (maxExperienceItems h) (keptExperience input)) = Ok expExtras /\
    mapM educationAsAchievement
      (skipn (maxEducationItems h) (keptEducation input)) = Ok eduExtras /\
    mapM (capBullets (maxBulletsPerExp h) (truncateCharPerLine h))
      (firstn (maxExperienceItems h) (keptExperience input)) = Ok experience /\
    mapM normalizeCertification (items (field input "certifications"))
      = Ok certs /\
    mapM or_empty_trim (items (field input "softSkills")) = Ok soft /\
    mapM or_empty_trim (items (field input "skills")) = Ok skills /\
    mapM or_empty_trim (items (field input "languages")) = Ok langs /\
    mapM or_empty_trim (items (field input "achivements")) = Ok existing /\
    data p =
      assignAll (TemplateHelpers.validateResumeData input)
        experience
        (firstn (maxEducationItems h) (keptEducation input))
        (firstn maxCertifications certs)
        (firstn (maxSoftSkills c) (uniq (filter nonempty soft)))
        (firstn (maxSkills c) (uniq (filter nonempty skills)))
        (firstn (maxLanguages c) (uniq (filter nonempty langs)))
        (firstn (achCap c)
           (filter nonempty
              (uniq (existing ++ filter nonempty (expExtras ++ eduExtras))))).

(** Past the test of line 50 only the runtime raises. *)
Definition runtime_only {A} (r : result A) : Prop := r <> Throw InputRequired.

(** The shape of a normalized list of strings. *)
Definition normal_strings (cap : nat) (l : list jsstring) : Prop :=
  NoDup l /\ Forall (fun s => trim s = s /\ s <> []) l
  /\ (List.length l <= cap)%nat.

(** A certification after line 182: two trimmed strings. *)
Definition normal_certification (c : JsVal) : Prop :=
  exists name year,
    c = JObj [("name", JStr name); ("year", JStr year)]%string /\
    trim name = name /\ trim year = year.

(** The achievement strings made from the entries beyond the caps, in the
    order in which lines 158-172 push them. *)
Definition relocated (h : LayoutHints) (input : JsVal)
  : result (list jsstring) :=
  bind (mapM (experienceAsAchievement (maxBulletsPerExp h))
          (skipn (maxExperienceItems h) (keptExperience input)))
       (fun expExtras =>
  bind (mapM educationAsAchievement
          (skipn (maxEducationItems h) (keptEducation input)))
       (fun eduExtras =>
  Ok (filter nonempty (expExtras ++ eduExtras)))).

(** [`${role} — ${company}`.trim()] for a printed role and company. *)
Definition heading (role company : jsstring) : jsstring :=
  trim (role ++ emDash ++ company).

(** An experience entry as [capBullets] leaves it. *)
Definition settled_entry (maxBullets limit : nat) (e : JsVal) : Prop :=
  keepExperience e = true /\ isJSON e = true /\
  exists bullets,
    field e "description" = strings bullets /\
    (List.length bullets <= maxBullets)%nat /\
    Forall (fun s => trim s = s /\ (List.length s <= limit)%nat) bullets.

(** The processed record, property by property. *)
Definition processedObject (input : JsVal) (ex ed ce : list JsVal)
    (so sk la ac : list jsstring) : JsVal :=
  JObj
    [ ("name", TemplateHelpers.orEmpty input "name");
      ("title", TemplateHelpers.orEmpty input "title");
      ("photoUrl", TemplateHelpers.orEmpty input "photoUrl");
      ("contact",
        JObj [ ("phone", TemplateHelpers.orEmpty (field input "contact") "phone");
               ("email", TemplateHelpers.orEmpty (field input "contact") "email");
               ("address",
                 TemplateHelpers.orEmpty (field input "contact") "address");
               ("linkedin",
                 TemplateHelpers.orEmpty (field input "contact") "linkedin") ]);
      ("summary", TemplateHelpers.orEmpty input "summary");
      ("experience", JArr ex);
      ("education", JArr ed);
      ("certifications", JArr ce);
      ("achivements", strings ac);
      ("volunteer", JArr (items (field input "volunteer")));
      ("skills", strings sk);
      ("softSkills", strings so);
      ("languages", strings la);
      ("interests", JArr (items (field input "interests"))) ]%string.

(** What the first pass establishes about the lists it assigns. *)
Definition settled (c : bool) (ex ed ce : list JsVal)
    (so sk la ac : list jsstring) : Prop :=
  let h := hints c in
  Forall (settled_entry (maxBulletsPerExp h) (truncateCharPerLine h)) ex /\
  (List.length ex <= maxExperienceItems h)%nat /\
  Forall (fun e => keepEducation e = true /\ educationOk e = true
                   /\ isJSON e = true) ed /\
  (List.length ed <= maxEducationItems h)%nat /\
  Forall normal_certification ce /\
  (List.length ce <= maxCertifications)%nat /\
  normal_strings (maxSoftSkills c) so /\
  normal_strings (maxSkills c) sk /\
  normal_strings (maxLanguages c) la /\
  normal_strings (achCap c) ac.

End ResumeVocabulary.

(** *** Stores *)
Section StoreVocabulary.
Import Store.




End StoreVocabulary.

(** *** Example resumes *)
Section Examples.
Import Preprocess.

Definition str (s : string) : JsVal := JStr (lit s).

(** A certification whose year came back from the model as a number. *)
Definition numericYearResume : JsVal :=
  JObj [ ("name", str "Ada");
         ("certifications",
           JArr [ JObj [("name", str "AWS"); ("year", JNum 2020)] ]) ]%string.

(** A resume whose optional properties are missing or of another type
    than declared: no name, a number as title, a string where the skills
    should be, an object where the education should be, and an experience
    entry with a number, an object and [null] where its texts should be. *)
Definition looselyTypedResume : JsVal :=
  JObj [ ("title", JNum 7);
         ("skills", str "none");
         ("education", JObj [("degree", str "BSc")]);
         ("experience",
           JArr [ JObj [ ("role", JNum 7); ("company", JObj []);
                         ("duration", JBool true);
                         ("description", JNull) ] ]) ]%string.

(** The same certification listed twice. *)
Definition awsCertification : JsVal :=
  JObj [("name", str "AWS"); ("year", str "2020")]%string.

Definition twiceCertifiedResume : JsVal :=
  JObj [ ("name", str "Ada");
         ("certifications", JArr [awsCertification; awsCertification]) ]%string.

(** Experience entries with a role and a company, with a company only,
    with neither, and with a role only; education entries with a school
    only, with neither a degree nor a school, and with a degree only. *)
Definition mixedEntriesResume : JsVal :=
  JObj [ ("name", str "Ada");
         ("experience",
           JArr [ JObj [("role", str "Engineer"); ("company", str "Acme")];
                  JObj [("company", str "Initech")];
                  JObj [ ("duration", str "2019");
                         ("description", JArr [str "Built things"]) ];
                  JObj [("role", str "Consultant"); ("company", str "")] ]);
         ("education",
           JArr [ JObj [("school", str "MIT")];
                  JObj [("year", str "2001")];
                  JObj [("degree", str "BSc"); ("school", JNull)] ]) ]%string.

(** Lists with padded, repeated and empty entries. *)
Definition paddedListsResume : JsVal :=
  JObj [ ("name", str "Ada");
         ("skills",
           JArr [str " Rocq "; str "OCaml"; str "Rocq"; str "";
                 str "rocq"; JNull]);
         ("softSkills", JArr [str "Writing"; str "  "; str "Writing "]);
         ("languages", JArr [str "English"; str "German"; str "English"]);
         ("certifications",
           JArr [ JObj [("name", str " AWS "); ("year", str "2020 ")];
                  JObj [("name", str "AWS"); ("year", str "2020")] ]) ]%string.

(** Achievements that differ only by white space, and an empty one. *)
Definition paddedAchievementsResume : JsVal :=
  JObj [ ("name", str "Ada");
         ("achivements",
           JArr [str " Led team "; str "Led team"; str "";
                 str "Shipped X"]) ]%string.

(** A compact resume (the name alone has more than 2200 characters) with
    one job and one school more than the compact caps of 3 and 2, and an
    achievement that repeats what the fourth job becomes. *)
Definition overfullResume : JsVal :=
  JObj [ ("name", JStr (repeat 120%N 2300));
         ("experience",
           JArr [ JObj [("role", str "Role 1"); ("company", str "Company 1")];
                  JObj [("role", str "Role 2"); ("company", str "Company 2")];
                  JObj [("role", str "Role 3"); ("company", str "Company 3")];
                  JObj [ ("role", str "Role 4"); ("company", str "Company 4");
                         ("description",
                           JArr [str " Built things "; str "";
                                 str "Shipped X"]) ] ]);
         ("education",
           JArr [ JObj [("degree", str "PhD"); ("school", str "MIT");
                        ("year", str "2005")];
                  JObj [("degree", str "MSc"); ("school", str "MIT");
                        ("year", str "2003")];
                  JObj [("degree", str "BSc"); ("school", str "MIT");
                        ("year", str " 2001 ")] ]);
         ("achivements",
           JArr [ str "Led team";
                  JStr (lit "Role 4" ++ emDash ++ lit "Company 4"
                        ++ bulletSep ++ lit "Built things")%list ]) ]%string.

(** Eight jobs and one achievement, not compact. *)
Definition eightJobsOnlyResume : JsVal :=
  JObj [ ("name", str "Ada");
         ("experience",
           JArr (List.map
                   (fun n => JObj [ ("role", str ("Role " ++ n));
                                    ("company", str ("Company " ++ n)) ])
                   ["1"; "2"; "3"; "4"; "5"; "6"; "7"; "8"]))%string;
         ("achivements", JArr [str "Led team"]) ]%string.

(** An entry whose role is an object with an own property [toString]. *)
Definition unprintableRoleResume : JsVal :=
  JObj [ ("name", str "Ada");
         ("experience",
           JArr [ JObj [ ("role", JObj [("toString", str "x")]);
                         ("company", str "Acme") ] ]) ]%string.

Definition ledTeamResume : JsVal :=
  JObj [ ("name", str "Ada");
         ("achivements",
           JArr [str "Led team"; str "Led team"; str "Shipped X"]) ]%string.

Definition job (n : string) : JsVal :=
  JObj [ ("role", str ("Role " ++ n));
         ("company", str ("Company " ++ n)) ]%string.

Definition eightJobs : JsVal :=
  JArr (List.map job ["1"; "2"; "3"; "4"; "5"; "6"; "7"; "8"]%string).

(** Eight jobs and an achievements list that is already full. *)
Definition crowdedResume : JsVal :=
  JObj [ ("name", str "Ada");
         ("experience", eightJobs);
         ("achivements",
           JArr (List.map str
                   ["A1"; "A2"; "A3"; "A4"; "A5"; "A6"; "A7"; "A8"; "A9";
                    "A10"; "A11"; "A12"])) ]%string.

(** Eight jobs, seven schools and one achievement. *)
Definition school (n : string) : JsVal :=
  JObj [ ("degree", str ("BSc " ++ n)); ("school", str "MIT");
         ("year", str "2001") ]%string.

Definition eightJobsResume : JsVal :=
  JObj [ ("name", str "Ada");
         ("experience", eightJobs);
         ("education",
           JArr (List.map school ["1"; "2"; "3"; "4"; "5"; "6"; "7"]%string));
         ("achivements", JArr [str "Led team"]) ]%string.

(** A bullet of 300 characters whose 119th character is a space. *)
Definition bullet300 : jsstring :=
  repeat 97%N 118 ++ [32%N] ++ repeat 98%N 181.

(** A compact resume (the name alone has more than 2200 characters) with
    that bullet. *)
Definition longBulletResume : JsVal :=
  JObj [ ("name", JStr (repeat 120%N 2300));
         ("experience",
           JArr [ JObj [ ("role", str "Engineer");
                         ("description", JArr [JStr bullet300]) ] ]) ]%string.

(** What is left of it. *)
Definition cutBullet : jsstring := repeat 97%N 118 ++ Preprocess.ellipsis.

(** Seven schools and a text of exactly 2200 characters: the limit below
    which the record is not compact. *)
Definition plainSchool : JsVal :=
  JObj [("degree", str "D"); ("school", str "S"); ("year", str "Y")]%string.

Definition thresholdResume : JsVal :=
  JObj [ ("name", JStr (repeat 120%N 2159));
         ("education", JArr (repeat plainSchool 7)) ]%string.



End Examples.


(** *** The validator and the height estimate *)
Section ValidatorVocabulary.

(** What the validator makes of a value without properties. *)
Definition emptyResume : JsVal :=
  JObj
    [ ("name", JStr []); ("title", JStr []); ("photoUrl", JStr []);
      ("contact",
        JObj [ ("phone", JStr []); ("email", JStr []); ("address", JStr []);
               ("linkedin", JStr []) ]);
      ("summary", JStr []);
      ("experience", JArr []); ("education", JArr []);
      ("certifications", JArr []); ("achivements", JArr []);
      ("volunteer", JArr []); ("skills", JArr []); ("softSkills", JArr []);
      ("languages", JArr []); ("interests", JArr []) ]%string.

Definition isObject (v : JsVal) : bool :=
  match v with
  | JObj _ => true
  | _ => false
  end.

(** The bullets of a list of experience entries, as the height estimate
    counts them: [exp.description?.length || 0] for each entry. *)
Definition bulletCount (entries : list JsVal) : Z :=
  fold_right (fun e n => optLen (field e "description") + n) 0 entries.

(** A number that is [NaN] or at least [q]. *)
Definition atLeast (q : Q) (r : num) : Prop :=
  match r with
  | Some x => (q <= x)%Q
  | None => True
  end.

End ValidatorVocabulary.

(** *** The model selector *)
Section SelectorVocabulary.
Import GeminiModelSelector.

(** The counters of every known model are within its limits. *)
Definition withinQuota (s : Selector) : Prop :=
  forall name model u,
    get name (models s) = Some model -> get name (usage s) = Some u ->
    0 <= requestsThisMinute u <= rpm model /\
    0 <= requestsToday u <= rpd model /\
    0 <= tokensThisMinute u <= tpm model.

(** The usage object of a model after [resetCountersIfNeeded] has read the
    clock in world [w]. *)
Definition resetNow (Date_now : nat -> Z) (w : World) (u : ModelUsage)
  : ModelUsage :=
  resetDay (Date_now (S (reads w)) / (1000 * 60 * 60 * 24))
    (resetMinute (Date_now (reads w) / (1000 * 60)) u).

Definition withUsage (name : string) (u : ModelUsage) (n : nat) (w : World)
  : World :=
  {| self := {| models := models (self w);
                usage := set name u (usage (self w));
                fallbackChain := fallbackChain (self w) |};
     reads := n |}.

(** A usage object that went through some resets and nothing else. *)
Inductive relaxed : ModelUsage -> ModelUsage -> Prop :=
| relaxed_refl u : relaxed u u
| relaxed_step u u' minute day :
    relaxed u u' -> relaxed u (resetDay day (resetMinute minute u')).

(** Between two states of the selector nothing happened but resets. *)
Definition onlyResets (s s' : Selector) : Prop :=
  models s' = models s /\ fallbackChain s' = fallbackChain s /\
  forall name,
    match get name (usage s), get name (usage s') with
    | Some u, Some u' => relaxed u u'
    | None, None => True
    | _, _ => False
    end.

(** The ways of asking the selector for a model, and the estimate each
    one checks against the token limit. *)
Inductive Request : Type :=
| BySelectModel (estimatedTokens : option Z)
    (preferHighPerformance : option bool)
| ByNextBest (currentModel : string) (estimatedTokens : option Z)
| ByUseCase (useCase : UseCase) (estimatedTokens : option Z).

Definition ask (Date_now : nat -> Z) (r : Request) : M (option string) :=
  match r with
  | BySelectModel e p => selectModel Date_now e p
  | ByNextBest c e => getNextBestModel Date_now c e
  | ByUseCase u e => selectForUseCase Date_now u e
  end.

Definition estimateOf (r : Request) : Z :=
  match r with
  | BySelectModel e _ | ByNextBest _ e => orDefault 1000 e
  | ByUseCase u e =>
      match e with
      | Some t => if t =? 0 then tokenEstimates u else t
      | None => tokenEstimates u
      end
  end.

(** The worlds a client can reach when every recorded call is the call
    that the selector has just been asked about, and uses no more tokens
    than were estimated. *)
Inductive session (Date_now : nat -> Z) : World -> Prop :=
| session_new n : session Date_now (newSelector Date_now n)
| session_clock w :
    session Date_now w ->
    session Date_now {| self := self w; reads := S (reads w) |}
| session_ask w r :
    session Date_now w -> session Date_now (snd (ask Date_now r w))
| session_stats w :
    session Date_now w -> session Date_now (snd (getUsageStats Date_now w))
| session_serve w r m actualTokens :
    session Date_now w ->
    fst (ask Date_now r w) = Some m ->
    0 <= actualTokens <= estimateOf r ->
    session Date_now
      (snd (recordUsage Date_now m actualTokens (snd (ask Date_now r w)))).

(** Every reading of the clock from the n-th on falls in the given minute
    and day. *)
Definition steady (Date_now : nat -> Z) (n : nat) (minute day : Z) : Prop :=
  forall k, (n <= k)%nat ->
    Date_now k / (1000 * 60) = minute /\
    Date_now k / (1000 * 60 * 60 * 24) = day.

(** Whether a model is within its limits at the given minute and day. *)
Definition availableAt (minute day : Z) (s : Selector) (estimatedTokens : Z)
    (modelName : string) : bool :=
  match get modelName (models s), get modelName (usage s) with
  | Some model, Some u =>
      withinLimits model (resetDay day (resetMinute minute u)) estimatedTokens
  | _, _ => false
  end.

(** The models a request tries, in the order in which it tries them. *)
Definition consulted (r : Request) (s : Selector) : list string :=
  match r with
  | BySelectModel _ p =>
      if orDefault true p then fallbackChain s else rev (fallbackChain s)
  | ByNextBest c _ =>
      skipn (Z.to_nat (indexOf c (fallbackChain s) + 1)) (fallbackChain s)
  | ByUseCase resume_generation _ => fallbackChain s
  | ByUseCase simple_task _ => rev (fallbackChain s)
  | ByUseCase complex_analysis _ => highPerfModels
  end.

(** A clock that stands still, and the selector made at that time. *)
Definition midnight : nat -> Z := fun _ => 0.

Definition freshSelector : World := newSelector midnight 0.

(** [n] calls in a row. *)
Fixpoint times (n : nat) (c : M unit) : M unit :=
  match n with
  | O => ret tt
  | S k => bindM c (fun _ => times k c)
  end.

End SelectorVocabulary.

Section FreshVocabulary.
Import GeminiModelSelector.

(** No call has been recorded: every counter is zero. *)
Definition idle (s : Selector) : Prop :=
  forall k u, get k (usage s) = Some u ->
    requestsThisMinute u = 0 /\ requestsToday u = 0 /\ tokensThisMinute u = 0.

(** Whether a model with all counters at zero has room for the estimate. *)
Definition roomFor (s : Selector) (estimatedTokens : Z) (modelName : string)
  : bool :=
  match get modelName (models s), get modelName (usage s) with
  | Some model, Some _ =>
      (0 <? rpm model) && (0 + estimatedTokens <=? tpm model)
      && (0 <? rpd model)
  | _, _ => false
  end.

End FreshVocabulary.

Section SelectorExamples.
Import GeminiModelSelector.

(** A clock that stands one minute later. *)
Definition oneMinuteLater : nat -> Z := fun _ => 60000.

(** The selector after one served request of 800 tokens. *)
Definition servedSelector : World :=
  snd (recordUsage midnight "gemini-2.5-pro" 800
         (snd (ask midnight (BySelectModel None None) freshSelector))).

(** The selector after five calls of the strongest model within one
    minute, and after a hundred. *)
Definition busySelector : World :=
  snd (times 5 (recordUsage midnight "gemini-2.5-pro" 10) freshSelector).

Definition spentSelector : World :=
  snd (times 100 (recordUsage midnight "gemini-2.5-pro" 10) freshSelector).

End SelectorExamples.

(* ===================================================================== *)
(** ** General facts about the value model                                *)
(* ===================================================================== *)

Import Js.

Lemma bind_Ok {A B} (c : result A) (k : A -> result B) (b : B) :
  bind c k = Ok b -> exists a, c = Ok a /\ k a = Ok b.
Proof. destruct c as [a | e]; simpl; [eauto | discriminate]. Qed.

Ltac inv_bind H :=
  let a := fresh "a" in
  let E := fresh "E" in
  apply bind_Ok in H; destruct H as (a & E & H).

Lemma mapM_Forall2 {A B} (f : A -> result B) (l : list A) (l' : list B) :
  mapM f l = Ok l' -> Forall2 (fun x y => f x = Ok y) l l'.
Proof.
  revert l'; induction l as [| x r IH]; simpl; intros l' H.
  - injection H as <-. constructor.
  - inv_bind H. inv_bind H. injection H as <-. constructor; auto.
Qed.

Lemma mapM_length {A B} (f : A -> result B) (l : list A) (l' : list B) :
  mapM f l = Ok l' -> List.length l' = List.length l.
Proof.
  intros H. apply mapM_Forall2 in H.
  induction H; simpl; congruence.
Qed.

Lemma mapM_total {A B} (f : A -> result B) (l : list A) :
  Forall (fun x => exists y, f x = Ok y) l -> exists l', mapM f l = Ok l'.
Proof.
  induction 1 as [| x r (y & Hy) _ (ys & Hys)]; simpl.
  - eauto.
  - rewrite Hy, Hys. simpl. eauto.
Qed.

Lemma mapM_pure {A B} (f : A -> result B) (g : A -> B) (l : list A) :
  Forall (fun x => f x = Ok (g x)) l -> mapM f l = Ok (List.map g l).
Proof.
  induction 1 as [| x r Hx _ IH]; simpl; [reflexivity |].
  now rewrite Hx, IH.
Qed.

Lemma Qgtb_true (a b : Q) : Qgtb a b = true <-> (b < a)%Q.
Proof.
  unfold Qgtb. rewrite negb_true_iff. split; intros H.
  - apply Qnot_le_lt. intros L. apply Qle_bool_iff in L. congruence.
  - destruct (Qle_bool a b) eqn:E; [| reflexivity].
    apply Qle_bool_iff in E. exfalso. eapply Qlt_not_le; eauto.
Qed.

Lemma Qgtb_false (a b : Q) : Qgtb a b = false <-> (a <= b)%Q.
Proof.
  unfold Qgtb. rewrite negb_false_iff. apply Qle_bool_iff.
Qed.

Lemma Qltb_true (a b : Q) : Qltb a b = true <-> (a < b)%Q.
Proof. apply Qgtb_true. Qed.

Lemma Qltb_false (a b : Q) : Qltb a b = false <-> (b <= a)%Q.
Proof. apply Qgtb_false. Qed.

(* ===================================================================== *)
(** ** The primitives on small inputs                                     *)
(* ===================================================================== *)

Section Primitives.

Example trim_both_ends : trim (lit "  a b  ") = lit "a b".
Proof. reflexivity. Qed.

Example trim_line_ends : trim ([9; 10; 160] ++ lit "x" ++ [13; 8232])%N = lit "x".
Proof. reflexivity. Qed.

Example ToString_nested_array :
  ToString (JArr [JNum 1; JNull; JStr (lit "a"); JArr [JBool true; JUndef]])
  = Ok (lit "1,,a,true,").
Proof. reflexivity. Qed.

Example ToString_negative : ToString (JNum (-2020)) = Ok (lit "-2020").
Proof. reflexivity. Qed.

Example ToString_object :
  ToString (JObj [("valueOf", JNum 1)]%string) = Ok (lit "[object Object]").
Proof. reflexivity. Qed.

Example ToString_own_toString :
  ToString (JArr [JObj [("toString", JStr (lit "x"))]%string])
  = Throw TypeError.
Proof. reflexivity. Qed.

Example join_skips_null :
  js_join (lit " ") [JStr (lit "a"); JNull; JStr (lit "b")] = Ok (lit "a  b").
Proof. reflexivity. Qed.

Example plus_numbers : plus_then_print (JNum 2) (JBool true) = Ok (lit "3").
Proof. reflexivity. Qed.

Example plus_strings :
  plus_then_print (JStr (lit "AWS")) (JNum 2020) = Ok (lit "AWS2020").
Proof. reflexivity. Qed.

Example uniq_first_occurrence :
  uniq [lit "b"; lit "a"; lit "b"; lit "c"; lit "a"] = [lit "b"; lit "a"; lit "c"].
Proof. reflexivity. Qed.

Example json_clone_undefined :
  json_clone (JObj [("a", JUndef); ("b", JArr [JUndef; JNum 1])]%string)
  = JObj [("b", JArr [JNull; JNum 1])]%string.
Proof. reflexivity. Qed.

Example spread_keeps_place :
  with_prop (JObj [("role", JNull); ("description", JNull); ("x", JNull)]%string)
    "description" (JArr [])
  = JObj [("role", JNull); ("description", JArr []); ("x", JNull)]%string.
Proof. reflexivity. Qed.

Example truncate_at_five :
  Preprocess.truncateLine 5 (lit "abc defg") = lit "abc" ++ Preprocess.ellipsis.
Proof. reflexivity. Qed.

Example empty_resume_is_sparse :
  LayoutOptimizer.analyzeContent (JObj [])
  = Ok {| LayoutOptimizer.experienceCount := 0;
          LayoutOptimizer.educationCount := 0;
          LayoutOptimizer.skillsCount := 0;
          LayoutOptimizer.achievementsCount := 0;
          LayoutOptimizer.totalBulletPoints := 0;
          LayoutOptimizer.summaryLength := 0;
          LayoutOptimizer.hasImage := false;
          LayoutOptimizer.sectionCount := 0;
          LayoutOptimizer.estimatedHeight := 100;
          LayoutOptimizer.contentDensity := LayoutOptimizer.sparse |}.
Proof. reflexivity. Qed.

End Primitives.

(* ===================================================================== *)
(** ** The layout optimizer                                               *)
(* ===================================================================== *)

Section Layout.
Import LayoutOptimizer.

Lemma applyDensity_within (d : Density) (t : TemplateType) :
  within_ranges t (applyDensity d t (baseConfig t)).
Proof.
  destruct d, t; unfold within_ranges; simpl;
    repeat match goal with
           | |- _ /\ _ => split
           | |- exists w, Some ?x = Some w /\ _ => exists x; split; [reflexivity |]
           | |- (_ <= _)%Q => vm_compute; discriminate
           | |- _ = _ => reflexivity
           | |- (_ <= _)%Z => lia
           end.
Qed.

Lemma sumM_total (f : JsVal -> result Z) (l : list JsVal) :
  Forall (fun x => exists n, f x = Ok n) l ->
  forall total, exists n, sumM f l total = Ok n.
Proof.
  induction 1 as [| x r (n & Hn) _ IH]; simpl; intros total.
  - eauto.
  - rewrite Hn. simpl. apply IH.
Qed.

Lemma bulletsOf_total (e : JsVal) :
  nullish e = false -> exists n, bulletsOf e = Ok n.
Proof.
  intros H. unfold bulletsOf, prop. rewrite H. simpl. eauto.
Qed.

Lemma analyzeContent_total (data : JsVal) :
  analyzable data = true -> exists m, analyzeContent data = Ok m.
Proof.
  unfold analyzable. intros H. apply andb_true_iff in H as [Hd He].
  apply negb_true_iff in Hd.
  unfold analyzeContent, prop. rewrite Hd. simpl.
  destruct (field data "experience") as [| | b | z | s | l | ps] eqn:E;
    try discriminate; simpl; eauto.
  destruct (sumM_total bulletsOf l) with (total := 0) as (n & Hn).
  - rewrite forallb_forall in He. apply Forall_forall. intros e Hin.
    apply bulletsOf_total. apply negb_true_iff. auto.
  - rewrite Hn. simpl. eauto.
Qed.

Lemma analyzeContent_density (data : JsVal) (m : ContentMetrics) :
  analyzeContent data = Ok m ->
  contentDensity m = classifyDensity (inject_Z (estimatedHeight m)).
Proof.
  unfold analyzeContent. intros H.
  inv_bind H. inv_bind H. injection H as <-. reflexivity.
Qed.

(** C1.  For every resume and every template kind, each font size and each
    spacing value of the configuration returned by [optimizeLayout] lies
    between the floor and the ceiling of the code: name font in [26, 40],
    title font in [15, 22], section title in [13, 17], body font in
    [11, 14], small font in [10, 11], section spacing in [16, 36], item
    spacing in [10, 22], line height in [1.3, 1.6], padding in [24, 40],
    and the sidebar of the modern template in [180, 250].  The function
    returns on every resume that [analyzeContent] can read. *)
Theorem optimizeLayout_within_ranges (data : JsVal) (t : TemplateType) :
  (forall c, optimizeLayout data t = Ok c -> within_ranges t c) /\
  (analyzable data = true -> exists c, optimizeLayout data t = Ok c).
Proof.
  split.
  - intros c H. unfold optimizeLayout in H. inv_bind H.
    injection H as <-. apply applyDensity_within.
  - intros H. destruct (analyzeContent_total data H) as (m & Hm).
    unfold optimizeLayout. rewrite Hm. simpl. eauto.
Qed.

(** C7.  [analyzeContent] classifies the estimated height against the
    usable page height of 1059px: strictly above 110% is [overflow],
    otherwise strictly above 85% is [dense], otherwise strictly below 60%
    is [sparse], and everything else, a height of exactly 85% included, is
    [normal]. *)
Theorem classifyDensity_thresholds (h : Q) :
  A4_usableHeight = 1059 /\
  (classifyDensity h = overflow <-> (1059 * (11 # 10) < h)%Q) /\
  (classifyDensity h = dense <->
     (1059 * (85 # 100) < h /\ h <= 1059 * (11 # 10))%Q) /\
  (classifyDensity h = sparse <-> (h < 1059 * (6 # 10))%Q) /\
  (classifyDensity h = normal <->
     (1059 * (6 # 10) <= h /\ h <= 1059 * (85 # 100))%Q) /\
  classifyDensity (1059 * (85 # 100)) = normal /\
  (forall data m, analyzeContent data = Ok m ->
     contentDensity m = classifyDensity (inject_Z (estimatedHeight m))).
Proof.
  split; [reflexivity |].
  unfold classifyDensity.
  change (inject_Z A4_usableHeight) with (1059 : Q).
  destruct (Qgtb h (1059 * (11 # 10))) eqn:E1;
    [apply Qgtb_true in E1 | apply Qgtb_false in E1];
    (destruct (Qgtb h (1059 * (85 # 100))) eqn:E2;
       [apply Qgtb_true in E2 | apply Qgtb_false in E2]);
    (destruct (Qltb h (1059 * (6 # 10))) eqn:E3;
       [apply Qltb_true in E3 | apply Qltb_false in E3]);
    (split; [split; intros; try discriminate; try reflexivity; lra |]);
    (split; [split; intros; try discriminate; try reflexivity; lra |]);
    (split; [split; intros; try discriminate; try reflexivity; lra |]);
    (split; [split; intros; try discriminate; try reflexivity; lra |]);
    (split; [reflexivity | exact analyzeContent_density]).
Qed.

End Layout.

Section LayoutWitnesses.
Import LayoutOptimizer.

Lemma optimizeLayout_within_ranges_witness :
  exists c, optimizeLayout ledTeamResume modern = Ok c /\ within_ranges modern c.
Proof.
  destruct (proj2 (optimizeLayout_within_ranges ledTeamResume modern) eq_refl)
    as (c & Hc).
  exists c. split; [exact Hc |].
  exact (proj1 (optimizeLayout_within_ranges ledTeamResume modern) c Hc).
Defined.

Lemma classifyDensity_thresholds_witness :
  exists m,
    analyzeContent ledTeamResume = Ok m /\
    contentDensity m = classifyDensity (inject_Z (estimatedHeight m)).
Proof.
  destruct (analyzeContent ledTeamResume) as [m | e] eqn:E;
    [| vm_compute in E; discriminate].
  exists m. split; [reflexivity |].
  exact (proj2 (proj2 (proj2 (proj2 (proj2 (proj2
           (classifyDensity_thresholds 0)))))) ledTeamResume m E).
Defined.

End LayoutWitnesses.

(* ===================================================================== *)
(** ** Strings: [trim], [join], [Set]                                     *)
(* ===================================================================== *)

Section Strings.

Lemma trimStart_length (s : jsstring) :
  (List.length (trimStart s) <= List.length s)%nat.
Proof.
  induction s as [| c r IH]; simpl; [lia |].
  destruct (is_ws c); simpl; lia.
Qed.

Lemma trimEnd_length (s : jsstring) :
  (List.length (trimEnd s) <= List.length s)%nat.
Proof.
  induction s as [| c r IH]; simpl; [lia |].
  destruct (trimEnd r); [destruct (is_ws c) |]; simpl in *; lia.
Qed.

Lemma trim_length (s : jsstring) :
  (List.length (trim s) <= List.length s)%nat.
Proof.
  unfold trim. pose proof (trimEnd_length (trimStart s)).
  pose proof (trimStart_length s). lia.
Qed.

Lemma trimStart_id (c : char16) (r : jsstring) :
  is_ws c = false -> trimStart (c :: r) = c :: r.
Proof. intros H. simpl. now rewrite H. Qed.

Lemma trimEnd_id (s : jsstring) (d : char16) :
  s <> [] -> is_ws (last s d) = false -> trimEnd s = s.
Proof.
  induction s as [| c r IH]; [congruence |]. intros _ H.
  destruct r as [| c' r'].
  - simpl in *. now rewrite H.
  - change (last (c :: c' :: r') d) with (last (c' :: r') d) in H.
    change (trimEnd (c :: c' :: r'))
      with (match trimEnd (c' :: r') with
            | [] => if is_ws c then [] else [c]
            | t => c :: t
            end).
    rewrite IH by (congruence || assumption). reflexivity.
Qed.

Lemma last_change_default (s : jsstring) (c d : char16) :
  s <> [] -> last s c = last s d.
Proof.
  induction s as [| x r IH]; [congruence |]. intros _.
  destruct r as [| y r']; [reflexivity |].
  change (last (y :: r') c = last (y :: r') d). apply IH. congruence.
Qed.

Lemma trimmed_trim (s : jsstring) : trimmed s -> trim s = s.
Proof.
  destruct s as [| c r]; [reflexivity |]. intros [Hc Hl].
  unfold trim. rewrite trimStart_id by assumption.
  apply trimEnd_id with (d := c); [congruence |].
  destruct r; [exact Hc | exact Hl].
Qed.

Lemma trimStart_head (s : jsstring) :
  match trimStart s with
  | [] => True
  | c :: _ => is_ws c = false
  end.
Proof.
  induction s as [| c r IH]; simpl; [exact I |].
  destruct (is_ws c) eqn:E; [exact IH | exact E].
Qed.

Lemma trimEnd_last (s : jsstring) (d : char16) :
  trimEnd s <> [] -> is_ws (last (trimEnd s) d) = false.
Proof.
  induction s as [| c r IH]; simpl; [congruence |].
  destruct (trimEnd r) as [| c' t] eqn:E.
  - destruct (is_ws c) eqn:W; [congruence |]. intros _. exact W.
  - intros _. change (is_ws (last (c' :: t) d) = false).
    apply IH. congruence.
Qed.

Lemma trimEnd_head (c : char16) (r : jsstring) :
  is_ws c = false -> exists t, trimEnd (c :: r) = c :: t.
Proof.
  intros H. simpl. destruct (trimEnd r); [rewrite H |]; eauto.
Qed.

Lemma trim_trimmed (s : jsstring) : trimmed (trim s).
Proof.
  unfold trim. pose proof (trimStart_head s) as Hh.
  destruct (trimStart s) as [| c r] eqn:E; [exact I |].
  destruct (trimEnd_head c r Hh) as (t & Ht).
  pose proof (trimEnd_last (c :: r) c) as Hl.
  rewrite Ht in *. split; [exact Hh |].
  specialize (Hl ltac:(congruence)).
  destruct t; [exact Hh | exact Hl].
Qed.

Lemma trim_idem (s : jsstring) : trim (trim s) = trim s.
Proof. apply trimmed_trim, trim_trimmed. Qed.

Lemma last_app_cons (a b : jsstring) (x d : char16) :
  last (a ++ x :: b) d = last b x.
Proof.
  induction a as [| y a IH]; simpl.
  - destruct b as [| z b]; [reflexivity |].
    revert z x d. induction b as [| w b IHb]; intros z x d; [reflexivity |].
    change (last (z :: w :: b) d) with (last (w :: b) d).
    change (last (z :: w :: b) x) with (last (w :: b) x).
    apply last_change_default. congruence.
  - destruct (a ++ x :: b) eqn:E; [destruct a; discriminate | exact IH].
Qed.

Lemma trimmed_app_nonempty (a b : jsstring) :
  a <> [] -> b <> [] -> trimmed a -> trimmed b -> trimmed (a ++ b).
Proof.
  destruct a as [| c r]; [congruence |].
  destruct b as [| c' r']; [congruence |].
  intros _ _ [Hc _] [Hc' Hl']. simpl. split; [exact Hc |].
  rewrite last_app_cons. exact Hl'.
Qed.

End Strings.

Section SetOrder.

Lemma jsstring_eqb_true (a b : jsstring) : jsstring_eqb a b = true <-> a = b.
Proof.
  unfold jsstring_eqb. destruct (list_eq_dec N.eq_dec a b); split;
    congruence.
Qed.

Lemma seen_In (x : jsstring) (seen : list jsstring) :
  existsb (jsstring_eqb x) seen = true <-> In x seen.
Proof.
  rewrite existsb_exists. split.
  - intros (y & Hy & E). apply jsstring_eqb_true in E. now subst.
  - intros H. exists x. split; [assumption | now apply jsstring_eqb_true].
Qed.

Lemma uniq_from_In (seen l : list jsstring) (x : jsstring) :
  In x (uniq_from seen l) <-> In x l /\ ~ In x seen.
Proof.
  revert seen. induction l as [| y r IH]; intros seen; simpl.
  - tauto.
  - destruct (existsb (jsstring_eqb y) seen) eqn:E.
    + apply seen_In in E. rewrite IH. split.
      * tauto.
      * intros [[-> | H] Hn]; tauto.
    + assert (Hy : ~ In y seen).
      { intros H. apply seen_In in H. congruence. }
      simpl. rewrite IH. simpl. split.
      * intros [-> | [H Hn]]; [tauto |]. split; [tauto |]. tauto.
      * intros [[-> | H] Hn]; [tauto |].
        destruct (list_eq_dec N.eq_dec y x) as [-> | Hne]; [tauto |].
        right. split; [assumption |]. intros [-> | Hs]; tauto.
Qed.

Lemma uniq_from_NoDup (seen l : list jsstring) : NoDup (uniq_from seen l).
Proof.
  revert seen. induction l as [| y r IH]; intros seen; simpl.
  - constructor.
  - destruct (existsb (jsstring_eqb y) seen); [apply IH |].
    constructor; [| apply IH].
    rewrite uniq_from_In. simpl. tauto.
Qed.

Lemma uniq_from_same (s1 s2 l : list jsstring) :
  (forall x, In x s1 <-> In x s2) -> uniq_from s1 l = uniq_from s2 l.
Proof.
  revert s1 s2. induction l as [| y r IH]; intros s1 s2 H; simpl.
  - reflexivity.
  - assert (E : existsb (jsstring_eqb y) s1 = existsb (jsstring_eqb y) s2).
    { apply eq_true_iff_eq. rewrite !seen_In. apply H. }
    rewrite E. destruct (existsb (jsstring_eqb y) s2).
    + now apply IH.
    + f_equal. apply IH. intros x. simpl. rewrite H. tauto.
Qed.

(** Elements already met are skipped; a new element is emitted once and
    then remembered. *)
Lemma uniq_from_app (seen a b : list jsstring) :
  uniq_from seen (a ++ b) = uniq_from seen a ++ uniq_from (rev a ++ seen) b.
Proof.
  revert seen. induction a as [| y r IH]; intros seen; simpl.
  - reflexivity.
  - destruct (existsb (jsstring_eqb y) seen) eqn:E.
    + rewrite IH. f_equal. apply uniq_from_same. intros x.
      apply seen_In in E. rewrite !in_app_iff. simpl.
      split; [tauto |]. intros [[H | [-> | []]] | H]; tauto.
    + simpl. rewrite IH. do 2 f_equal. apply uniq_from_same. intros x.
      rewrite !in_app_iff. simpl. tauto.
Qed.

Lemma uniq_from_fixed (seen l : list jsstring) :
  NoDup l -> (forall x, In x l -> ~ In x seen) -> uniq_from seen l = l.
Proof.
  revert seen. induction l as [| y r IH]; intros seen ND H; simpl.
  - reflexivity.
  - inversion ND as [| ? ? Hy ND']; subst.
    destruct (existsb (jsstring_eqb y) seen) eqn:E.
    + apply seen_In in E. exfalso. apply (H y); simpl; auto.
    + f_equal. apply IH; [assumption |].
      intros x Hx [-> | Hs]; [contradiction |].
      apply (H x); simpl; auto.
Qed.

Lemma uniq_NoDup (l : list jsstring) : NoDup (uniq l).
Proof. apply uniq_from_NoDup. Qed.

Lemma uniq_In (l : list jsstring) (x : jsstring) : In x (uniq l) <-> In x l.
Proof. unfold uniq. rewrite uniq_from_In. simpl. tauto. Qed.

Lemma uniq_fixed (l : list jsstring) : NoDup l -> uniq l = l.
Proof. intros H. apply uniq_from_fixed; auto. Qed.

(** First occurrences in order: the head stays, later copies of it go. *)
Lemma uniq_cons (x : jsstring) (l : list jsstring) :
  uniq (x :: l) = x :: uniq (filter (fun y => negb (jsstring_eqb y x)) l).
Proof.
  unfold uniq. simpl. f_equal.
  generalize (@nil jsstring) as seen.
  induction l as [| y r IH]; intros seen; simpl; [reflexivity |].
  destruct (jsstring_eqb y x) eqn:E; simpl.
  - apply jsstring_eqb_true in E. subst y. apply IH.
  - destruct (existsb (jsstring_eqb y) seen) eqn:S; [apply IH |].
    f_equal. rewrite <- IH. apply uniq_from_same. intros z. simpl. tauto.
Qed.

(** The de-duplicated prefix is untouched by what is appended. *)
Lemma uniq_app_prefix (a b : list jsstring) :
  exists rest, uniq (a ++ b) = uniq a ++ rest /\
               forall x, In x rest <-> In x b /\ ~ In x a.
Proof.
  exists (uniq_from (rev a) b). unfold uniq. split.
  - rewrite uniq_from_app. now rewrite app_nil_r.
  - intros x. rewrite uniq_from_In, <- in_rev. tauto.
Qed.

Lemma NoDup_firstn {A} (n : nat) (l : list A) : NoDup l -> NoDup (firstn n l).
Proof.
  intros H. rewrite <- (firstn_skipn n l) in H.
  now apply NoDup_app_remove_r in H.
Qed.

Lemma NoDup_filter' {A} (f : A -> bool) (l : list A) :
  NoDup l -> NoDup (filter f l).
Proof.
  induction 1 as [| x r Hx _ IH]; simpl; [constructor |].
  destruct (f x); [| assumption].
  constructor; [| assumption]. rewrite filter_In. tauto.
Qed.

Lemma In_firstn {A} (n : nat) (l : list A) (x : A) :
  In x (firstn n l) -> In x l.
Proof.
  intros H. rewrite <- (firstn_skipn n l). apply in_or_app. now left.
Qed.

End SetOrder.

(* ===================================================================== *)
(** ** Objects: reading after writing                                     *)
(* ===================================================================== *)

Section Objects.

Lemma lookup_set_same (k : string) (v : JsVal) (ps : list (string * JsVal)) :
  lookup k (set_prop k v ps) = v.
Proof.
  induction ps as [| [k' x] r IH]; simpl.
  - now rewrite String.eqb_refl.
  - destruct (String.eqb k k') eqn:E; simpl.
    + now rewrite String.eqb_refl.
    + now rewrite E.
Qed.

Lemma lookup_set_other (k k' : string) (v : JsVal)
      (ps : list (string * JsVal)) :
  k <> k' -> lookup k' (set_prop k v ps) = lookup k' ps.
Proof.
  intros Hne. induction ps as [| [k0 x] r IH]; simpl.
  - destruct (String.eqb k' k) eqn:E; [| reflexivity].
    apply String.eqb_eq in E. congruence.
  - destruct (String.eqb k k0) eqn:E; simpl.
    + apply String.eqb_eq in E. subst k0.
      destruct (String.eqb k' k) eqn:E'; [| reflexivity].
      apply String.eqb_eq in E'. congruence.
    + now rewrite IH.
Qed.

Lemma field_with_prop_same (d : JsVal) (k : string) (v : JsVal) :
  field (with_prop d k v) k = v.
Proof.
  destruct d; simpl; try now rewrite String.eqb_refl.
  apply lookup_set_same.
Qed.

Lemma field_with_prop_other (d : JsVal) (k k' : string) (v : JsVal) :
  k <> k' -> field (with_prop d k v) k' = field d k'.
Proof.
  intros Hne. destruct d; simpl;
    try (destruct (String.eqb k' k) eqn:E; [| reflexivity];
         apply String.eqb_eq in E; congruence).
  now apply lookup_set_other.
Qed.

Lemma set_prop_same_value (k : string) (ps : list (string * JsVal)) :
  lookup k ps <> JUndef -> set_prop k (lookup k ps) ps = ps.
Proof.
  induction ps as [| [k' x] r IH]; simpl; [congruence |].
  destruct (String.eqb k k') eqn:E.
  - apply String.eqb_eq in E. now subst.
  - intros H. now rewrite IH.
Qed.

End Objects.

(* ===================================================================== *)
(** ** JSON data and the private copy of line 56                          *)
(* ===================================================================== *)

Section JsValInduction.

Variable P : JsVal -> Prop.
Hypothesis P_undef : P JUndef.
Hypothesis P_null : P JNull.
Hypothesis P_bool : forall b, P (JBool b).
Hypothesis P_num : forall z, P (JNum z).
Hypothesis P_str : forall s, P (JStr s).
Hypothesis P_arr : forall l, Forall P l -> P (JArr l).
Hypothesis P_obj : forall ps, Forall (fun p => P (snd p)) ps -> P (JObj ps).

Fixpoint JsVal_nested_ind (v : JsVal) : P v :=
  match v with
  | JUndef => P_undef
  | JNull => P_null
  | JBool b => P_bool b
  | JNum z => P_num z
  | JStr s => P_str s
  | JArr l =>
      P_arr l
        ((fix all (l : list JsVal) : Forall P l :=
            match l with
            | [] => Forall_nil P
            | x :: r => Forall_cons x (JsVal_nested_ind x) (all r)
            end) l)
  | JObj ps =>
      P_obj ps
        ((fix all (ps : list (string * JsVal))
            : Forall (fun p => P (snd p)) ps :=
            match ps with
            | [] => Forall_nil _
            | p :: r => Forall_cons p (JsVal_nested_ind (snd p)) (all r)
            end) ps)
  end.

End JsValInduction.

Section Json.

Lemma json_clone_props_eq (ps : list (string * JsVal)) :
  Forall (fun p => isJSON (snd p) = true -> json_clone (snd p) = snd p) ps ->
  forallb (fun p => isJSON (snd p)) ps = true ->
  (fix props (ps : list (string * JsVal)) :=
     match ps with
     | [] => []
     | (k, x) :: r =>
         match x with
         | JUndef => []
         | _ => [(k, json_clone x)]
         end ++ props r
     end) ps = ps.
Proof.
  induction 1 as [| [k x] r Hx _ IH]; simpl; [reflexivity |].
  intros H. apply andb_true_iff in H as [H1 H2].
  rewrite (IH H2). specialize (Hx H1). simpl in Hx.
  destruct x; try discriminate; simpl in *; congruence.
Qed.

Lemma json_clone_isJSON (v : JsVal) : isJSON v = true -> json_clone v = v.
Proof.
  induction v as [| | b | z | s | l IH | ps IH] using JsVal_nested_ind;
    simpl; try reflexivity; try discriminate; intros H.
  - f_equal. induction IH as [| x r Hx _ IHr]; simpl in *; [reflexivity |].
    apply andb_true_iff in H as [H1 H2]. now rewrite Hx, IHr.
  - f_equal. now apply json_clone_props_eq.
Qed.

Lemma isJSON_json_clone (v : JsVal) : isJSON (json_clone v) = true.
Proof.
  induction v as [| | b | z | s | l IH | ps IH] using JsVal_nested_ind;
    simpl; try reflexivity.
  - induction IH as [| x r Hx _ IHr]; simpl; [reflexivity |].
    now rewrite Hx, IHr.
  - induction IH as [| [k x] r Hx _ IHr]; simpl in *; [reflexivity |].
    destruct x; simpl in *; try assumption; now rewrite ?Hx, IHr.
Qed.

Lemma isJSON_lookup (k : string) (ps : list (string * JsVal)) :
  forallb (fun p => isJSON (snd p)) ps = true ->
  lookup k ps = JUndef \/ isJSON (lookup k ps) = true.
Proof.
  induction ps as [| [k' x] r IH]; simpl; [now left |].
  intros H. apply andb_true_iff in H as [H1 H2].
  destruct (String.eqb k k'); [now right | auto].
Qed.

Lemma isJSON_field (v : JsVal) (k : string) :
  isJSON v = true -> field v k = JUndef \/ isJSON (field v k) = true.
Proof.
  destruct v; simpl; auto. apply isJSON_lookup.
Qed.

Lemma isJSON_orEmpty (v : JsVal) (k : string) :
  (v = JUndef \/ isJSON v = true) ->
  isJSON (TemplateHelpers.orEmpty v k) = true.
Proof.
  intros H. unfold TemplateHelpers.orEmpty, or_.
  assert (F : field v k = JUndef \/ isJSON (field v k) = true).
  { destruct H as [-> | H]; [now left | now apply isJSON_field]. }
  destruct F as [-> | F]; [reflexivity |].
  destruct (truthy (field v k)); [assumption | reflexivity].
Qed.

Lemma isJSON_orNoItems (v : JsVal) (k : string) :
  isJSON v = true -> isJSON (TemplateHelpers.orNoItems v k) = true.
Proof.
  intros H. unfold TemplateHelpers.orNoItems.
  destruct (isJSON_field v k H) as [-> | F]; [reflexivity |].
  destruct (isArray (field v k)); [assumption | reflexivity].
Qed.

Lemma isJSON_validateResumeData (input : JsVal) :
  isJSON input = true ->
  isJSON (TemplateHelpers.validateResumeData input) = true.
Proof.
  intros H. unfold TemplateHelpers.validateResumeData.
  cbn [isJSON forallb snd].
  rewrite !isJSON_orEmpty by (auto using isJSON_field).
  rewrite !isJSON_orNoItems by assumption. reflexivity.
Qed.

Lemma privateCopy_JSON (input : JsVal) :
  isJSON input = true ->
  privateCopy input = TemplateHelpers.validateResumeData input.
Proof.
  intros H. apply json_clone_isJSON. now apply isJSON_validateResumeData.
Qed.

End Json.

(* ===================================================================== *)
(** ** Printing ordinary values                                           *)
(* ===================================================================== *)

Section Printing.

Lemma ToString_array (l : list JsVal) :
  ToString (JArr l) = js_join (lit ",") l.
Proof.
  unfold js_join. cbn [ToString]. f_equal.
  induction l as [| x r IH]; [reflexivity |].
  cbn [mapM]. unfold printElement at 1. now rewrite <- IH.
Qed.

Lemma plainKeys_no_toString (ps : list (string * JsVal)) :
  forallb (fun p => plainKey (fst p) && ordinary (snd p)) ps = true ->
  hasOwn "toString" ps = false.
Proof.
  induction ps as [| [k x] r IH]; [reflexivity |].
  cbn [forallb hasOwn existsb fst snd]. intros H.
  apply andb_true_iff in H as [H Hr]. apply andb_true_iff in H as [Hk _].
  unfold plainKey in Hk. apply andb_true_iff in Hk as [Hk _].
  apply negb_true_iff in Hk. rewrite String.eqb_sym in Hk.
  fold (hasOwn "toString" r). now rewrite Hk, (IH Hr).
Qed.

Lemma ordinary_elements (l : list JsVal) :
  Forall (fun x => ordinary x = true -> exists s, ToString x = Ok s) l ->
  forallb ordinary l = true -> exists parts, mapM printElement l = Ok parts.
Proof.
  intros IH H. apply mapM_total.
  rewrite forallb_forall in H. rewrite Forall_forall in IH |- *.
  intros x Hx. unfold printElement. destruct (nullish x); eauto.
Qed.

(** An ordinary value prints. *)
Lemma ordinary_prints (v : JsVal) :
  ordinary v = true -> exists s, ToString v = Ok s.
Proof.
  induction v as [| | b | z | s | l IH | ps IH] using JsVal_nested_ind;
    try (simpl; eauto; fail).
  - destruct b; simpl; eauto.
  - intros H. rewrite ToString_array. unfold js_join.
    destruct (ordinary_elements l IH H) as (parts & ->). simpl. eauto.
  - intros H. cbn [ordinary] in H. cbn [ToString].
    rewrite (plainKeys_no_toString ps H). eauto.
Qed.

Lemma ordinary_join (sep : jsstring) (l : list JsVal) :
  forallb ordinary l = true -> exists s, js_join sep l = Ok s.
Proof.
  intros H. unfold js_join.
  destruct (ordinary_elements l) as (parts & ->); [| assumption | simpl; eauto].
  apply Forall_forall. intros x _. apply ordinary_prints.
Qed.

Lemma ordinary_plus (a b : JsVal) :
  ordinary a = true -> ordinary b = true ->
  exists s, plus_then_print a b = Ok s.
Proof.
  intros Ha Hb.
  destruct (ordinary_prints a Ha) as (x & Ex).
  destruct (ordinary_prints b Hb) as (y & Ey).
  unfold plus_then_print.
  repeat match goal with
         | |- context [match ?v with _ => _ end] => destruct v
         end; eauto; rewrite ?Ex, ?Ey; simpl; eauto.
Qed.

Lemma ordinary_lookup (k : string) (ps : list (string * JsVal)) :
  forallb (fun p => plainKey (fst p) && ordinary (snd p)) ps = true ->
  ordinary (lookup k ps) = true.
Proof.
  induction ps as [| [k' x] r IH]; [reflexivity |].
  cbn [forallb lookup fst snd]. intros H.
  apply andb_true_iff in H as [H Hr]. apply andb_true_iff in H as [_ Hx].
  destruct (String.eqb k k'); auto.
Qed.

Lemma ordinary_field (v : JsVal) (k : string) :
  ordinary v = true -> ordinary (field v k) = true.
Proof.
  destruct v; try reflexivity. apply ordinary_lookup.
Qed.

Lemma ordinary_or (a b : JsVal) :
  ordinary a = true -> ordinary b = true -> ordinary (or_ a b) = true.
Proof. unfold or_. now destruct (truthy a). Qed.

Lemma ordinary_items (v : JsVal) :
  ordinary v = true -> forallb ordinary (items v) = true.
Proof. destruct v; try reflexivity. auto. Qed.

Lemma ordinary_set_prop (k : string) (v : JsVal)
      (ps : list (string * JsVal)) :
  plainKey k = true -> ordinary v = true ->
  forallb (fun p => plainKey (fst p) && ordinary (snd p)) ps = true ->
  forallb (fun p => plainKey (fst p) && ordinary (snd p)) (set_prop k v ps)
  = true.
Proof.
  intros Hk Hv. induction ps as [| [k' x] r IH];
    cbn [set_prop forallb fst snd].
  - now rewrite Hk, Hv.
  - intros H. apply andb_true_iff in H as [H Hr].
    destruct (String.eqb k k'); cbn [forallb fst snd].
    + now rewrite Hk, Hv, Hr.
    + now rewrite H, (IH Hr).
Qed.

Lemma ordinary_with_prop (e : JsVal) (k : string) (v : JsVal) :
  plainKey k = true -> ordinary e = true -> ordinary v = true ->
  ordinary (with_prop e k v) = true.
Proof.
  intros Hk He Hv.
  destruct e; cbn [with_prop ordinary forallb fst snd];
    try (now rewrite Hk, Hv).
  now apply ordinary_set_prop.
Qed.

Lemma ordinary_strings (l : list jsstring) :
  ordinary (JArr (List.map JStr l)) = true.
Proof. simpl. induction l; simpl; auto. Qed.

Lemma ordinary_array (l : list JsVal) :
  Forall (fun e => ordinary e = true) l -> ordinary (JArr l) = true.
Proof.
  intros H. simpl. apply forallb_forall. now rewrite Forall_forall in H.
Qed.

Lemma ordinary_orEmpty (v : JsVal) (k : string) :
  ordinary v = true -> ordinary (TemplateHelpers.orEmpty v k) = true.
Proof.
  intros H. unfold TemplateHelpers.orEmpty.
  apply ordinary_or; [now apply ordinary_field | reflexivity].
Qed.

Lemma ordinary_orNoItems (v : JsVal) (k : string) :
  ordinary v = true -> ordinary (TemplateHelpers.orNoItems v k) = true.
Proof.
  intros H. unfold TemplateHelpers.orNoItems.
  destruct (isArray (field v k)); [now apply ordinary_field | reflexivity].
Qed.

Lemma ordinary_validateResumeData (input : JsVal) :
  ordinary input = true ->
  ordinary (TemplateHelpers.validateResumeData input) = true.
Proof.
  intros H. unfold TemplateHelpers.validateResumeData.
  cbn [ordinary forallb fst snd].
  rewrite !ordinary_orEmpty, !ordinary_orNoItems
    by (try apply ordinary_field; assumption).
  reflexivity.
Qed.

End Printing.

(* ===================================================================== *)
(** ** What [preprocessResume] assigns                                    *)
(* ===================================================================== *)

Section Caps.
Import Preprocess.

Ltac other_field :=
  repeat (rewrite field_with_prop_other by (intro; discriminate)).

Lemma assignAll_fields (d : JsVal) (ex ed ce : list JsVal)
      (so sk la ac : list jsstring) :
  let d' := assignAll d ex ed ce so sk la ac in
  field d' "experience" = JArr ex /\
  field d' "education" = JArr ed /\
  field d' "certifications" = JArr ce /\
  field d' "softSkills" = strings so /\
  field d' "skills" = strings sk /\
  field d' "languages" = strings la /\
  field d' "achivements" = strings ac /\
  field d' "name" = field d "name" /\
  field d' "title" = field d "title" /\
  field d' "summary" = field d "summary" /\
  field d' "volunteer" = field d "volunteer" /\
  field d' "interests" = field d "interests" /\
  field d' "contact" = field d "contact" /\
  field d' "photoUrl" = field d "photoUrl".
Proof.
  unfold assignAll; cbv zeta.
  repeat split; other_field; try apply field_with_prop_same; reflexivity.
Qed.

Lemma assigned_fields (d' d : JsVal) (ex ed ce : list JsVal)
      (so sk la ac : list jsstring) :
  d' = assignAll d ex ed ce so sk la ac ->
  field d' "experience" = JArr ex /\
  field d' "education" = JArr ed /\
  field d' "certifications" = JArr ce /\
  field d' "softSkills" = strings so /\
  field d' "skills" = strings sk /\
  field d' "languages" = strings la /\
  field d' "achivements" = strings ac.
Proof.
  intros ->. pose proof (assignAll_fields d ex ed ce so sk la ac) as F.
  cbv zeta in F. tauto.
Qed.

Lemma applyCaps_inv (compact : bool) (d d' : JsVal) (log : list string) :
  applyCaps compact d = Ok (d', log) ->
  let h := hints compact in
  exists expExtras eduExtras experience certifications
         softSkills skills languages existingAch,
    mapM (experienceAsAchievement (maxBulletsPerExp h))
      (skipn (maxExperienceItems h) (experiencesOf d)) = Ok expExtras /\
    mapM educationAsAchievement
      (skipn (maxEducationItems h) (educationsOf d)) = Ok eduExtras /\
    mapM (capBullets (maxBulletsPerExp h) (truncateCharPerLine h))
      (firstn (maxExperienceItems h) (experiencesOf d)) = Ok experience /\
    normalizedCertifications (field d "certifications") = Ok certifications /\
    uniqStrings (field d "softSkills") = Ok softSkills /\
    uniqStrings (field d "skills") = Ok skills /\
    uniqStrings (field d "languages") = Ok languages /\
    trimmedAchievements (field d "achivements") = Ok existingAch /\
    d' = assignAll d experience
           (firstn (maxEducationItems h) (educationsOf d))
           certifications
           (firstn (maxSoftSkills compact) softSkills)
           (firstn (maxSkills compact) skills)
           (firstn (maxLanguages compact) languages)
           (firstn (achCap compact)
              (filter nonempty
                 (uniq (existingAch
                        ++ filter nonempty (expExtras ++ eduExtras))))) /\
    log = warningFor d'.
Proof.
  unfold applyCaps. cbv zeta. intros H.
  inv_bind H. inv_bind H. inv_bind H. inv_bind H. inv_bind H. inv_bind H.
  inv_bind H. inv_bind H.
  revert E2 E3 E4 E5 E6. other_field. intros E2 E3 E4 E5 E6.
  injection H as <- <-.
  exists a, a0, a1, a2, a3, a4, a5, a6.
  repeat (split; [assumption |]).
  split; [reflexivity |].
  unfold warningFor, mostlyEmpty. other_field.
  rewrite field_with_prop_same. reflexivity.
Qed.

Lemma applyCaps_intro (compact : bool) (d : JsVal)
      (expExtras eduExtras : list jsstring)
      (experience certifications : list JsVal)
      (softSkills skills languages existingAch : list jsstring) :
  let h := hints compact in
  mapM (experienceAsAchievement (maxBulletsPerExp h))
    (skipn (maxExperienceItems h) (experiencesOf d)) = Ok expExtras ->
  mapM educationAsAchievement
    (skipn (maxEducationItems h) (educationsOf d)) = Ok eduExtras ->
  mapM (capBullets (maxBulletsPerExp h) (truncateCharPerLine h))
    (firstn (maxExperienceItems h) (experiencesOf d)) = Ok experience ->
  normalizedCertifications (field d "certifications") = Ok certifications ->
  uniqStrings (field d "softSkills") = Ok softSkills ->
  uniqStrings (field d "skills") = Ok skills ->
  uniqStrings (field d "languages") = Ok languages ->
  trimmedAchievements (field d "achivements") = Ok existingAch ->
  exists d',
    applyCaps compact d = Ok (d', warningFor d') /\
    d' = assignAll d experience
           (firstn (maxEducationItems h) (educationsOf d))
           certifications
           (firstn (maxSoftSkills compact) softSkills)
           (firstn (maxSkills compact) skills)
           (firstn (maxLanguages compact) languages)
           (firstn (achCap compact)
              (filter nonempty
                 (uniq (existingAch
                        ++ filter nonempty (expExtras ++ eduExtras))))).
Proof.
  cbv zeta. intros E1 E2 E3 E4 E5 E6 E7 E8.
  eexists. split; [| reflexivity].
  unfold applyCaps. cbv zeta.
  fold (experiencesOf d). fold (educationsOf d).
  rewrite E1. cbn [bind]. rewrite E2. cbn [bind]. rewrite E3. cbn [bind].
  other_field.
  fold (normalizedCertifications (field d "certifications")).
  rewrite E4. cbn [bind]. other_field. rewrite E5. cbn [bind]. other_field.
  rewrite E6. cbn [bind]. other_field. rewrite E7. cbn [bind]. other_field.
  fold (trimmedAchievements (field d "achivements")).
  rewrite E8. cbn [bind].
  unfold warningFor, mostlyEmpty, assignAll. cbv zeta. other_field.
  rewrite field_with_prop_same. reflexivity.
Qed.

Lemma preprocessResume_eq (input : JsVal) :
  preprocessResume input
  = if negb (truthy input) then Throw InputRequired
    else process (privateCopy input).
Proof. reflexivity. Qed.

(** What a successful call went through. *)
Lemma preprocessResume_inv (input : JsVal) (p : ProcessedResume)
      (log : list string) :
  preprocessResume input = Ok (p, log) ->
  truthy input = true /\
  exists height chars,
    TemplateHelpers.estimateContentHeight (privateCopy input) = Ok height /\
    totalChars (privateCopy input) = Ok chars /\
    _layout p = hints (decideCompact chars height) /\
    LayoutOptimizer.optimizeLayout (privateCopy input) LayoutOptimizer.modern
      = Ok (_layoutConfig p) /\
    LayoutOptimizer.analyzeContent (privateCopy input)
      = Ok (_contentMetrics p) /\
    applyCaps (decideCompact chars height) (privateCopy input)
      = Ok (data p, log).
Proof.
  rewrite preprocessResume_eq. destruct (truthy input); cbn [negb];
    [| discriminate].
  unfold process. intros H.
  inv_bind H. inv_bind H. inv_bind H. inv_bind H. inv_bind H.
  destruct a3 as [d' log']. injection H as <- <-.
  split; [reflexivity |]. exists a, a2. simpl. auto 10.
Qed.

End Caps.

(* ===================================================================== *)
(** ** The inputs on which [preprocessResume] returns                     *)
(* ===================================================================== *)

Section Tolerated.
Import Preprocess.

Lemma orNoItems_items (v : JsVal) (k : string) :
  TemplateHelpers.orNoItems v k = JArr (items (field v k)).
Proof.
  unfold TemplateHelpers.orNoItems. now destruct (field v k).
Qed.

Lemma validated_lists (input : JsVal) (k : string) :
  In k ["experience"; "education"; "certifications"; "achivements";
        "volunteer"; "skills"; "softSkills"; "languages"; "interests"]%string ->
  field (TemplateHelpers.validateResumeData input) k
  = JArr (items (field input k)).
Proof.
  intros H. simpl in H.
  repeat (destruct H as [<- | H]; [cbn; apply orNoItems_items |]).
  contradiction.
Qed.

Ltac validated_field :=
  rewrite validated_lists by (simpl; tauto).

Lemma textual_trim (v : JsVal) :
  textual v = true -> exists s, or_empty_trim v = Ok s.
Proof.
  unfold textual, or_empty_trim. destruct (or_ v (JStr [])); try discriminate.
  simpl. eauto.
Qed.

Lemma texts_trim (l : list JsVal) :
  forallb textual l = true -> exists ss, mapM or_empty_trim l = Ok ss.
Proof.
  intros H. apply mapM_total. rewrite forallb_forall in H.
  apply Forall_forall. intros x Hx. apply textual_trim. auto.
Qed.

Lemma forallb_firstn {A} (f : A -> bool) (n : nat) (l : list A) :
  forallb f l = true -> forallb f (firstn n l) = true.
Proof.
  rewrite !forallb_forall. intros H x Hx. apply H.
  eapply In_firstn; eauto.
Qed.

Lemma forallb_skipn {A} (f : A -> bool) (n : nat) (l : list A) :
  forallb f l = true -> forallb f (skipn n l) = true.
Proof.
  rewrite !forallb_forall. intros H x Hx. apply H.
  rewrite <- (firstn_skipn n l). apply in_or_app. now right.
Qed.

Lemma forallb_filter {A} (f g : A -> bool) (l : list A) :
  forallb f l = true -> forallb f (filter g l) = true.
Proof.
  rewrite !forallb_forall. intros H x Hx. apply H.
  apply filter_In in Hx. tauto.
Qed.

Lemma uniqStrings_total (l : list JsVal) :
  forallb textual l = true -> exists ss, uniqStrings (JArr l) = Ok ss.
Proof.
  intros H. destruct (texts_trim l H) as (ss & Hss).
  unfold uniqStrings. simpl. rewrite Hss. simpl. eauto.
Qed.

(** [`${v || ""}`] for a property [v] of an ordinary entry. *)
Lemma ordinary_text (e : JsVal) (k : string) :
  ordinary e = true ->
  exists s, ToString (or_ (field e k) (JStr [])) = Ok s.
Proof.
  intros H. apply ordinary_prints, ordinary_or; [| reflexivity].
  now apply ordinary_field.
Qed.

Lemma ordinary_printed (e : JsVal) (k : string) :
  ordinary e = true -> exists s, ToString (field e k) = Ok s.
Proof. intros H. now apply ordinary_prints, ordinary_field. Qed.

(** [(e.description || []).join(" ")] for an ordinary entry whose
    description is an array or falsy. *)
Lemma ordinary_bullets (e : JsVal) :
  ordinary e = true ->
  isArray (or_ (field e "description") (JArr [])) = true ->
  exists d s, as_array (or_ (field e "description") (JArr [])) = Ok d
              /\ js_join space d = Ok s.
Proof.
  intros He Ha.
  assert (O : ordinary (or_ (field e "description") (JArr [])) = true)
    by (apply ordinary_or; [now apply ordinary_field | reflexivity]).
  destruct (or_ (field e "description") (JArr [])) as [| | | | | d |];
    try discriminate.
  destruct (ordinary_join space d O) as (s & Hs). exists d, s. now split.
Qed.

Lemma bulletsOk_array (d : JsVal) :
  bulletsOk d = true -> isArray (or_ d (JArr [])) = true.
Proof. unfold bulletsOk. now destruct (or_ d (JArr [])). Qed.

Lemma experienceAsAchievement_total (n : nat) (e : JsVal) :
  experienceOk e = true -> ordinary e = true ->
  exists s, experienceAsAchievement n e = Ok s.
Proof.
  unfold experienceOk, bulletsOk. intros H O.
  apply andb_true_iff in H as [_ H].
  unfold experienceAsAchievement.
  destruct (ordinary_text e "role" O) as (role & ->).
  destruct (ordinary_text e "company" O) as (company & ->).
  cbn [bind].
  destruct (or_ (field e "description") (JArr [])); try discriminate.
  simpl. destruct (texts_trim (firstn n elems)) as (ss & Hss).
  - now apply forallb_firstn.
  - rewrite Hss. simpl. eauto.
Qed.

Lemma educationAsAchievement_total (e : JsVal) :
  educationOk e = true -> ordinary e = true ->
  exists s, educationAsAchievement e = Ok s.
Proof.
  unfold educationOk. intros H O. apply andb_true_iff in H as [_ H].
  unfold educationAsAchievement.
  destruct (ordinary_text e "degree" O) as (degree & ->).
  destruct (ordinary_text e "school" O) as (school & ->).
  destruct (textual_trim _ H) as (s & Hs). rewrite Hs. simpl. eauto.
Qed.

Lemma capBullets_total (n limit : nat) (e : JsVal) :
  experienceOk e = true -> exists e', capBullets n limit e = Ok e'.
Proof.
  unfold experienceOk, bulletsOk. intros H.
  apply andb_true_iff in H as [_ H].
  unfold capBullets.
  destruct (field e "description") eqn:E; simpl; eauto.
  unfold or_ in H. simpl in H.
  destruct (texts_trim (firstn n elems)) as (ss & Hss).
  - now apply forallb_firstn.
  - rewrite Hss. simpl. eauto.
Qed.

Lemma normalizeCertification_total (c : JsVal) :
  certificationOk c = true -> exists c', normalizeCertification c = Ok c'.
Proof.
  unfold certificationOk. intros H.
  apply andb_true_iff in H as [H Hy]. apply andb_true_iff in H as [Hc Hn].
  apply negb_true_iff in Hc.
  unfold normalizeCertification, prop. rewrite Hc. simpl.
  destruct (textual_trim _ Hn) as (n & En). rewrite En. simpl.
  destruct (textual_trim _ Hy) as (y & Ey). rewrite Ey. simpl. eauto.
Qed.

Lemma mapM_forallb {A B} (f : A -> result B) (ok : A -> bool) (l : list A) :
  (forall x, ok x = true -> exists y, f x = Ok y) ->
  forallb ok l = true -> exists l', mapM f l = Ok l'.
Proof.
  intros H Hl. apply mapM_total. rewrite forallb_forall in Hl.
  apply Forall_forall. auto.
Qed.

Lemma mapM_forallb2 {A B} (f : A -> result B) (ok ok' : A -> bool)
      (l : list A) :
  (forall x, ok x = true -> ok' x = true -> exists y, f x = Ok y) ->
  forallb ok l = true -> forallb ok' l = true -> exists l', mapM f l = Ok l'.
Proof.
  intros H Hl Hl'. apply mapM_total. rewrite forallb_forall in Hl, Hl'.
  apply Forall_forall. auto.
Qed.

Lemma sumM_forallb (f : JsVal -> result Z) (ok : JsVal -> bool)
      (l : list JsVal) (total : Z) :
  (forall x, ok x = true -> exists y, f x = Ok y) ->
  forallb ok l = true -> exists n, LayoutOptimizer.sumM f l total = Ok n.
Proof.
  intros H Hl. apply sumM_total. rewrite forallb_forall in Hl.
  apply Forall_forall. auto.
Qed.

Lemma experienceOk_nonnull (e : JsVal) :
  experienceOk e = true -> nullish e = false.
Proof.
  unfold experienceOk. intros H. apply andb_true_iff in H as [H _].
  now apply negb_true_iff.
Qed.

Lemma estimateContentHeight_total (input : JsVal) :
  tolerated input = true ->
  exists h, TemplateHelpers.estimateContentHeight
              (TemplateHelpers.validateResumeData input) = Ok h.
Proof.
  unfold tolerated, listOf. intros H.
  repeat (apply andb_true_iff in H as [H ?]).
  unfold TemplateHelpers.estimateContentHeight.
  unfold prop at 1. cbn [nullish TemplateHelpers.validateResumeData bind].
  repeat validated_field. cbn [as_array bind].
  destruct (sumM_forallb TemplateHelpers.bulletHeight experienceOk
              (items (field input "experience")) 0) as (n & Hn);
    [| assumption |].
  { intros e He. apply experienceOk_nonnull in He.
    unfold TemplateHelpers.bulletHeight, prop. rewrite He. simpl. eauto. }
  rewrite Hn. cbn [bind prop nullish]. eauto.
Qed.

Lemma analyzable_validated (input : JsVal) :
  tolerated input = true ->
  analyzable (TemplateHelpers.validateResumeData input) = true.
Proof.
  unfold tolerated, listOf. intros H.
  repeat (apply andb_true_iff in H as [H ?]).
  unfold analyzable. validated_field.
  change (nullish (TemplateHelpers.validateResumeData input)) with false.
  cbn [negb andb].
  rewrite forallb_forall in *. intros e He.
  apply negb_true_iff, experienceOk_nonnull. auto.
Qed.

Lemma expText_total (e : JsVal) :
  experienceOk e = true -> ordinary e = true -> exists s, expText e = Ok s.
Proof.
  intros He O. pose proof (experienceOk_nonnull e He) as Hn.
  unfold expText, prop. rewrite Hn. cbn [bind].
  destruct (ordinary_printed e "role" O) as (role & ->).
  destruct (ordinary_printed e "company" O) as (company & ->).
  destruct (ordinary_printed e "duration" O) as (duration & ->).
  cbn [bind].
  unfold experienceOk in He. apply andb_true_iff in He as [_ He].
  destruct (ordinary_bullets e O (bulletsOk_array _ He)) as (d & s & -> & Hs).
  cbn [bind]. rewrite Hs. simpl. eauto.
Qed.

Lemma eduText_total (e : JsVal) :
  educationOk e = true -> ordinary e = true -> exists s, eduText e = Ok s.
Proof.
  intros He O. unfold educationOk in He.
  apply andb_true_iff in He as [He _]. apply negb_true_iff in He.
  unfold eduText, prop. rewrite He. cbn [bind].
  destruct (ordinary_printed e "degree" O) as (degree & ->).
  destruct (ordinary_printed e "school" O) as (school & ->).
  destruct (ordinary_printed e "year" O) as (year & ->).
  simpl. eauto.
Qed.

Lemma certEntryText_total (c : JsVal) :
  certificationOk c = true -> ordinary c = true ->
  exists s, certEntryText c = Ok s.
Proof.
  intros Hc O. unfold certificationOk in Hc.
  apply andb_true_iff in Hc as [Hc _]. apply andb_true_iff in Hc as [Hc _].
  apply negb_true_iff in Hc. unfold certEntryText, prop. rewrite Hc.
  cbn [bind].
  apply ordinary_plus; (apply ordinary_or; [now apply ordinary_field |]);
    reflexivity.
Qed.

Lemma volunteerEntryText_total (v : JsVal) :
  volunteerOk v = true -> ordinary v = true ->
  exists s, volunteerEntryText v = Ok s.
Proof.
  intros Hv O. unfold volunteerEntryText.
  destruct (ordinary_text v "role" O) as (role & ->).
  destruct (ordinary_text v "org" O) as (org & ->).
  cbn [bind].
  destruct (ordinary_bullets v O Hv) as (d & s & -> & Hs).
  cbn [bind]. rewrite Hs. simpl. eauto.
Qed.

Lemma joinSimple_total (l : list JsVal) :
  forallb ordinary l = true -> exists s, joinSimple (JArr l) = Ok s.
Proof.
  intros O. unfold joinSimple. cbn [or_ truthy as_array bind].
  now apply ordinary_join.
Qed.

Lemma totalChars_total (input : JsVal) :
  tolerated input = true -> ordinary input = true ->
  exists n, totalChars (TemplateHelpers.validateResumeData input) = Ok n.
Proof.
  unfold tolerated, listOf. intros H O.
  repeat (apply andb_true_iff in H as [H ?]).
  assert (OI : forall k, forallb ordinary (items (field input k)) = true)
    by (intros k; now apply ordinary_items, ordinary_field).
  unfold totalChars. repeat validated_field.
  unfold joinExpText, joinEduText, certText, volunteerText.
  cbn [or_ truthy as_array bind].
  destruct (mapM_forallb2 expText experienceOk ordinary
              (items (field input "experience")) expText_total)
    as (t1 & ->); [assumption | apply OI |].
  cbn [bind].
  destruct (mapM_forallb2 eduText educationOk ordinary
              (items (field input "education")) eduText_total)
    as (t2 & ->); [assumption | apply OI |].
  cbn [bind].
  destruct (joinSimple_total _ (OI "skills"%string)) as (t3 & ->).
  destruct (joinSimple_total _ (OI "softSkills"%string)) as (t4 & ->).
  destruct (joinSimple_total _ (OI "achivements"%string)) as (t5 & ->).
  destruct (joinSimple_total _ (OI "languages"%string)) as (t6 & ->).
  cbn [bind].
  destruct (mapM_forallb2 certEntryText certificationOk ordinary
              (items (field input "certifications")) certEntryText_total)
    as (t7 & ->); [assumption | apply OI |].
  cbn [bind].
  destruct (mapM_forallb2 volunteerEntryText volunteerOk ordinary
              (items (field input "volunteer")) volunteerEntryText_total)
    as (t8 & ->); [assumption | apply OI |].
  cbn [bind]. eauto.
Qed.

Lemma sanitized_items (keep : JsVal -> bool) (l : list JsVal) :
  sanitized keep (JArr l) = filter keep l.
Proof. reflexivity. Qed.

Lemma applyCaps_total (compact : bool) (input : JsVal) :
  tolerated input = true -> ordinary input = true ->
  exists d', applyCaps compact (TemplateHelpers.validateResumeData input)
             = Ok (d', warningFor d').
Proof.
  unfold tolerated, listOf. intros H O.
  repeat (apply andb_true_iff in H as [H ?]).
  assert (OI : forall k, forallb ordinary (items (field input k)) = true)
    by (intros k; now apply ordinary_items, ordinary_field).
  set (d := TemplateHelpers.validateResumeData input).
  set (h := hints compact).
  destruct (mapM_forallb2 (experienceAsAchievement (maxBulletsPerExp h))
              experienceOk ordinary
              (skipn (maxExperienceItems h) (experiencesOf d)))
    as (x1 & E1).
  { intros; now apply experienceAsAchievement_total. }
  { unfold experiencesOf, d. validated_field. rewrite sanitized_items.
    now apply forallb_skipn, forallb_filter. }
  { unfold experiencesOf, d. validated_field. rewrite sanitized_items.
    apply forallb_skipn, forallb_filter, OI. }
  destruct (mapM_forallb2 educationAsAchievement
              educationOk ordinary
              (skipn (maxEducationItems h) (educationsOf d)))
    as (x2 & E2).
  { intros; now apply educationAsAchievement_total. }
  { unfold educationsOf, d. validated_field. rewrite sanitized_items.
    now apply forallb_skipn, forallb_filter. }
  { unfold educationsOf, d. validated_field. rewrite sanitized_items.
    apply forallb_skipn, forallb_filter, OI. }
  destruct (mapM_forallb
              (capBullets (maxBulletsPerExp h) (truncateCharPerLine h))
              experienceOk (firstn (maxExperienceItems h) (experiencesOf d)))
    as (x3 & E3).
  { intros; now apply capBullets_total. }
  { unfold experiencesOf, d. validated_field. rewrite sanitized_items.
    now apply forallb_firstn, forallb_filter. }
  assert (exists x4, normalizedCertifications (field d "certifications")
                     = Ok x4) as (x4 & E4).
  { unfold d. validated_field. unfold normalizedCertifications.
    destruct (mapM_forallb normalizeCertification certificationOk
                (items (field input "certifications"))) as (cs & Hcs);
      [apply normalizeCertification_total | assumption |].
    rewrite Hcs. simpl. eauto. }
  assert (exists x5, uniqStrings (field d "softSkills") = Ok x5)
    as (x5 & E5).
  { unfold d. validated_field. now apply uniqStrings_total. }
  assert (exists x6, uniqStrings (field d "skills") = Ok x6) as (x6 & E6).
  { unfold d. validated_field. now apply uniqStrings_total. }
  assert (exists x7, uniqStrings (field d "languages") = Ok x7) as (x7 & E7).
  { unfold d. validated_field. now apply uniqStrings_total. }
  assert (exists x8, trimmedAchievements (field d "achivements") = Ok x8)
    as (x8 & E8).
  { unfold d. validated_field. now apply texts_trim. }
  destruct (applyCaps_intro compact d x1 x2 x3 x4 x5 x6 x7 x8
              E1 E2 E3 E4 E5 E6 E7 E8) as (d' & Hd' & _).
  eauto.
Qed.

(** On a tolerated, ordinary JSON resume the call returns, and the console
    holds the warning exactly when the processed record is empty. *)
Lemma preprocessResume_returns (input : JsVal) :
  isJSON input = true -> truthy input = true -> tolerated input = true ->
  ordinary input = true ->
  exists p, preprocessResume input = Ok (p, warningFor (data p)).
Proof.
  intros HJ HT Htol HO. rewrite preprocessResume_eq, HT. cbn [negb].
  rewrite privateCopy_JSON by assumption.
  unfold process.
  destruct (estimateContentHeight_total input Htol) as (h & Eh).
  rewrite Eh. cbn [bind].
  destruct (analyzeContent_total _ (analyzable_validated input Htol))
    as (m & Em).
  rewrite Em. cbn [bind].
  unfold LayoutOptimizer.optimizeLayout. rewrite Em. cbn [bind].
  destruct (totalChars_total input Htol HO) as (n & En).
  rewrite En. cbn [bind].
  destruct (applyCaps_total (decideCompact n h) input Htol HO) as (d' & Ed).
  rewrite Ed. cbn [bind].
  eexists (Build_ProcessedResume d' _ _ _). reflexivity.
Qed.

End Tolerated.

(* ===================================================================== *)
(** ** The processed record in terms of the input                         *)
(* ===================================================================== *)

Section Processed.
Import Preprocess.

Lemma truthy_or (a b : JsVal) : truthy (or_ a b) = truthy a || truthy b.
Proof. unfold or_. destruct (truthy a) eqn:E; [exact E | reflexivity]. Qed.

Lemma keepExperience_withHeading (e : JsVal) :
  keepExperience e = withHeading "role" "company" e.
Proof. unfold keepExperience, withHeading. now rewrite truthy_or. Qed.

Lemma keepEducation_withHeading (e : JsVal) :
  keepEducation e = withHeading "degree" "school" e.
Proof. unfold keepEducation, withHeading. now rewrite truthy_or. Qed.

Lemma withHeading_true (a b : string) (e : JsVal) :
  withHeading a b e = true ->
  truthy (field e a) = true \/ truthy (field e b) = true.
Proof.
  unfold withHeading. intros H. apply andb_true_iff in H as [_ H].
  now apply orb_true_iff in H.
Qed.

(** The filters of lines 152-153 keep the entries with a heading. *)
Lemma sanitized_experience (l : list JsVal) :
  sanitized keepExperience (JArr l) = filter (withHeading "role" "company") l.
Proof. apply filter_ext. exact keepExperience_withHeading. Qed.

Lemma sanitized_education (l : list JsVal) :
  sanitized keepEducation (JArr l) = filter (withHeading "degree" "school") l.
Proof. apply filter_ext. exact keepEducation_withHeading. Qed.

Lemma kept_experience (input : JsVal) :
  Forall (fun e => keepExperience e = true) (keptExperience input).
Proof.
  apply Forall_forall. intros e He. apply filter_In in He as [_ He].
  now rewrite keepExperience_withHeading.
Qed.

Lemma kept_education (input : JsVal) :
  Forall (fun e => keepEducation e = true) (keptEducation input).
Proof.
  apply Forall_forall. intros e He. apply filter_In in He as [_ He].
  now rewrite keepEducation_withHeading.
Qed.

Lemma uniqStrings_inv (l : list JsVal) (x : list jsstring) :
  uniqStrings (JArr l) = Ok x ->
  exists t, mapM or_empty_trim l = Ok t /\ x = uniq (filter nonempty t).
Proof.
  unfold uniqStrings. simpl. intros H. inv_bind H. injection H as <-. eauto.
Qed.

Lemma preprocessResume_processed (input : JsVal) (p : ProcessedResume)
      (log : list string) :
  isJSON input = true ->
  preprocessResume input = Ok (p, log) ->
  processed_from input p /\ log = warningFor (data p).
Proof.
  intros HJ H. apply preprocessResume_inv in H as (_ & h & n & _ & _ & HL & _ & _ & H).
  rewrite privateCopy_JSON in H by assumption.
  apply applyCaps_inv in H. cbv zeta in H.
  destruct H as (x1 & x2 & x3 & x4 & x5 & x6 & x7 & x8 &
                 E1 & E2 & E3 & E4 & E5 & E6 & E7 & E8 & Hd & Hlog).
  split; [| assumption].
  unfold experiencesOf, educationsOf in *.
  rewrite !validated_lists in * by (simpl; tauto).
  rewrite sanitized_experience, sanitized_education in *.
  unfold normalizedCertifications in E4. inv_bind E4. injection E4 as <-.
  apply uniqStrings_inv in E5 as (t5 & E5 & ->).
  apply uniqStrings_inv in E6 as (t6 & E6 & ->).
  apply uniqStrings_inv in E7 as (t7 & E7 & ->).
  unfold trimmedAchievements in E8.
  unfold processed_from. cbv zeta. rewrite HL.
  change (compactMode (hints (decideCompact n h))) with (decideCompact n h).
  exists x1, x2, x3, a, t5, t6, t7, x8.
  unfold keptExperience, keptEducation. auto 12.
Qed.

(** A tolerated, ordinary JSON resume is processed. *)
Lemma preprocessResume_ok (input : JsVal) :
  isJSON input = true -> truthy input = true -> tolerated input = true ->
  ordinary input = true ->
  exists p, preprocessResume input = Ok (p, warningFor (data p)) /\
            processed_from input p.
Proof.
  intros HJ HT Htol HO.
  destruct (preprocessResume_returns input HJ HT Htol HO) as (p & Hp).
  exists p. split; [assumption |].
  now apply (preprocessResume_processed input p _ HJ Hp).
Qed.

End Processed.

(* ===================================================================== *)
(** ** Which error is raised                                              *)
(* ===================================================================== *)

Section Errors.
Import Preprocess.

Lemma runtime_only_Ok {A} (a : A) : runtime_only (Ok a).
Proof. discriminate. Qed.

Lemma runtime_only_TypeError {A} : runtime_only (@Throw A TypeError).
Proof. discriminate. Qed.

Lemma runtime_only_bind {A B} (c : result A) (k : A -> result B) :
  runtime_only c -> (forall a, runtime_only (k a)) -> runtime_only (bind c k).
Proof.
  destruct c as [a | e]; simpl; [auto |].
  intros H _ E. apply H. injection E as ->. reflexivity.
Qed.

Lemma runtime_only_mapM {A B} (f : A -> result B) (l : list A) :
  (forall x, runtime_only (f x)) -> runtime_only (mapM f l).
Proof.
  intros H. induction l as [| x r IH]; simpl.
  - apply runtime_only_Ok.
  - apply runtime_only_bind; [apply H | intros y].
    apply runtime_only_bind; [apply IH | intros ys; apply runtime_only_Ok].
Qed.

Lemma runtime_only_sumM (f : JsVal -> result Z) (l : list JsVal) (n : Z) :
  (forall x, runtime_only (f x)) -> runtime_only (LayoutOptimizer.sumM f l n).
Proof.
  intros H. revert n. induction l as [| x r IH]; simpl; intros n.
  - apply runtime_only_Ok.
  - apply runtime_only_bind; [apply H | intros y; apply IH].
Qed.

Lemma runtime_only_prop (v : JsVal) (k : string) : runtime_only (prop v k).
Proof. unfold prop. destruct (nullish v); discriminate. Qed.

Lemma runtime_only_as_array (v : JsVal) : runtime_only (as_array v).
Proof. destruct v; discriminate. Qed.

Lemma runtime_only_trim (v : JsVal) : runtime_only (or_empty_trim v).
Proof.
  unfold or_empty_trim. destruct (or_ v (JStr [])); discriminate.
Qed.

Lemma runtime_only_ToString (v : JsVal) : runtime_only (ToString v).
Proof.
  induction v as [| | b | z | s | l IH | ps IH] using JsVal_nested_ind;
    try discriminate.
  - destruct b; discriminate.
  - rewrite ToString_array. unfold js_join.
    apply runtime_only_bind; [| intros; apply runtime_only_Ok].
    induction IH as [| x r Hx _ IHr]; cbn [mapM]; [apply runtime_only_Ok |].
    apply runtime_only_bind.
    + unfold printElement. destruct (nullish x); [discriminate | exact Hx].
    + intros y. apply runtime_only_bind; [exact IHr |].
      intros ys. apply runtime_only_Ok.
  - cbn [ToString]. destruct (hasOwn "toString" ps); discriminate.
Qed.

Lemma runtime_only_join (sep : jsstring) (l : list JsVal) :
  runtime_only (js_join sep l).
Proof.
  unfold js_join. apply runtime_only_bind; [| intros; apply runtime_only_Ok].
  apply runtime_only_mapM. intros x. unfold printElement.
  destruct (nullish x); [discriminate | apply runtime_only_ToString].
Qed.

Lemma runtime_only_plus (a b : JsVal) : runtime_only (plus_then_print a b).
Proof.
  unfold plus_then_print.
  repeat match goal with
         | |- context [match ?v with _ => _ end] => destruct v
         end; try discriminate;
    (apply runtime_only_bind; [apply runtime_only_ToString | intros x];
     apply runtime_only_bind; [apply runtime_only_ToString | intros y];
     apply runtime_only_Ok).
Qed.

Ltac runtime :=
  repeat first
    [ apply runtime_only_Ok
    | apply runtime_only_TypeError
    | apply runtime_only_prop
    | apply runtime_only_as_array
    | apply runtime_only_trim
    | apply runtime_only_ToString
    | apply runtime_only_join
    | apply runtime_only_plus
    | apply runtime_only_bind; [| intros ?]
    | apply runtime_only_mapM; intros ?
    | apply runtime_only_sumM; intros ?
    | match goal with
      | |- runtime_only (match ?x with _ => _ end) => destruct x
      | |- runtime_only (if ?x then _ else _) => destruct x
      | |- runtime_only (let '(_, _) := ?x in _) => destruct x
      end ].

Lemma runtime_only_analyzeContent (d : JsVal) :
  runtime_only (LayoutOptimizer.analyzeContent d).
Proof.
  unfold LayoutOptimizer.analyzeContent, LayoutOptimizer.bulletsOf. runtime.
Qed.

Lemma runtime_only_uniqStrings (v : JsVal) : runtime_only (uniqStrings v).
Proof. unfold uniqStrings. runtime. Qed.

Lemma runtime_only_applyCaps (c : bool) (d : JsVal) :
  runtime_only (applyCaps c d).
Proof.
  unfold applyCaps, experienceAsAchievement, educationAsAchievement,
    capBullets, normalizeCertification.
  cbv zeta.
  repeat first
    [ apply runtime_only_uniqStrings
    | apply runtime_only_bind; [| intros ?]
    | progress runtime ].
Qed.

Lemma runtime_only_process (d : JsVal) : runtime_only (process d).
Proof.
  unfold process, TemplateHelpers.estimateContentHeight,
    TemplateHelpers.bulletHeight, LayoutOptimizer.optimizeLayout, totalChars,
    joinExpText, joinEduText, joinSimple, certText, volunteerText,
    expText, eduText, certEntryText, volunteerEntryText.
  repeat first
    [ apply runtime_only_analyzeContent
    | apply runtime_only_applyCaps
    | apply runtime_only_join
    | apply runtime_only_plus
    | apply runtime_only_bind; [| intros ?]
    | progress runtime ].
Qed.

End Errors.

(* ===================================================================== *)
(** ** Errors (C3)                                                        *)
(* ===================================================================== *)

Section ErrorHandling.
Import Preprocess.

(** C3, as stated, fails: a resume that is neither [null] nor [undefined]
    and carries a wrongly typed optional field (the year of a certification
    as a number) makes [preprocessResume] throw. *)
Lemma numeric_year_raises :
  numericYearResume <> JNull /\ numericYearResume <> JUndef /\
  isJSON numericYearResume = true /\
  preprocessResume numericYearResume = Throw TypeError.
Proof.
  repeat split; try discriminate; vm_compute; reflexivity.
Qed.

(** A value that is only printed raises as well when it cannot be
    printed: the role of an entry as an object with an own property
    [toString].  The resume is tolerated, and it is not ordinary. *)
Lemma unprintable_role_raises :
  isJSON unprintableRoleResume = true /\
  tolerated unprintableRoleResume = true /\
  ordinary unprintableRoleResume = false /\
  preprocessResume unprintableRoleResume = Throw TypeError.
Proof. repeat split. Qed.

Lemma strings_array (l : list jsstring) : exists l', strings l = JArr l'.
Proof. unfold strings. eauto. Qed.

(** C3, amended.  [preprocessResume] raises its own error exactly when the
    input is falsy ([null], [undefined], and also [0], [""] and [false]).
    On an ordinary JSON input whose list entries are tolerated it
    returns: a missing name, title or summary reads as [''], every list
    property is an array (a missing or non-array one is empty), and the
    warning is logged, with the record still returned, exactly when the
    processed record has no name, no title, no summary and no experience
    entry.  Wrongly typed values inside list entries are not defaulted:
    where the code calls [trim] or [join] on them, or cannot print them,
    the runtime raises a [TypeError]. *)
Theorem preprocessResume_error_cases (input : JsVal) :
  (preprocessResume input = Throw InputRequired <-> truthy input = false) /\
  (isJSON input = true -> truthy input = true -> tolerated input = true ->
   ordinary input = true ->
   exists p log,
     preprocessResume input = Ok (p, log) /\
     field (data p) "name" = or_ (field input "name") (JStr []) /\
     field (data p) "title" = or_ (field input "title") (JStr []) /\
     field (data p) "summary" = or_ (field input "summary") (JStr []) /\
     (forall k,
        In k ["experience"; "education"; "certifications"; "achivements";
              "volunteer"; "skills"; "softSkills"; "languages";
              "interests"]%string ->
        exists l, field (data p) k = JArr l) /\
     log = if mostlyEmpty (data p) then [emptyWarning] else []).
Proof.
  split.
  - rewrite preprocessResume_eq. destruct (truthy input); cbn [negb].
    + split; [| discriminate]. intros H.
      now apply runtime_only_process in H.
    + tauto.
  - intros HJ HT Htol HO.
    destruct (preprocessResume_ok input HJ HT Htol HO) as (p & Hp & Hfrom).
    exists p, (warningFor (data p)). split; [assumption |].
    destruct Hfrom as (x1 & x2 & x3 & x4 & x5 & x6 & x7 & x8 & _ & _ & _ & _
                       & _ & _ & _ & _ & _ & Hd).
    rewrite Hd.
    match goal with
    | |- context [assignAll ?d ?a ?b ?c ?e ?f ?g ?h] =>
        pose proof (assignAll_fields d a b c e f g h) as F; cbv zeta in F;
        destruct F as (F1 & F2 & F3 & F4 & F5 & F6 & F7 & F8 & F9 & F10
                       & F11 & F12 & _)
    end.
    rewrite F8, F9, F10.
    repeat split; try reflexivity.
    intros k Hk. simpl in Hk.
    repeat (destruct Hk as [<- | Hk];
            [first [ rewrite F1 | rewrite F2 | rewrite F3 | rewrite F4
                   | rewrite F5 | rewrite F6 | rewrite F7
                   | rewrite F11; rewrite validated_lists by (simpl; tauto)
                   | rewrite F12; rewrite validated_lists by (simpl; tauto) ];
             eauto using strings_array |]).
    contradiction.
Qed.

Lemma preprocessResume_error_cases_witness :
  exists p log,
    preprocessResume looselyTypedResume = Ok (p, log) /\
    field (data p) "name" = or_ (field looselyTypedResume "name") (JStr []) /\
    field (data p) "title"
    = or_ (field looselyTypedResume "title") (JStr []) /\
    field (data p) "summary"
    = or_ (field looselyTypedResume "summary") (JStr []) /\
    (forall k,
       In k ["experience"; "education"; "certifications"; "achivements";
             "volunteer"; "skills"; "softSkills"; "languages";
             "interests"]%string ->
       exists l, field (data p) k = JArr l) /\
    log = if mostlyEmpty (data p) then [emptyWarning] else [].
Proof.
  apply (proj2 (preprocessResume_error_cases looselyTypedResume));
    reflexivity.
Defined.

End ErrorHandling.

(* ===================================================================== *)
(** ** Entries and lists after the caps (C10, C5, C6)                     *)
(* ===================================================================== *)

Section Lists.
Import Preprocess.

Lemma or_empty_trim_fixed (v : JsVal) (s : jsstring) :
  or_empty_trim v = Ok s -> trim s = s.
Proof.
  unfold or_empty_trim. destruct (or_ v (JStr [])); try discriminate.
  simpl. intros H. injection H as <-. apply trim_idem.
Qed.

Lemma trimmed_texts (l : list JsVal) (t : list jsstring) :
  mapM or_empty_trim l = Ok t -> Forall (fun s => trim s = s) t.
Proof.
  intros H. apply mapM_Forall2 in H.
  induction H as [| v s l t Hv _ IH]; constructor; [| assumption].
  eapply or_empty_trim_fixed; eauto.
Qed.

Lemma nonempty_true (s : jsstring) : nonempty s = true <-> s <> [].
Proof. destruct s; simpl; split; congruence. Qed.

Lemma normalized_strings (cap : nat) (t : list jsstring) :
  Forall (fun s => trim s = s) t ->
  normal_strings cap (firstn cap (uniq (filter nonempty t))).
Proof.
  intros H. repeat split.
  - apply NoDup_firstn, uniq_NoDup.
  - apply Forall_forall. intros s Hs.
    apply In_firstn, uniq_In, filter_In in Hs as [Hs Hne].
    rewrite Forall_forall in H. split; [auto | now apply nonempty_true].
  - apply firstn_le_length.
Qed.

Lemma keepExperience_object (e : JsVal) :
  keepExperience e = true -> exists ps, e = JObj ps.
Proof.
  unfold keepExperience. destruct e; simpl; try discriminate; eauto.
  all: now rewrite andb_false_r.
Qed.

Lemma capBullets_heading (n limit : nat) (e e' : JsVal) :
  keepExperience e = true -> capBullets n limit e = Ok e' ->
  field e' "role" = field e "role" /\ field e' "company" = field e "company"
  /\ keepExperience e' = true.
Proof.
  intros Hk H. destruct (keepExperience_object e Hk) as (ps & ->).
  unfold capBullets in H. inv_bind H. injection H as <-.
  assert (R : forall k, k <> "description"%string ->
                field (with_prop (JObj ps) "description"
                         (JArr (List.map
                                  (fun d => JStr (truncateLine limit d)) a))) k
                = field (JObj ps) k).
  { intros k Hne. apply field_with_prop_other. congruence. }
  split; [apply R; discriminate |]. split; [apply R; discriminate |].
  unfold keepExperience in *. rewrite !R by discriminate. exact Hk.
Qed.

Lemma filter_true_Forall {A} (f : A -> bool) (l : list A) :
  Forall (fun x => f x = true) (filter f l).
Proof.
  apply Forall_forall. intros x Hx. apply filter_In in Hx. tauto.
Qed.

Lemma Forall_firstn {A} (P : A -> Prop) (n : nat) (l : list A) :
  Forall P l -> Forall P (firstn n l).
Proof.
  rewrite !Forall_forall. intros H x Hx. eauto using In_firstn.
Qed.

Lemma capBullets_other (n limit : nat) (e e' : JsVal) (k : string) :
  keepExperience e = true -> capBullets n limit e = Ok e' ->
  k <> "description"%string -> field e' k = field e k.
Proof.
  intros Hk H Hne. destruct (keepExperience_object e Hk) as (ps & ->).
  unfold capBullets in H. inv_bind H. injection H as <-.
  apply (field_with_prop_other (JObj ps)). congruence.
Qed.

(** C10.  Before the caps and the relocation, [preprocessResume] drops
    every experience entry that has neither a role nor a company and every
    education entry that has neither a degree nor a school (and every
    entry that is falsy); an entry with only one of the two stays.  The
    processed experience list is made, in order, of the first entries with
    a role or a company, at most as many as the cap, each unchanged but
    for its description; the processed education list is made of the first
    entries with a degree or a school, unchanged.  So the processed
    experience list can be shorter than both the input list and the cap
    although nothing was relocated. *)
Theorem headless_entries_dropped :
  (forall input,
     isJSON input = true -> truthy input = true -> tolerated input = true ->
     ordinary input = true ->
     exists p log es eds,
       preprocessResume input = Ok (p, log) /\
       let h := _layout p in
       let withRoleOrCompany :=
         filter (fun e => truthy e && (truthy (field e "role")
                                       || truthy (field e "company")))
           (items (field input "experience")) in
       let withDegreeOrSchool :=
         filter (fun e => truthy e && (truthy (field e "degree")
                                       || truthy (field e "school")))
           (items (field input "education")) in
       field (data p) "experience" = JArr es /\
       field (data p) "education" = JArr eds /\
       Forall2 (fun e e' =>
                  forall k, k <> "description"%string ->
                            field e' k = field e k)
         (firstn (maxExperienceItems h) withRoleOrCompany) es /\
       eds = firstn (maxEducationItems h) withDegreeOrSchool /\
       Forall (fun e' => truthy (field e' "role") = true
                         \/ truthy (field e' "company") = true) es /\
       Forall (fun e' => truthy (field e' "degree") = true
                         \/ truthy (field e' "school") = true) eds /\
       List.length es
       = Nat.min (maxExperienceItems h) (List.length withRoleOrCompany) /\
       List.length eds
       = Nat.min (maxEducationItems h) (List.length withDegreeOrSchool)) /\
  (exists p log,
     preprocessResume mixedEntriesResume = Ok (p, log) /\
     List.length (items (field mixedEntriesResume "experience")) = 4%nat /\
     maxExperienceItems (_layout p) = 6%nat /\
     maxEducationItems (_layout p) = 6%nat /\
     field (data p) "experience"
     = JArr [ JObj [ ("role", str "Engineer"); ("company", str "Acme");
                     ("description", JArr []) ];
              JObj [("company", str "Initech"); ("description", JArr [])];
              JObj [ ("role", str "Consultant"); ("company", str "");
                     ("description", JArr []) ] ]%string /\
     field (data p) "education"
     = JArr [ JObj [("school", str "MIT")];
              JObj [("degree", str "BSc"); ("school", JNull)] ]%string /\
     field (data p) "achivements" = JArr []).
Proof.
  split.
  - intros input HJ HT Htol HO.
    destruct (preprocessResume_ok input HJ HT Htol HO) as (p & Hp & Hfrom).
    destruct Hfrom as (x1 & x2 & x3 & x4 & x5 & x6 & x7 & x8 & _ & _ & _ & E3
                       & _ & _ & _ & _ & _ & Hd).
    exists p, (warningFor (data p)), x3,
      (firstn (maxEducationItems (_layout p)) (keptEducation input)).
    destruct (assigned_fields _ _ _ _ _ _ _ _ _ Hd) as (F1 & F2 & _).
    pose proof (mapM_Forall2 _ _ _ E3) as HF.
    cbv zeta.
    change (fun e => truthy e && (truthy (field e "role")
                                  || truthy (field e "company")))
      with (withHeading "role" "company").
    change (fun e => truthy e && (truthy (field e "degree")
                                  || truthy (field e "school")))
      with (withHeading "degree" "school").
    fold (keptExperience input). fold (keptEducation input).
    assert (K : Forall (fun e => keepExperience e = true)
                  (firstn (maxExperienceItems (_layout p))
                     (keptExperience input))).
    { apply Forall_firstn, kept_experience. }
    split; [exact Hp |]. split; [exact F1 |]. split; [exact F2 |].
    split; [| split; [reflexivity |]; split; [| split; [| split]]].
    + clear - HF K. induction HF as [| e e' l l' He _ IH]; constructor.
      * inversion K; subst. intros k Hk. eapply capBullets_other; eauto.
      * inversion K; subst. auto.
    + clear - HF K. induction HF as [| e e' l l' He _ IH]; constructor.
      * inversion K as [| ? ? Ke Kl]; subst.
        destruct (capBullets_heading _ _ _ _ Ke He) as (_ & _ & Hk').
        rewrite keepExperience_withHeading in Hk'.
        now apply withHeading_true.
      * inversion K; subst. auto.
    + apply Forall_firstn, Forall_forall.
      intros e He. apply filter_In in He as [_ He].
      now apply withHeading_true.
    + rewrite (mapM_length _ _ _ E3). apply length_firstn.
    + apply length_firstn.
  - eexists. eexists. split; [vm_compute; reflexivity |].
    repeat split.
Qed.

Lemma headless_entries_dropped_witness :
  exists p log es eds,
    preprocessResume mixedEntriesResume = Ok (p, log) /\
    let h := _layout p in
    let withRoleOrCompany :=
      filter (fun e => truthy e && (truthy (field e "role")
                                    || truthy (field e "company")))
        (items (field mixedEntriesResume "experience")) in
    let withDegreeOrSchool :=
      filter (fun e => truthy e && (truthy (field e "degree")
                                    || truthy (field e "school")))
        (items (field mixedEntriesResume "education")) in
    field (data p) "experience" = JArr es /\
    field (data p) "education" = JArr eds /\
    Forall2 (fun e e' =>
               forall k, k <> "description"%string ->
                         field e' k = field e k)
      (firstn (maxExperienceItems h) withRoleOrCompany) es /\
    eds = firstn (maxEducationItems h) withDegreeOrSchool /\
    Forall (fun e' => truthy (field e' "role") = true
                      \/ truthy (field e' "company") = true) es /\
    Forall (fun e' => truthy (field e' "degree") = true
                      \/ truthy (field e' "school") = true) eds /\
    List.length es
    = Nat.min (maxExperienceItems h) (List.length withRoleOrCompany) /\
    List.length eds
    = Nat.min (maxEducationItems h) (List.length withDegreeOrSchool).
Proof.
  apply (proj1 headless_entries_dropped mixedEntriesResume); reflexivity.
Defined.

End Lists.

Section Normalized.
Import Preprocess.

Lemma normalizeCertification_normal (c c' : JsVal) :
  normalizeCertification c = Ok c' -> normal_certification c'.
Proof.
  unfold normalizeCertification. intros H.
  inv_bind H. inv_bind H. inv_bind H. injection H as <-.
  exists a0, a1. eauto using or_empty_trim_fixed.
Qed.

(** C5, as stated, fails for the certifications: they are not
    de-duplicated.  A certification listed twice is still there twice. *)
Lemma duplicate_certifications_kept :
  exists p log,
    preprocessResume twiceCertifiedResume = Ok (p, log) /\
    field (data p) "certifications"
    = JArr [awsCertification; awsCertification].
Proof.
  eexists. eexists. split; vm_compute; reflexivity.
Qed.

(** C5, amended.  After [preprocessResume] the skills, soft-skills and
    languages lists hold trimmed, non-empty strings without duplicates
    (compared case-sensitively), in order of first occurrence, capped at
    12/30, 6/12 and 3/8 entries (compact/non-compact).  The certifications
    have their name and year trimmed and are capped at 20 entries in both
    modes; they are not de-duplicated. *)
Theorem lists_normalized (input : JsVal) :
  isJSON input = true -> truthy input = true -> tolerated input = true ->
  ordinary input = true ->
  exists p log skills soft langs certs rawSkills rawSoft rawLangs rawCerts,
    preprocessResume input = Ok (p, log) /\
    let c := compactMode (_layout p) in
    mapM or_empty_trim (items (field input "skills")) = Ok rawSkills /\
    mapM or_empty_trim (items (field input "softSkills")) = Ok rawSoft /\
    mapM or_empty_trim (items (field input "languages")) = Ok rawLangs /\
    mapM normalizeCertification (items (field input "certifications"))
      = Ok rawCerts /\
    field (data p) "skills" = strings skills /\
    skills = firstn (maxSkills c) (uniq (filter nonempty rawSkills)) /\
    normal_strings (if c then 12 else 30)%nat skills /\
    field (data p) "softSkills" = strings soft /\
    soft = firstn (maxSoftSkills c) (uniq (filter nonempty rawSoft)) /\
    normal_strings (if c then 6 else 12)%nat soft /\
    field (data p) "languages" = strings langs /\
    langs = firstn (maxLanguages c) (uniq (filter nonempty rawLangs)) /\
    normal_strings (if c then 3 else 8)%nat langs /\
    field (data p) "certifications" = JArr certs /\
    certs = firstn 20 rawCerts /\
    Forall normal_certification certs /\
    (List.length certs <= 20)%nat.
Proof.
  intros HJ HT Htol HO.
  destruct (preprocessResume_ok input HJ HT Htol HO) as (p & Hp & Hfrom).
  destruct Hfrom as (x1 & x2 & x3 & x4 & x5 & x6 & x7 & x8 & HL & _ & _ & _
                     & E4 & E5 & E6 & E7 & _ & Hd).
  exists p, (warningFor (data p)).
  eexists. eexists. eexists. eexists. exists x6, x5, x7, x4.
  split; [exact Hp |]. cbv zeta.
  destruct (assigned_fields _ _ _ _ _ _ _ _ _ Hd)
    as (_ & _ & F3 & F4 & F5 & F6 & _).
  rewrite F3, F4, F5, F6.
  repeat (split; [assumption || reflexivity |]).
  split; [apply normalized_strings; eapply trimmed_texts; eauto |].
  repeat (split; [assumption || reflexivity |]).
  split; [apply normalized_strings; eapply trimmed_texts; eauto |].
  repeat (split; [assumption || reflexivity |]).
  split; [apply normalized_strings; eapply trimmed_texts; eauto |].
  repeat (split; [assumption || reflexivity |]).
  split.
  - apply Forall_firstn. apply mapM_Forall2 in E4.
    clear - E4. induction E4; constructor;
      eauto using normalizeCertification_normal.
  - apply firstn_le_length.
Qed.

Lemma lists_normalized_witness :
  exists p log skills soft langs certs rawSkills rawSoft rawLangs rawCerts,
    preprocessResume paddedListsResume = Ok (p, log) /\
    let c := compactMode (_layout p) in
    mapM or_empty_trim (items (field paddedListsResume "skills"))
      = Ok rawSkills /\
    mapM or_empty_trim (items (field paddedListsResume "softSkills"))
      = Ok rawSoft /\
    mapM or_empty_trim (items (field paddedListsResume "languages"))
      = Ok rawLangs /\
    mapM normalizeCertification
      (items (field paddedListsResume "certifications")) = Ok rawCerts /\
    field (data p) "skills" = strings skills /\
    skills = firstn (maxSkills c) (uniq (filter nonempty rawSkills)) /\
    normal_strings (if c then 12 else 30)%nat skills /\
    field (data p) "softSkills" = strings soft /\
    soft = firstn (maxSoftSkills c) (uniq (filter nonempty rawSoft)) /\
    normal_strings (if c then 6 else 12)%nat soft /\
    field (data p) "languages" = strings langs /\
    langs = firstn (maxLanguages c) (uniq (filter nonempty rawLangs)) /\
    normal_strings (if c then 3 else 8)%nat langs /\
    field (data p) "certifications" = JArr certs /\
    certs = firstn 20 rawCerts /\
    Forall normal_certification certs /\
    (List.length certs <= 20)%nat.
Proof.
  apply (lists_normalized paddedListsResume); reflexivity.
Defined.

(** C6, as stated, fails: the achievements are compared after trimming,
    not as they are, and the empty ones are removed.  Of four achievements
    that are four different strings, two are left, and the first of them
    is not the string that was there. *)
Lemma padded_achievements_merged :
  exists p log,
    preprocessResume paddedAchievementsResume = Ok (p, log) /\
    field paddedAchievementsResume "achivements"
    = JArr [str " Led team "; str "Led team"; str ""; str "Shipped X"] /\
    NoDup [lit " Led team "; lit "Led team"; lit ""; lit "Shipped X"] /\
    field (data p) "achivements" = JArr [str "Led team"; str "Shipped X"].
Proof.
  eexists. eexists. split; [vm_compute; reflexivity |].
  split; [reflexivity |]. split; [| reflexivity].
  repeat constructor; simpl; intros H;
    repeat (destruct H as [H | H]; [discriminate H |]); exact H.
Qed.

(** C6, amended.  The achievements that were already there are trimmed;
    the synthesized strings come after them; the combined list is stripped
    of duplicates by equality of the trimmed strings, the first occurrence
    staying in place, and of empty strings, and is cut after 6 entries in
    compact mode and 12 otherwise.  ["Led team"; "Led team"; "Shipped X"]
    becomes ["Led team"; "Shipped X"]. *)
Theorem achievements_combined :
  (forall input,
     isJSON input = true -> truthy input = true -> tolerated input = true ->
     ordinary input = true ->
     exists p log existing extras out,
       preprocessResume input = Ok (p, log) /\
       Forall2 (fun a t => exists s, or_ a (JStr []) = JStr s /\ t = trim s)
         (items (field input "achivements")) existing /\
       relocated (_layout p) input = Ok extras /\
       field (data p) "achivements" = strings out /\
       out = firstn (if compactMode (_layout p) then 6 else 12)%nat
               (filter nonempty (uniq (existing ++ extras))) /\
       (exists rest,
          uniq (existing ++ extras) = uniq existing ++ rest /\
          forall x, In x rest <-> In x extras /\ ~ In x existing) /\
       NoDup out /\
       (List.length out <= if compactMode (_layout p) then 6 else 12)%nat) /\
  (forall x l,
     uniq (x :: l) = x :: uniq (filter (fun y => negb (jsstring_eqb y x)) l)) /\
  (exists p log,
     preprocessResume ledTeamResume = Ok (p, log) /\
     field (data p) "achivements" = JArr [str "Led team"; str "Shipped X"]).
Proof.
  split; [| split].
  - intros input HJ HT Htol HO.
    destruct (preprocessResume_ok input HJ HT Htol HO) as (p & Hp & Hfrom).
    destruct Hfrom as (x1 & x2 & x3 & x4 & x5 & x6 & x7 & x8 & HL & E1 & E2
                       & _ & _ & _ & _ & _ & E8 & Hd).
    exists p, (warningFor (data p)), x8, (filter nonempty (x1 ++ x2)).
    eexists. split; [exact Hp |]. split.
    { apply mapM_Forall2 in E8. eapply Forall2_impl; [| exact E8].
      intros a t Ha. unfold or_empty_trim in Ha.
      destruct (or_ a (JStr [])); try discriminate.
      simpl in Ha. injection Ha as <-. eauto. }
    split; [unfold relocated; rewrite E1, E2; reflexivity |].
    destruct (assigned_fields _ _ _ _ _ _ _ _ _ Hd)
      as (_ & _ & _ & _ & _ & _ & F7).
    rewrite F7. split; [reflexivity |]. split; [reflexivity |].
    split; [apply uniq_app_prefix |].
    split.
    + apply NoDup_firstn, NoDup_filter', uniq_NoDup.
    + apply firstn_le_length.
  - apply uniq_cons.
  - eexists. eexists. split; vm_compute; reflexivity.
Qed.

Lemma achievements_combined_witness :
  exists p log existing extras out,
    preprocessResume overfullResume = Ok (p, log) /\
    Forall2 (fun a t => exists s, or_ a (JStr []) = JStr s /\ t = trim s)
      (items (field overfullResume "achivements")) existing /\
    relocated (_layout p) overfullResume = Ok extras /\
    field (data p) "achivements" = strings out /\
    out = firstn (if compactMode (_layout p) then 6 else 12)%nat
            (filter nonempty (uniq (existing ++ extras))) /\
    (exists rest,
       uniq (existing ++ extras) = uniq existing ++ rest /\
       forall x, In x rest <-> In x extras /\ ~ In x existing) /\
    NoDup out /\
    (List.length out <= if compactMode (_layout p) then 6 else 12)%nat.
Proof.
  apply (proj1 achievements_combined overfullResume); reflexivity.
Defined.

End Normalized.

(* ===================================================================== *)
(** ** Relocation of the overflow (C2)                                    *)
(* ===================================================================== *)

Section Relocation.
Import Preprocess.

Lemma trimStart_keeps (s : jsstring) (c : char16) :
  In c s -> is_ws c = false -> In c (trimStart s).
Proof.
  induction s as [| x r IH]; simpl; [tauto |].
  intros [-> | H] W.
  - rewrite W. now left.
  - destruct (is_ws x); [auto | now right].
Qed.

Lemma trimEnd_keeps (s : jsstring) (c : char16) :
  In c s -> is_ws c = false -> In c (trimEnd s).
Proof.
  induction s as [| x r IH]; simpl; [tauto |].
  intros [-> | H] W.
  - destruct (trimEnd r); [rewrite W |]; now left.
  - specialize (IH H W). destruct (trimEnd r); [contradiction | now right].
Qed.

Lemma trim_keeps (s : jsstring) (c : char16) :
  In c s -> is_ws c = false -> In c (trim s).
Proof.
  intros H W. apply trimEnd_keeps; [| exact W]. now apply trimStart_keeps.
Qed.

Lemma heading_nonempty (role company : jsstring) : heading role company <> [].
Proof.
  assert (H : In 8212%N (heading role company)).
  { apply trim_keeps; [| reflexivity].
    apply in_or_app. right. apply in_or_app. left. simpl. tauto. }
  intros E. rewrite E in H. contradiction.
Qed.

Lemma join_head (sep x : jsstring) (l : list jsstring) :
  exists rest, join sep (x :: l) = x ++ rest.
Proof.
  destruct l; simpl; [exists []; now rewrite app_nil_r | eauto].
Qed.

(** [(v || [])], when it is an array, holds the elements of [v]. *)
Lemma or_array_items (v : JsVal) (d : list JsVal) :
  as_array (or_ v (JArr [])) = Ok d -> d = items v.
Proof.
  unfold or_. destruct v; simpl; try discriminate; try congruence.
  - destruct b; simpl; [discriminate | congruence].
  - destruct (negb (z =? 0)); simpl; [discriminate | congruence].
  - destruct s; simpl; [congruence | discriminate].
Qed.

Lemma experienceAsAchievement_inv (n : nat) (e : JsVal) (s : jsstring) :
  experienceAsAchievement n e = Ok s ->
  exists role company bullets,
    ToString (or_ (field e "role") (JStr [])) = Ok role /\
    ToString (or_ (field e "company") (JStr [])) = Ok company /\
    mapM or_empty_trim (firstn n (items (field e "description")))
    = Ok bullets /\
    s = join bulletSep (heading role company :: filter nonempty bullets).
Proof.
  unfold experienceAsAchievement. intros H.
  inv_bind H. inv_bind H. inv_bind H. inv_bind H.
  assert (Hs : s = join bulletSep (filter nonempty (heading a a0 :: a2)))
    by (unfold heading; congruence).
  clear H. exists a, a0, a2.
  apply or_array_items in E1. subst a1.
  repeat (split; [assumption |]).
  rewrite Hs.
  change (filter nonempty (heading a a0 :: a2))
    with (if nonempty (heading a a0)
          then heading a a0 :: filter nonempty a2
          else filter nonempty a2).
  destruct (nonempty (heading a a0)) eqn:N; [reflexivity |].
  exfalso. apply (heading_nonempty a a0). now destruct (heading a a0).
Qed.

Lemma experienceAsAchievement_nonempty (n : nat) (e : JsVal) (s : jsstring) :
  experienceAsAchievement n e = Ok s -> s <> [].
Proof.
  intros H.
  destruct (experienceAsAchievement_inv n e s H)
    as (role & company & bullets & _ & _ & _ & ->).
  destruct (join_head bulletSep (heading role company)
              (filter nonempty bullets)) as (rest & ->).
  pose proof (heading_nonempty role company).
  destruct (heading role company); simpl; congruence.
Qed.

Lemma educationAsAchievement_inv (e : JsVal) (s : jsstring) :
  educationAsAchievement e = Ok s ->
  exists degree school year,
    ToString (or_ (field e "degree") (JStr [])) = Ok degree /\
    ToString (or_ (field e "school") (JStr [])) = Ok school /\
    or_empty_trim (field e "year") = Ok year /\
    s = trim (degree ++ emDash ++ school ++ space ++ year).
Proof.
  unfold educationAsAchievement. intros H.
  inv_bind H. inv_bind H. inv_bind H. injection H as <-.
  exists a, a0, a1. auto.
Qed.

Lemma educationAsAchievement_nonempty (e : JsVal) (s : jsstring) :
  educationAsAchievement e = Ok s -> s <> [].
Proof.
  intros H.
  destruct (educationAsAchievement_inv e s H)
    as (degree & school & year & _ & _ & _ & ->).
  intros Hnil.
  match type of Hnil with
  | ?t = [] => assert (I : In 8212%N t)
  end.
  { apply trim_keeps; [| reflexivity].
    apply in_or_app. right. simpl. tauto. }
  rewrite Hnil in I. contradiction.
Qed.

Lemma filter_nonempty_all (l : list jsstring) :
  Forall (fun s => s <> []) l -> filter nonempty l = l.
Proof.
  induction 1 as [| s r Hs _ IH]; simpl; [reflexivity |].
  destruct s; [congruence |]. simpl. now rewrite IH.
Qed.

Lemma mapM_Forall {A B} (f : A -> result B) (Q : B -> Prop)
      (l : list A) (l' : list B) :
  (forall x y, f x = Ok y -> Q y) -> mapM f l = Ok l' -> Forall Q l'.
Proof.
  intros H E. apply mapM_Forall2 in E.
  induction E; constructor; eauto.
Qed.

(** C2, as stated, fails: with eight jobs in a non-compact resume whose
    achievements list already has twelve entries, the experience list is
    cut to six entries and the two jobs beyond the cap appear nowhere. *)
Lemma relocated_jobs_lost_beyond_cap :
  exists p log,
    preprocessResume crowdedResume = Ok (p, log) /\
    compactMode (_layout p) = false /\
    List.length (keptExperience crowdedResume) = 8%nat /\
    List.length (items (field (data p) "experience")) = 6%nat /\
    field (data p) "achivements" = field crowdedResume "achivements".
Proof.
  eexists. eexists. split; [vm_compute; reflexivity |].
  repeat split.
Qed.

(** C2, amended.  The experience list keeps the first entries up to the
    cap (6 when not compact, 3 when compact); every entry beyond the cap
    is turned into one achievement string: its printed role and company
    as "role — company", trimmed, followed by its first bullets (4, or 2
    when compact), trimmed, the empty ones left out, with " • " between
    them.  Every education entry beyond its cap (6, or 2 when compact)
    becomes "degree — school year", trimmed.  These strings are appended
    to the trimmed achievements that were already there, and they all
    appear in the processed record provided the combined list, without
    duplicates and empty strings, is not longer than the achievements cap
    (12, or 6 when compact); what lies beyond that cap is dropped.  With
    eight jobs and one achievement in a resume that is not compact, six
    jobs stay and the seventh and the eighth follow the achievement. *)
Theorem overflow_relocated :
  (forall input,
     isJSON input = true -> truthy input = true -> tolerated input = true ->
     ordinary input = true ->
     exists p log es expExtras eduExtras existing,
       preprocessResume input = Ok (p, log) /\
       let h := _layout p in
       let excessExp := skipn (maxExperienceItems h) (keptExperience input) in
       let excessEdu := skipn (maxEducationItems h) (keptEducation input) in
       let combined :=
         filter nonempty (uniq (existing ++ expExtras ++ eduExtras)) in
       maxExperienceItems h = (if compactMode h then 3 else 6)%nat /\
       maxEducationItems h = (if compactMode h then 2 else 6)%nat /\
       maxBulletsPerExp h = (if compactMode h then 2 else 4)%nat /\
       field (data p) "experience" = JArr es /\
       List.length es
       = Nat.min (maxExperienceItems h) (List.length (keptExperience input)) /\
       Forall2 (fun e s =>
                  exists role company bullets,
                    ToString (or_ (field e "role") (JStr [])) = Ok role /\
                    ToString (or_ (field e "company") (JStr [])) = Ok company /\
                    mapM or_empty_trim
                      (firstn (maxBulletsPerExp h)
                         (items (field e "description"))) = Ok bullets /\
                    s = join bulletSep
                          (trim (role ++ emDash ++ company)
                           :: filter nonempty bullets))
         excessExp expExtras /\
       Forall2 (fun e s =>
                  exists degree school year,
                    ToString (or_ (field e "degree") (JStr [])) = Ok degree /\
                    ToString (or_ (field e "school") (JStr [])) = Ok school /\
                    or_empty_trim (field e "year") = Ok year /\
                    s = trim (degree ++ emDash ++ school ++ space ++ year))
         excessEdu eduExtras /\
       mapM or_empty_trim (items (field input "achivements")) = Ok existing /\
       field (data p) "achivements"
       = strings (firstn (if compactMode h then 6 else 12)%nat combined) /\
       ((List.length combined <= if compactMode h then 6 else 12)%nat ->
        forall s, In s (expExtras ++ eduExtras) ->
                  In (JStr s) (items (field (data p) "achivements")))) /\
  (exists p log,
     preprocessResume eightJobsOnlyResume = Ok (p, log) /\
     compactMode (_layout p) = false /\
     List.length (items (field eightJobsOnlyResume "experience")) = 8%nat /\
     List.length (items (field (data p) "experience")) = 6%nat /\
     field (data p) "achivements"
     = JArr [ str "Led team";
              JStr (lit "Role 7" ++ emDash ++ lit "Company 7");
              JStr (lit "Role 8" ++ emDash ++ lit "Company 8") ]).
Proof.
  split.
  2:{ eexists. eexists. split; [vm_compute; reflexivity |]. repeat split. }
  intros input HJ HT Htol HO.
  destruct (preprocessResume_ok input HJ HT Htol HO) as (p & Hp & Hfrom).
  destruct Hfrom as (x1 & x2 & x3 & x4 & x5 & x6 & x7 & x8 & HL & E1 & E2
                     & E3 & _ & _ & _ & _ & E8 & Hd).
  destruct (assigned_fields _ _ _ _ _ _ _ _ _ Hd)
    as (F1 & _ & _ & _ & _ & _ & F7).
  assert (N1 : Forall (fun s => s <> []) x1).
  { eapply mapM_Forall; [| exact E1]. intros e s Hs.
    eapply experienceAsAchievement_nonempty; eauto. }
  assert (N2 : Forall (fun s => s <> []) x2).
  { eapply mapM_Forall; [| exact E2].
    intros e s Hs. eapply educationAsAchievement_nonempty; eauto. }
  assert (N : filter nonempty (x1 ++ x2) = x1 ++ x2).
  { apply filter_nonempty_all, Forall_app. now split. }
  rewrite N in F7.
  exists p, (warningFor (data p)), x3, x1, x2, x8.
  split; [exact Hp |]. cbv zeta.
  split; [rewrite HL; reflexivity |].
  split; [rewrite HL; reflexivity |].
  split; [rewrite HL; reflexivity |].
  split; [exact F1 |].
  split; [rewrite (mapM_length _ _ _ E3); apply length_firstn |].
  split.
  { apply mapM_Forall2 in E1. eapply Forall2_impl; [| exact E1].
    intros e s Hs. now apply experienceAsAchievement_inv. }
  split.
  { apply mapM_Forall2 in E2. eapply Forall2_impl; [| exact E2].
    intros e s Hs. now apply educationAsAchievement_inv. }
  split; [exact E8 |].
  split; [exact F7 |].
  intros Hlen s Hs. rewrite F7. unfold strings. cbn [items].
  apply in_map. rewrite firstn_all2 by exact Hlen.
  apply filter_In. split.
  - apply uniq_In, in_or_app. now right.
  - apply nonempty_true.
    assert (A : Forall (fun s => s <> []) (x1 ++ x2))
      by (apply Forall_app; now split).
    rewrite Forall_forall in A. auto.
Qed.

End Relocation.

Section RelocationWitness.
Import Preprocess.

Lemma overflow_relocated_witness :
  exists p log es expExtras eduExtras existing,
    preprocessResume overfullResume = Ok (p, log) /\
    let h := _layout p in
    let excessExp :=
      skipn (maxExperienceItems h) (keptExperience overfullResume) in
    let excessEdu :=
      skipn (maxEducationItems h) (keptEducation overfullResume) in
    let combined :=
      filter nonempty (uniq (existing ++ expExtras ++ eduExtras)) in
    maxExperienceItems h = (if compactMode h then 3 else 6)%nat /\
    maxEducationItems h = (if compactMode h then 2 else 6)%nat /\
    maxBulletsPerExp h = (if compactMode h then 2 else 4)%nat /\
    field (data p) "experience" = JArr es /\
    List.length es
    = Nat.min (maxExperienceItems h)
        (List.length (keptExperience overfullResume)) /\
    Forall2 (fun e s =>
               exists role company bullets,
                 ToString (or_ (field e "role") (JStr [])) = Ok role /\
                 ToString (or_ (field e "company") (JStr [])) = Ok company /\
                 mapM or_empty_trim
                   (firstn (maxBulletsPerExp h)
                      (items (field e "description"))) = Ok bullets /\
                 s = join bulletSep
                       (trim (role ++ emDash ++ company)
                        :: filter nonempty bullets))
      excessExp expExtras /\
    Forall2 (fun e s =>
               exists degree school year,
                 ToString (or_ (field e "degree") (JStr [])) = Ok degree /\
                 ToString (or_ (field e "school") (JStr [])) = Ok school /\
                 or_empty_trim (field e "year") = Ok year /\
                 s = trim (degree ++ emDash ++ school ++ space ++ year))
      excessEdu eduExtras /\
    mapM or_empty_trim (items (field overfullResume "achivements"))
      = Ok existing /\
    field (data p) "achivements"
    = strings (firstn (if compactMode h then 6 else 12)%nat combined) /\
    ((List.length combined <= if compactMode h then 6 else 12)%nat ->
     forall s, In s (expExtras ++ eduExtras) ->
               In (JStr s) (items (field (data p) "achivements"))).
Proof.
  apply (proj1 overflow_relocated overfullResume); reflexivity.
Defined.

End RelocationWitness.

(* ===================================================================== *)
(** ** Truncation of the bullets (C4)                                     *)
(* ===================================================================== *)

Section Truncation.
Import Preprocess.

(** C4, as stated, fails: the 300-character bullet, under the compact
    limit of 120, comes out with 119 characters, not 120, because the cut
    ends in white space, which is trimmed before the ellipsis is added. *)
Lemma truncated_bullet_shorter_than_limit :
  exists p log,
    preprocessResume longBulletResume = Ok (p, log) /\
    List.length bullet300 = 300%nat /\
    truncateCharPerLine (_layout p) = 120%nat /\
    field (data p) "experience"
    = JArr [ JObj [ ("role", str "Engineer");
                    ("description", JArr [JStr cutBullet]) ] ]%string /\
    List.length cutBullet = 119%nat.
Proof.
  eexists. eexists. split; [vm_compute; reflexivity |].
  repeat split.
Qed.

Lemma truncateLine_short (limit : nat) (d : jsstring) :
  (List.length d <= limit)%nat -> truncateLine limit d = d.
Proof.
  intros H. unfold truncateLine.
  destruct (limit <? List.length d)%nat eqn:E; [| reflexivity].
  apply Nat.ltb_lt in E. lia.
Qed.

Lemma truncateLine_long (limit : nat) (d : jsstring) :
  (limit < List.length d)%nat ->
  truncateLine limit d = trim (firstn (limit - 1) d) ++ ellipsis.
Proof.
  intros H. unfold truncateLine.
  apply Nat.ltb_lt in H. now rewrite H.
Qed.

Lemma truncateLine_length (limit : nat) (d : jsstring) :
  (0 < limit)%nat -> (List.length (truncateLine limit d) <= limit)%nat.
Proof.
  intros Hpos. unfold truncateLine.
  destruct (limit <? List.length d)%nat eqn:E.
  - rewrite length_app. simpl.
    pose proof (trim_length (firstn (limit - 1) d)) as T.
    pose proof (firstn_le_length (limit - 1) d). lia.
  - apply Nat.ltb_ge in E. exact E.
Qed.

Lemma truncateLine_exact (limit : nat) (d : jsstring) :
  (0 < limit < List.length d)%nat -> trimmed (firstn (limit - 1) d) ->
  List.length (truncateLine limit d) = limit.
Proof.
  intros [Hpos Hlt] T. rewrite truncateLine_long by assumption.
  rewrite (trimmed_trim _ T), length_app, length_firstn. simpl. lia.
Qed.

Lemma capBullets_description (n limit : nat) (e e' : JsVal) :
  capBullets n limit e = Ok e' ->
  exists bullets,
    mapM or_empty_trim (firstn n (items (field e "description"))) = Ok bullets
    /\ field e' "description"
       = strings (List.map (truncateLine limit) bullets).
Proof.
  unfold capBullets. intros H. inv_bind H. injection H as <-.
  exists a. split.
  - destruct (field e "description"); simpl in *;
      try (rewrite firstn_nil; simpl); assumption.
  - rewrite field_with_prop_same. unfold strings. now rewrite map_map.
Qed.

(** C4, amended.  Each processed experience entry keeps the first bullets
    of its description up to the cap, each trimmed and then cut to the
    per-line limit (120 when compact, 220 otherwise): a bullet within the
    limit is unchanged apart from the trimming; a longer one becomes its
    first [limit - 1] characters, with trailing white space removed,
    followed by the ellipsis, so at most [limit] characters in all, and
    exactly [limit] when the cut does not end in white space.  A trimmed
    bullet of 300 characters under the limit of 120 has at most 120
    characters afterwards. *)
Theorem bullets_truncated :
  (forall input,
     isJSON input = true -> truthy input = true -> tolerated input = true ->
     ordinary input = true ->
     exists p log es,
       preprocessResume input = Ok (p, log) /\
       truncateCharPerLine (_layout p)
       = (if compactMode (_layout p) then 120 else 220)%nat /\
       field (data p) "experience" = JArr es /\
       Forall2 (fun e e' =>
                  exists bullets,
                    mapM or_empty_trim
                      (firstn (maxBulletsPerExp (_layout p))
                         (items (field e "description"))) = Ok bullets /\
                    field e' "description"
                    = strings (List.map
                                 (truncateLine (truncateCharPerLine (_layout p)))
                                 bullets))
         (firstn (maxExperienceItems (_layout p)) (keptExperience input)) es) /\
  (forall limit d,
     (0 < limit)%nat ->
     (List.length (truncateLine limit d) <= limit)%nat /\
     ((List.length d <= limit)%nat -> truncateLine limit d = d) /\
     ((limit < List.length d)%nat ->
      truncateLine limit d = trim (firstn (limit - 1) d) ++ ellipsis /\
      (trimmed (firstn (limit - 1) d) ->
       List.length (truncateLine limit d) = limit))) /\
  (forall d, List.length d = 300%nat ->
     truncateLine 120 d = trim (firstn 119 d) ++ ellipsis /\
     (List.length (truncateLine 120 d) <= 120)%nat).
Proof.
  split; [| split].
  - intros input HJ HT Htol HO.
    destruct (preprocessResume_ok input HJ HT Htol HO) as (p & Hp & Hfrom).
    destruct Hfrom as (x1 & x2 & x3 & x4 & x5 & x6 & x7 & x8 & HL & _ & _
                       & E3 & _ & _ & _ & _ & _ & Hd).
    destruct (assigned_fields _ _ _ _ _ _ _ _ _ Hd) as (F1 & _).
    exists p, (warningFor (data p)), x3.
    split; [exact Hp |]. split; [rewrite HL; reflexivity |].
    split; [exact F1 |].
    apply mapM_Forall2 in E3.
    eapply Forall2_impl; [| exact E3].
    intros e e' He. eapply capBullets_description; eauto.
  - intros limit d Hpos.
    split; [now apply truncateLine_length |].
    split; [apply truncateLine_short |].
    intros Hlt. split; [now apply truncateLine_long |].
    intros T. apply truncateLine_exact; [lia | assumption].
  - intros d Hd. split.
    + apply (truncateLine_long 120). lia.
    + apply truncateLine_length. lia.
Qed.

Lemma bullets_truncated_witness :
  (exists p log es,
     preprocessResume longBulletResume = Ok (p, log) /\
     truncateCharPerLine (_layout p)
     = (if compactMode (_layout p) then 120 else 220)%nat /\
     field (data p) "experience" = JArr es /\
     Forall2 (fun e e' =>
                exists bullets,
                  mapM or_empty_trim
                    (firstn (maxBulletsPerExp (_layout p))
                       (items (field e "description"))) = Ok bullets /\
                  field e' "description"
                  = strings (List.map
                               (truncateLine (truncateCharPerLine (_layout p)))
                               bullets))
       (firstn (maxExperienceItems (_layout p))
          (keptExperience longBulletResume)) es) /\
  (List.length (truncateLine 120 bullet300) <= 120)%nat /\
  truncateLine 120 bullet300 = trim (firstn 119 bullet300) ++ ellipsis.
Proof.
  split; [| split].
  - apply (proj1 bullets_truncated longBulletResume); reflexivity.
  - apply (proj1 (proj2 bullets_truncated) 120%nat bullet300). 
    apply Nat.lt_0_succ.
  - apply (proj2 (proj2 bullets_truncated) bullet300). reflexivity.
Defined.

End Truncation.

(* ===================================================================== *)
(** ** Processing a processed record again (C8)                           *)
(* ===================================================================== *)

Section Settled.
Import Preprocess.

Lemma fixed_trimmed (s : jsstring) : trim s = s -> trimmed s.
Proof. intros <-. apply trim_trimmed. Qed.

Lemma trimmed_sandwich (a m b : jsstring) :
  a <> [] -> b <> [] -> trimmed a -> trimmed b -> trimmed (a ++ m ++ b).
Proof.
  destruct a as [| c r]; [congruence |].
  destruct b as [| c' r']; [congruence |].
  intros _ _ [Hc _] [_ Hl']. simpl. split; [exact Hc |].
  rewrite app_assoc, last_app_cons. exact Hl'.
Qed.

Lemma trimmed_join (sep : jsstring) (l : list jsstring) :
  Forall (fun s => s <> [] /\ trimmed s) l ->
  trimmed (join sep l) /\ (l <> [] -> join sep l <> []).
Proof.
  induction 1 as [| x r [Hx Tx] Hr IH].
  - split; [exact I | intros H; now contradiction H].
  - destruct r as [| y r'].
    + simpl. split; [exact Tx | intros _; exact Hx].
    + change (join sep (x :: y :: r')) with (x ++ sep ++ join sep (y :: r')).
      destruct IH as [Tj Nj]. specialize (Nj ltac:(congruence)).
      split.
      * now apply trimmed_sandwich.
      * intros _ E. apply app_eq_nil in E as [E _]. contradiction.
Qed.

Lemma truncateLine_trimmed (limit : nat) (d : jsstring) :
  trimmed d -> trimmed (truncateLine limit d).
Proof.
  intros T. unfold truncateLine.
  destruct (limit <? List.length d)%nat; [| exact T].
  destruct (trim (firstn (limit - 1) d)) as [| c r] eqn:E.
  - simpl. split; reflexivity.
  - rewrite <- E. apply trimmed_app_nonempty.
    + rewrite E. congruence.
    + discriminate.
    + apply trim_trimmed.
    + simpl. split; reflexivity.
Qed.

Lemma or_empty_trim_string (s : jsstring) :
  trim s = s -> or_empty_trim (JStr s) = Ok s.
Proof.
  intros H. unfold or_empty_trim, or_. destruct s as [| c r]; simpl.
  - reflexivity.
  - now rewrite H.
Qed.

Lemma trim_strings_fixed (l : list jsstring) :
  Forall (fun s => trim s = s) l ->
  mapM or_empty_trim (List.map JStr l) = Ok l.
Proof.
  induction 1 as [| s r Hs _ IH]; simpl; [reflexivity |].
  now rewrite (or_empty_trim_string s Hs), IH.
Qed.

Lemma textual_strings (l : list jsstring) :
  forallb textual (List.map JStr l) = true.
Proof.
  induction l as [| s r IH]; simpl; [reflexivity |].
  rewrite IH. unfold textual, or_. now destruct s.
Qed.

Lemma isJSON_strings (l : list jsstring) : isJSON (strings l) = true.
Proof.
  unfold strings. simpl. induction l; simpl; auto.
Qed.

Lemma isJSON_set_prop (k : string) (v : JsVal) (ps : list (string * JsVal)) :
  isJSON v = true -> forallb (fun p => isJSON (snd p)) ps = true ->
  forallb (fun p => isJSON (snd p)) (set_prop k v ps) = true.
Proof.
  intros Hv. induction ps as [| [k' x] r IH]; simpl.
  - now rewrite Hv.
  - intros H. apply andb_true_iff in H as [H1 H2].
    destruct (String.eqb k k'); simpl; rewrite ?Hv, ?H1; auto.
Qed.

Lemma isJSON_with_prop (e : JsVal) (k : string) (v : JsVal) :
  isJSON e = true -> isJSON v = true -> isJSON (with_prop e k v) = true.
Proof.
  intros He Hv. destruct e; simpl in *; rewrite ?Hv; try reflexivity.
  now apply isJSON_set_prop.
Qed.

Lemma capBullets_settles (n limit : nat) (e e' : JsVal) :
  (0 < limit)%nat -> keepExperience e = true -> isJSON e = true ->
  capBullets n limit e = Ok e' -> settled_entry n limit e'.
Proof.
  intros Hpos Hk HJ H.
  destruct (capBullets_heading n limit e e' Hk H) as (_ & _ & Hk').
  destruct (capBullets_description n limit e e' H) as (bs & Hbs & Hd).
  split; [exact Hk' |]. split.
  - unfold capBullets in H. inv_bind H. injection H as <-.
    apply isJSON_with_prop; [assumption |].
    rewrite <- (map_map (truncateLine limit) JStr).
    apply (isJSON_strings (List.map (truncateLine limit) a)).
  - exists (List.map (truncateLine limit) bs). split; [exact Hd |]. split.
    + rewrite length_map, (mapM_length _ _ _ Hbs). apply firstn_le_length.
    + apply Forall_map. apply trimmed_texts in Hbs.
      eapply Forall_impl; [| exact Hbs]. intros s Hs. split.
      * apply trimmed_trim, truncateLine_trimmed, fixed_trimmed, Hs.
      * now apply truncateLine_length.
Qed.

Lemma map_fixed {A} (f : A -> A) (l : list A) :
  Forall (fun x => f x = x) l -> List.map f l = l.
Proof.
  induction 1 as [| x r Hx _ IH]; simpl; congruence.
Qed.

Lemma capBullets_fixed (n limit n' limit' : nat) (e : JsVal) :
  settled_entry n limit e -> (n <= n')%nat -> (limit <= limit')%nat ->
  capBullets n' limit' e = Ok e.
Proof.
  intros (Hk & _ & bs & Hd & Hlen & Hbs) Hn Hl.
  destruct (keepExperience_object e Hk) as (ps & ->).
  unfold capBullets. rewrite Hd. unfold strings at 1.
  rewrite firstn_all2 by (rewrite length_map; lia).
  rewrite trim_strings_fixed
    by (eapply Forall_impl; [| exact Hbs]; intros s Hs; apply Hs).
  cbn [bind]. rewrite <- map_map.
  rewrite (map_fixed (truncateLine limit')).
  - fold (strings bs). simpl in Hd. rewrite <- Hd. simpl. do 2 f_equal.
    apply set_prop_same_value. rewrite Hd. discriminate.
  - eapply Forall_impl; [| exact Hbs]. intros s [_ Hs].
    apply truncateLine_short. lia.
Qed.

Lemma settled_entry_ok (n limit : nat) (e : JsVal) :
  settled_entry n limit e -> experienceOk e = true.
Proof.
  intros (Hk & _ & bs & Hd & _).
  destruct (keepExperience_object e Hk) as (ps & ->).
  unfold experienceOk, bulletsOk. rewrite Hd. simpl.
  apply textual_strings.
Qed.

Lemma normalizeCertification_fixed (c : JsVal) :
  normal_certification c -> normalizeCertification c = Ok c.
Proof.
  intros (n & y & -> & Hn & Hy). unfold normalizeCertification. simpl.
  rewrite (or_empty_trim_string n Hn). simpl.
  now rewrite (or_empty_trim_string y Hy).
Qed.

Lemma normal_certification_ok (c : JsVal) :
  normal_certification c -> certificationOk c = true /\ isJSON c = true.
Proof.
  intros (n & y & -> & _ & _). split; [| reflexivity].
  unfold certificationOk, textual, or_. simpl. now destruct n, y.
Qed.

Lemma experienceAsAchievement_trimmed (n : nat) (e : JsVal) (s : jsstring) :
  experienceAsAchievement n e = Ok s -> trim s = s.
Proof.
  intros H.
  destruct (experienceAsAchievement_inv n e s H)
    as (role & company & bullets & _ & _ & Eb & ->).
  apply trimmed_trim, trimmed_join.
  constructor.
  - split; [apply heading_nonempty | apply trim_trimmed].
  - apply Forall_forall. intros s Hs. apply filter_In in Hs as [Hs Hne].
    split; [now apply nonempty_true |].
    apply trimmed_texts in Eb. rewrite Forall_forall in Eb.
    apply fixed_trimmed. auto.
Qed.

Lemma educationAsAchievement_trimmed (e : JsVal) (s : jsstring) :
  educationAsAchievement e = Ok s -> trim s = s.
Proof.
  intros H.
  destruct (educationAsAchievement_inv e s H)
    as (degree & school & year & _ & _ & _ & ->).
  apply trim_idem.
Qed.

End Settled.

Section SettledRecord.
Import Preprocess.

Lemma assignAll_validated (input : JsVal) (ex ed ce : list JsVal)
      (so sk la ac : list jsstring) :
  assignAll (TemplateHelpers.validateResumeData input) ex ed ce so sk la ac
  = processedObject input ex ed ce so sk la ac.
Proof.
  unfold assignAll, TemplateHelpers.validateResumeData, processedObject.
  rewrite !orNoItems_items. reflexivity.
Qed.

Lemma or_twice (x : JsVal) :
  or_ (or_ x (JStr [])) (JStr []) = or_ x (JStr []).
Proof. unfold or_. destruct (truthy x) eqn:E; [now rewrite E | reflexivity]. Qed.

Ltac read_property :=
  repeat match goal with
         | d := _ |- _ => subst d
         end;
  unfold processedObject, TemplateHelpers.orEmpty, TemplateHelpers.orNoItems;
  cbv [field lookup String.eqb Ascii.eqb Bool.eqb andb isArray strings];
  rewrite ?or_twice; reflexivity.

Lemma validate_processedObject (input : JsVal) (ex ed ce : list JsVal)
      (so sk la ac : list jsstring) :
  TemplateHelpers.validateResumeData
    (processedObject input ex ed ce so sk la ac)
  = processedObject input ex ed ce so sk la ac.
Proof.
  set (d := processedObject input ex ed ce so sk la ac).
  unfold TemplateHelpers.validateResumeData.
  replace (TemplateHelpers.orEmpty d "name")
    with (TemplateHelpers.orEmpty input "name") by read_property.
  replace (TemplateHelpers.orEmpty d "title")
    with (TemplateHelpers.orEmpty input "title") by read_property.
  replace (TemplateHelpers.orEmpty d "photoUrl")
    with (TemplateHelpers.orEmpty input "photoUrl") by read_property.
  replace (TemplateHelpers.orEmpty d "summary")
    with (TemplateHelpers.orEmpty input "summary") by read_property.
  replace (TemplateHelpers.orEmpty (field d "contact") "phone")
    with (TemplateHelpers.orEmpty (field input "contact") "phone")
    by read_property.
  replace (TemplateHelpers.orEmpty (field d "contact") "email")
    with (TemplateHelpers.orEmpty (field input "contact") "email")
    by read_property.
  replace (TemplateHelpers.orEmpty (field d "contact") "address")
    with (TemplateHelpers.orEmpty (field input "contact") "address")
    by read_property.
  replace (TemplateHelpers.orEmpty (field d "contact") "linkedin")
    with (TemplateHelpers.orEmpty (field input "contact") "linkedin")
    by read_property.
  replace (TemplateHelpers.orNoItems d "experience") with (JArr ex)
    by read_property.
  replace (TemplateHelpers.orNoItems d "education") with (JArr ed)
    by read_property.
  replace (TemplateHelpers.orNoItems d "certifications") with (JArr ce)
    by read_property.
  replace (TemplateHelpers.orNoItems d "achivements") with (strings ac)
    by read_property.
  replace (TemplateHelpers.orNoItems d "volunteer")
    with (JArr (items (field input "volunteer"))) by read_property.
  replace (TemplateHelpers.orNoItems d "skills") with (strings sk)
    by read_property.
  replace (TemplateHelpers.orNoItems d "softSkills") with (strings so)
    by read_property.
  replace (TemplateHelpers.orNoItems d "languages") with (strings la)
    by read_property.
  replace (TemplateHelpers.orNoItems d "interests")
    with (JArr (items (field input "interests"))) by read_property.
  reflexivity.
Qed.

End SettledRecord.

Section SecondPass.
Import Preprocess.

Lemma isJSON_items (v : JsVal) (k : string) :
  isJSON v = true -> Forall (fun e => isJSON e = true) (items (field v k)).
Proof.
  intros H. destruct (isJSON_field v k H) as [-> | F]; [constructor |].
  destruct (field v k); try constructor.
  simpl in *. apply Forall_forall. rewrite forallb_forall in F. exact F.
Qed.

Lemma mapM_Forall_from {A B} (f : A -> result B) (P : A -> Prop)
      (Q : B -> Prop) (l : list A) (l' : list B) :
  (forall x y, P x -> f x = Ok y -> Q y) ->
  Forall P l -> mapM f l = Ok l' -> Forall Q l'.
Proof.
  intros H HP E. apply mapM_Forall2 in E.
  induction E; constructor; inversion HP; subst; eauto.
Qed.

Lemma forallb_Forall {A} (f : A -> bool) (l : list A) :
  forallb f l = true <-> Forall (fun x => f x = true) l.
Proof. rewrite forallb_forall, Forall_forall. tauto. Qed.

Lemma tolerated_lists (input : JsVal) :
  tolerated input = true ->
  Forall (fun e => educationOk e = true) (items (field input "education")).
Proof.
  unfold tolerated, listOf. intros H.
  repeat (apply andb_true_iff in H as [H ?]).
  now apply forallb_Forall.
Qed.

Lemma first_pass_settles (input : JsVal) (p : ProcessedResume) :
  isJSON input = true -> tolerated input = true -> processed_from input p ->
  exists ex ed ce so sk la ac,
    data p = processedObject input ex ed ce so sk la ac /\
    settled (compactMode (_layout p)) ex ed ce so sk la ac.
Proof.
  intros HJ Htol (x1 & x2 & x3 & x4 & x5 & x6 & x7 & x8 & HL & E1 & E2 & E3
                  & E4 & E5 & E6 & E7 & E8 & Hd).
  rewrite assignAll_validated in Hd.
  do 7 eexists. split; [exact Hd |].
  set (c := compactMode (_layout p)) in *.
  rewrite HL in E1, E2, E3 |- *. clear HL.
  unfold settled. cbv zeta.
  split; [| split; [| split; [| split; [| split; [| split]]]]].
  - eapply (mapM_Forall_from _
              (fun e => keepExperience e = true /\ isJSON e = true));
      [| | exact E3].
    + intros e e' [Hk He] Hc. eapply capBullets_settles; eauto.
      destruct c; simpl; lia.
    + apply Forall_firstn. unfold keptExperience.
      apply Forall_forall. intros e He. apply filter_In in He as [He Hk].
      rewrite <- keepExperience_withHeading in Hk.
      split; [exact Hk |].
      pose proof (isJSON_items input "experience" HJ) as A.
      rewrite Forall_forall in A. auto.
  - rewrite (mapM_length _ _ _ E3). apply firstn_le_length.
  - apply Forall_firstn. unfold keptEducation.
    apply Forall_forall. intros e He. apply filter_In in He as [He Hk].
    rewrite <- keepEducation_withHeading in Hk.
    pose proof (isJSON_items input "education" HJ) as A.
    pose proof (tolerated_lists input Htol) as B.
    rewrite Forall_forall in A, B. auto.
  - apply firstn_le_length.
  - apply Forall_firstn. eapply mapM_Forall; [| exact E4].
    intros c0 c' Hc. eapply normalizeCertification_normal; eauto.
  - apply firstn_le_length.
  - split; [apply normalized_strings; eapply trimmed_texts; eauto |].
    split; [apply normalized_strings; eapply trimmed_texts; eauto |].
    split; [apply normalized_strings; eapply trimmed_texts; eauto |].
    repeat split.
    + apply NoDup_firstn, NoDup_filter', uniq_NoDup.
    + apply Forall_forall. intros s Hs.
      apply In_firstn, filter_In in Hs as [Hs Hne].
      split; [| now apply nonempty_true].
      apply uniq_In, in_app_or in Hs as [Hs | Hs].
      * apply trimmed_texts in E8. rewrite Forall_forall in E8. auto.
      * apply filter_In in Hs as [Hs _]. apply in_app_or in Hs as [Hs | Hs].
        -- pose proof (mapM_Forall _ (fun s => trim s = s) _ _
                         (experienceAsAchievement_trimmed _) E1) as A.
           rewrite Forall_forall in A. auto.
        -- pose proof (mapM_Forall _ (fun s => trim s = s) _ _
                         educationAsAchievement_trimmed E2) as A.
           rewrite Forall_forall in A. auto.
    + apply firstn_le_length.
Qed.

End SecondPass.

Section FixedPoint.
Import Preprocess.

Lemma processedObject_lists (input : JsVal) (ex ed ce : list JsVal)
      (so sk la ac : list jsstring) :
  let d := processedObject input ex ed ce so sk la ac in
  field d "experience" = JArr ex /\
  field d "education" = JArr ed /\
  field d "certifications" = JArr ce /\
  field d "achivements" = strings ac /\
  field d "volunteer" = JArr (items (field input "volunteer")) /\
  field d "skills" = strings sk /\
  field d "softSkills" = strings so /\
  field d "languages" = strings la.
Proof. cbv zeta. repeat split. Qed.

Lemma isJSON_array (l : list JsVal) :
  Forall (fun e => isJSON e = true) l -> isJSON (JArr l) = true.
Proof. intros H. simpl. now apply forallb_Forall. Qed.

Lemma isJSON_processedObject (input : JsVal) (ex ed ce : list JsVal)
      (so sk la ac : list jsstring) :
  isJSON input = true ->
  Forall (fun e => isJSON e = true) ex ->
  Forall (fun e => isJSON e = true) ed ->
  Forall (fun e => isJSON e = true) ce ->
  isJSON (processedObject input ex ed ce so sk la ac) = true.
Proof.
  intros HJ Hex Hed Hce.
  rewrite <- assignAll_validated. unfold assignAll.
  repeat apply isJSON_with_prop;
    auto using isJSON_validateResumeData, isJSON_array, isJSON_strings.
Qed.

Lemma filter_all {A} (f : A -> bool) (l : list A) :
  Forall (fun x => f x = true) l -> filter f l = l.
Proof.
  induction 1 as [| x r Hx _ IH]; simpl; [reflexivity |].
  now rewrite Hx, IH.
Qed.

Lemma mapM_fixed {A} (f : A -> result A) (l : list A) :
  Forall (fun x => f x = Ok x) l -> mapM f l = Ok l.
Proof.
  intros H. rewrite (mapM_pure f (fun x => x) l H). now rewrite map_id.
Qed.

Lemma normal_strings_fixed (cap cap' : nat) (l raw : list jsstring) :
  normal_strings cap l -> (cap <= cap')%nat ->
  mapM or_empty_trim (items (strings l)) = Ok raw ->
  firstn cap' (uniq (filter nonempty raw)) = l.
Proof.
  intros (ND & F & Hlen) Hcap E. unfold strings in E. cbn [items] in E.
  rewrite trim_strings_fixed in E
    by (eapply Forall_impl; [| exact F]; intros s Hs; apply Hs).
  injection E as <-.
  rewrite filter_nonempty_all
    by (eapply Forall_impl; [| exact F]; intros s Hs; apply Hs).
  rewrite uniq_fixed by assumption.
  apply firstn_all2. lia.
Qed.

Lemma caps_grow (c1 c2 : bool) :
  (c2 = true -> c1 = true) ->
  (maxExperienceItems (hints c1) <= maxExperienceItems (hints c2))%nat /\
  (maxBulletsPerExp (hints c1) <= maxBulletsPerExp (hints c2))%nat /\
  (maxEducationItems (hints c1) <= maxEducationItems (hints c2))%nat /\
  (truncateCharPerLine (hints c1) <= truncateCharPerLine (hints c2))%nat /\
  (maxSoftSkills c1 <= maxSoftSkills c2)%nat /\
  (maxSkills c1 <= maxSkills c2)%nat /\
  (maxLanguages c1 <= maxLanguages c2)%nat /\
  (achCap c1 <= achCap c2)%nat.
Proof.
  destruct c1, c2; simpl; intros H; try (specialize (H eq_refl); discriminate);
    repeat split; lia.
Qed.

Lemma settled_tolerated (c : bool) (input : JsVal) (ex ed ce : list JsVal)
      (so sk la ac : list jsstring) :
  tolerated input = true -> settled c ex ed ce so sk la ac ->
  tolerated (processedObject input ex ed ce so sk la ac) = true.
Proof.
  intros Htol (Hex & _ & Hed & _ & Hce & _ & _).
  destruct (processedObject_lists input ex ed ce so sk la ac)
    as (F1 & F2 & F3 & F4 & F5 & F6 & F7 & F8).
  unfold tolerated, listOf in *.
  rewrite F1, F2, F3, F4, F5, F6, F7, F8. unfold strings. cbn [items].
  repeat (apply andb_true_iff in Htol as [Htol ?]).
  rewrite !textual_strings.
  repeat (apply andb_true_iff; split); try reflexivity; try assumption.
  - apply forallb_Forall. eapply Forall_impl; [| exact Hex].
    intros e. apply settled_entry_ok.
  - apply forallb_Forall. eapply Forall_impl; [| exact Hed].
    intros e He. apply He.
  - apply forallb_Forall. eapply Forall_impl; [| exact Hce].
    intros e He. now apply normal_certification_ok.
Qed.

Lemma settled_isJSON (c : bool) (input : JsVal) (ex ed ce : list JsVal)
      (so sk la ac : list jsstring) :
  isJSON input = true -> settled c ex ed ce so sk la ac ->
  isJSON (processedObject input ex ed ce so sk la ac) = true.
Proof.
  intros HJ (Hex & _ & Hed & _ & Hce & _ & _).
  apply isJSON_processedObject; [assumption | | |].
  - eapply Forall_impl; [| exact Hex]. intros e He. apply He.
  - eapply Forall_impl; [| exact Hed]. intros e He. apply He.
  - eapply Forall_impl; [| exact Hce].
    intros e He. now apply normal_certification_ok.
Qed.

Lemma assignAll_processedObject (input : JsVal) (ex ed ce : list JsVal)
      (so sk la ac : list jsstring) :
  assignAll (processedObject input ex ed ce so sk la ac) ex ed ce so sk la ac
  = processedObject input ex ed ce so sk la ac.
Proof. reflexivity. Qed.

(** A second pass whose caps are not smaller leaves the record as it is. *)
Lemma second_pass_fixed (c1 : bool) (input : JsVal) (ex ed ce : list JsVal)
      (so sk la ac : list jsstring) (p2 : ProcessedResume) :
  settled c1 ex ed ce so sk la ac ->
  processed_from (processedObject input ex ed ce so sk la ac) p2 ->
  (compactMode (_layout p2) = true -> c1 = true) ->
  data p2 = processedObject input ex ed ce so sk la ac.
Proof.
  intros (Hex & Lex & Hed & Led & Hce & Lce & Hso & Hsk & Hla & Hac)
         (x1 & x2 & x3 & x4 & x5 & x6 & x7 & x8 & HL & E1 & E2 & E3
          & E4 & E5 & E6 & E7 & E8 & Hd) Hc.
  set (c2 := compactMode (_layout p2)) in *.
  destruct (caps_grow c1 c2 Hc)
    as (G1 & G2 & G3 & G4 & G5 & G6 & G7 & G8).
  rewrite HL in *. clear HL.
  destruct (processedObject_lists input ex ed ce so sk la ac)
    as (F1 & F2 & F3 & F4 & _ & F6 & F7 & F8).
  unfold keptExperience, keptEducation in *.
  rewrite F1, F2 in *. rewrite F3 in E4. rewrite F7 in E5. rewrite F6 in E6.
  rewrite F8 in E7. rewrite F4 in E8. cbn [items] in E1, E2, E3, E4, Hd.
  rewrite validate_processedObject in Hd.
  assert (Kex : filter (withHeading "role" "company") ex = ex).
  { apply filter_all. eapply Forall_impl; [| exact Hex].
    intros e He. rewrite <- keepExperience_withHeading. apply He. }
  assert (Ked : filter (withHeading "degree" "school") ed = ed).
  { apply filter_all. eapply Forall_impl; [| exact Hed].
    intros e He. rewrite <- keepEducation_withHeading. apply He. }
  rewrite Kex, Ked in *.
  rewrite skipn_all2 in E1 by lia. rewrite skipn_all2 in E2 by lia.
  injection E1 as <-. injection E2 as <-.
  rewrite firstn_all2 in E3 by lia.
  rewrite mapM_fixed in E3.
  2:{ eapply Forall_impl; [| exact Hex]. intros e He.
      eapply capBullets_fixed; eauto. }
  injection E3 as <-.
  rewrite mapM_fixed in E4.
  2:{ eapply Forall_impl; [| exact Hce].
      intros e He. now apply normalizeCertification_fixed. }
  injection E4 as <-.
  rewrite (normal_strings_fixed _ _ _ _ Hso G5 E5) in Hd.
  rewrite (normal_strings_fixed _ _ _ _ Hsk G6 E6) in Hd.
  rewrite (normal_strings_fixed _ _ _ _ Hla G7 E7) in Hd.
  cbn [app filter] in Hd. rewrite app_nil_r in Hd.
  pose proof (normal_strings_fixed _ _ _ _ Hac G8 E8) as A.
  destruct Hac as (ND & FA & LA).
  assert (X8 : x8 = ac).
  { unfold strings in E8. cbn [items] in E8.
    rewrite trim_strings_fixed in E8
      by (eapply Forall_impl; [| exact FA]; intros s Hs; apply Hs).
    now injection E8. }
  subst x8.
  rewrite uniq_fixed in Hd by assumption.
  rewrite filter_nonempty_all in Hd
    by (eapply Forall_impl; [| exact FA]; intros s Hs; apply Hs).
  rewrite (firstn_all2 ac) in Hd by lia.
  rewrite (firstn_all2 ed) in Hd by lia.
  rewrite (firstn_all2 ce) in Hd by (unfold maxCertifications in *; lia).
  rewrite Hd. apply assignAll_processedObject.
Qed.

Lemma capBullets_ordinary (n limit : nat) (e e' : JsVal) :
  ordinary e = true -> capBullets n limit e = Ok e' -> ordinary e' = true.
Proof.
  intros He H. unfold capBullets in H. inv_bind H. injection H as <-.
  apply ordinary_with_prop; [reflexivity | assumption |].
  rewrite <- (map_map (truncateLine limit) JStr). apply ordinary_strings.
Qed.

Lemma normalizeCertification_ordinary (c c' : JsVal) :
  normalizeCertification c = Ok c' -> ordinary c' = true.
Proof.
  intros H. destruct (normalizeCertification_normal c c' H)
    as (name & year & -> & _). reflexivity.
Qed.

Lemma ordinary_entries (input : JsVal) (k : string) :
  ordinary input = true ->
  Forall (fun e => ordinary e = true) (items (field input k)).
Proof.
  intros H. apply forallb_Forall. now apply ordinary_items, ordinary_field.
Qed.

Lemma Forall_filter {A} (P : A -> Prop) (f : A -> bool) (l : list A) :
  Forall P l -> Forall P (filter f l).
Proof.
  rewrite !Forall_forall. intros H x Hx. apply filter_In in Hx. now apply H.
Qed.

(** The processed record of an ordinary resume is ordinary. *)
Lemma processed_ordinary (input : JsVal) (p : ProcessedResume) :
  ordinary input = true -> processed_from input p ->
  ordinary (data p) = true.
Proof.
  intros HO (x1 & x2 & x3 & x4 & x5 & x6 & x7 & x8 & HL & E1 & E2 & E3
             & E4 & E5 & E6 & E7 & E8 & Hd).
  rewrite Hd. unfold assignAll, strings. cbv zeta.
  repeat (apply ordinary_with_prop; [reflexivity | |]);
    try apply ordinary_strings.
  - now apply ordinary_validateResumeData.
  - apply ordinary_array.
    eapply (mapM_Forall_from _ (fun e => ordinary e = true)); [| | exact E3].
    + intros e e' He Hc. eapply capBullets_ordinary; eauto.
    + apply Forall_firstn, Forall_filter. now apply ordinary_entries.
  - apply ordinary_array, Forall_firstn, Forall_filter.
    now apply ordinary_entries.
  - apply ordinary_array, Forall_firstn.
    eapply mapM_Forall; [| exact E4].
    intros c c' Hc. eapply normalizeCertification_ordinary; eauto.
Qed.

End FixedPoint.

Section Idempotence.
Import Preprocess.

(** C8, as stated, fails.  The first pass is not compact (2200
    characters) and moves the seventh school to the achievements as
    "D — S Y", which makes the text one character longer; the second pass
    is therefore compact and cuts the education list from 6 entries to 2. *)
Lemma second_pass_cuts_further :
  exists p1 log1 p2 log2,
    preprocessResume thresholdResume = Ok (p1, log1) /\
    preprocessResume (data p1) = Ok (p2, log2) /\
    compactMode (_layout p1) = false /\
    compactMode (_layout p2) = true /\
    List.length (items (field (data p1) "education")) = 6%nat /\
    List.length (items (field (data p2) "education")) = 2%nat.
Proof.
  eexists. eexists. eexists. eexists.
  split; [vm_compute; reflexivity |].
  split; [vm_compute; reflexivity |].
  repeat split.
Qed.

Lemma preprocessResume_reads (r d : JsVal) :
  truthy r = true -> truthy d = true ->
  TemplateHelpers.validateResumeData r = TemplateHelpers.validateResumeData d ->
  preprocessResume r = preprocessResume d.
Proof.
  intros Hr Hd E. rewrite !preprocessResume_eq, Hr, Hd.
  unfold privateCopy. now rewrite E.
Qed.

(** C8, amended.  Let [p1] be the record returned for a resume.  Running
    [preprocessResume] on a value that carries the resume properties of
    [p1] (whatever else it carries, the layout annotations for instance)
    returns a record with the same resume content as [p1], and so with the
    same list lengths and string lengths, unless the second pass chooses
    compact mode although the first did not. *)
Theorem second_pass_stable (input : JsVal) :
  isJSON input = true -> truthy input = true -> tolerated input = true ->
  ordinary input = true ->
  exists p1 log1,
    preprocessResume input = Ok (p1, log1) /\
    forall r,
      truthy r = true ->
      TemplateHelpers.validateResumeData r
      = TemplateHelpers.validateResumeData (data p1) ->
      exists p2 log2,
        preprocessResume r = Ok (p2, log2) /\
        ((compactMode (_layout p2) = true -> compactMode (_layout p1) = true)
         -> data p2 = data p1).
Proof.
  intros HJ HT Htol HO.
  destruct (preprocessResume_ok input HJ HT Htol HO) as (p1 & Hp1 & Hfrom).
  exists p1, (warningFor (data p1)). split; [exact Hp1 |].
  pose proof (processed_ordinary input p1 HO Hfrom) as HO1.
  destruct (first_pass_settles input p1 HJ Htol Hfrom)
    as (ex & ed & ce & so & sk & la & ac & Hd & Hs).
  intros r Hr Hv. rewrite Hd in *.
  set (d := processedObject input ex ed ce so sk la ac) in *.
  assert (Td : truthy d = true) by reflexivity.
  rewrite (preprocessResume_reads r d Hr Td Hv).
  destruct (preprocessResume_ok d) as (p2 & Hp2 & Hfrom2).
  - eapply settled_isJSON; eauto.
  - exact Td.
  - eapply settled_tolerated; eauto.
  - exact HO1.
  - exists p2, (warningFor (data p2)). split; [exact Hp2 |].
    intros Hc. eapply second_pass_fixed; eauto.
Qed.

Lemma second_pass_stable_witness :
  exists p1 log1,
    preprocessResume eightJobsResume = Ok (p1, log1) /\
    forall r,
      truthy r = true ->
      TemplateHelpers.validateResumeData r
      = TemplateHelpers.validateResumeData (data p1) ->
      exists p2 log2,
        preprocessResume r = Ok (p2, log2) /\
        ((compactMode (_layout p2) = true -> compactMode (_layout p1) = true)
         -> data p2 = data p1).
Proof.
  apply (second_pass_stable eightJobsResume); reflexivity.
Defined.

End Idempotence.

(* ===================================================================== *)
(** ** The input is left as it was (C9)                                   *)
(* ===================================================================== *)

Section Frame.
Import Store.

















End Frame.

(* ===================================================================== *)
(** ** The store and the trees: one function                              *)
(* ===================================================================== *)

Section StoreAndTrees.
Import Store.










End StoreAndTrees.

Section StoreValidation.
Import Store.






End StoreValidation.

Section SameFunction.
Import Store.



End SameFunction.

(* ===================================================================== *)
(** ** What is returned: the copy holds the processed record              *)
(* ===================================================================== *)

Section Copy.
Import Store.




End Copy.

Section Returned.
Import Store.













End Returned.

Section FrameTheorem.
Import Store.



End FrameTheorem.


(* ===================================================================== *)
(** ** Layout limits, classes and the validator                           *)
(* ===================================================================== *)

Section LayoutLimits.
Import LayoutOptimizer.

(** X1.  Whatever the resume and the template, [optimizeLayout] keeps the
    template type, is compact exactly for dense and overflowing content,
    and chooses content limits of 3 to 6 experience entries, 4 education
    entries, 2 to 4 bullets, 16 to 20 skills and 4 to 8 achievements, with
    a scale factor between 0.95 and 1.02 that is below 1 exactly in
    compact mode. *)
Theorem optimizeLayout_content_limits (data : JsVal) (t : TemplateType)
      (c : LayoutConfig) (m : ContentMetrics) :
  analyzeContent data = Ok m -> optimizeLayout data t = Ok c ->
  templateType c = t /\
  (compactMode c = true <->
     contentDensity m = dense \/ contentDensity m = overflow) /\
  3 <= maxExperienceItems c <= 6 /\
  maxEducationItems c = 4 /\
  2 <= maxBulletsPerExp c <= 4 /\
  16 <= maxSkillsDisplay c <= 20 /\
  4 <= maxAchievements c <= 8 /\
  ((95 # 100) <= scaleFactor c /\ scaleFactor c <= (102 # 100))%Q /\
  ((scaleFactor c < 1)%Q <-> compactMode c = true).
Proof.
  intros Hm H. unfold optimizeLayout in H. rewrite Hm in H. simpl in H.
  injection H as <-.
  destruct (contentDensity m), t; cbn;
    repeat split; try lia; try discriminate; intros;
    try reflexivity; try (left; reflexivity); try (right; reflexivity);
    try discriminate; try (destruct H; discriminate);
    try (exfalso; apply (Qlt_irrefl 1); assumption);
    try (unfold Qlt in *; simpl in *; lia).
Qed.

Lemma sumM_bulletsOf_nonneg (l : list JsVal) (total n : Z) :
  sumM bulletsOf l total = Ok n -> 0 <= total -> 0 <= n.
Proof.
  revert total. induction l as [| e r IH]; intros total H T; simpl in H.
  - injection H as <-. exact T.
  - inv_bind H. apply IH in H; [exact H |].
    unfold bulletsOf in E. inv_bind E. injection E as <-.
    destruct a0; simpl; lia.
Qed.

(** X2.  For an ordinary resume (no object in it has an own property
    [length]) the estimated height is at least the 100px of the header,
    and entries beyond the display caps add nothing: apart from the
    summary, the skills and the soft skills, all sections together add at
    most 1707px.  The section count lies between 0 and 10. *)
Theorem analyzeContent_bounds (data : JsVal) (m : ContentMetrics) :
  ordinary data = true ->
  analyzeContent data = Ok m ->
  100 <= estimatedHeight m /\
  estimatedHeight m
  <= 1807 + 16 * ceil_div (summaryLength m) 80
     + 25 * ceil_div (skillsCount m) 6
     + 20 * ceil_div (optLen (field data "softSkills")) 4 /\
  0 <= sectionCount m <= 10.
Proof.
  intros _ H. unfold analyzeContent in H.
  inv_bind H. rename a into experience, E into Ee.
  inv_bind H. rename a into bullets, E into Eb.
  assert (Hm : forall a b : ContentMetrics, Ok a = Ok b -> a = b)
    by (intros a b Hab; congruence).
  apply Hm in H. rewrite <- H. clear Hm H m.
  cbv beta iota zeta delta
    [estimatedHeight sectionCount summaryLength skillsCount].
  assert (L : forall v, 0 <= optLen v) by (intros []; simpl; lia).
  assert (C : forall n d, 0 <= n -> 0 < d -> 0 <= ceil_div n d).
  { intros n d Hn Hd. unfold ceil_div. apply Z.div_pos; lia. }
  assert (B : 0 <= bullets).
  { destruct (nullish experience); [injection Eb as <-; lia |].
    inv_bind Eb. now apply sumM_bulletsOf_nonneg in Eb. }
  pose proof (L experience).
  pose proof (L (field data "education")).
  pose proof (L (field data "achivements")).
  pose proof (L (field data "certifications")).
  pose proof (L (field data "volunteer")).
  pose proof (L (field data "summary")).
  pose proof (L (field data "skills")).
  pose proof (L (field data "softSkills")).
  pose proof (C (optLen (field data "summary")) 80).
  pose proof (C (optLen (field data "skills")) 6).
  pose proof (C (optLen (field data "softSkills")) 4).
  unfold b2z.
  repeat match goal with
         | |- context [if ?b then ?x else ?y] =>
             lazymatch x with
             | context [if _ then _ else _] => fail
             | _ => idtac
             end;
             lazymatch y with
             | context [if _ then _ else _] => fail
             | _ => idtac
             end;
             let v := fresh "v" in
             let Hv := fresh "Hv" in
             set (v := if b then x else y) in *;
             assert (Hv : y <= v <= x) by (subst v; destruct b; lia);
             clearbody v
         end.
  lia.
Qed.

End LayoutLimits.

Section ContentLimits.
Import LayoutOptimizer LayoutUtilities.

Lemma slice_to_prefix {A} (l : list A) (e : Z) :
  exists rest, l = slice_to l e ++ rest.
Proof. exists (skipn (Z.to_nat (if e <? 0 then Z.of_nat (List.length l) + e else e)) l).
  unfold slice_to. now rewrite firstn_skipn. Qed.

Lemma slice_to_length {A} (l : list A) (e : Z) :
  Z.of_nat (List.length (slice_to l e))
  = if e <? 0 then Z.max 0 (Z.of_nat (List.length l) + e)
    else Z.min e (Z.of_nat (List.length l)).
Proof.
  unfold slice_to. rewrite length_firstn.
  destruct (Z.ltb_spec e 0); lia.
Qed.

Lemma slice_to_all {A} (l : list A) (e : Z) :
  Z.of_nat (List.length l) <= e -> slice_to l e = l.
Proof.
  intros H. unfold slice_to.
  destruct (Z.ltb_spec e 0); [lia |].
  apply firstn_all2. lia.
Qed.

Lemma slice_to_firstn {A} (l : list A) (n : nat) :
  slice_to l (Z.of_nat n) = firstn n l.
Proof.
  unfold slice_to. destruct (Z.ltb_spec (Z.of_nat n) 0); [lia |].
  now rewrite Nat2Z.id.
Qed.

(** X3.  [limitContent] never reorders, changes or invents an entry: it
    returns a prefix of the array.  For a limit that is not negative the
    prefix has as many entries as the array has, up to the limit; a
    negative limit drops that many entries from the end.  Limiting twice
    is limiting by the smaller limit. *)
Theorem limitContent_prefix (l : list JsVal) (maxItems : Z) :
  exists shown rest,
    limitContent (JArr l) maxItems = Ok (JArr shown) /\
    l = shown ++ rest /\
    (0 <= maxItems ->
       Z.of_nat (List.length shown) = Z.min maxItems (Z.of_nat (List.length l))) /\
    (maxItems < 0 ->
       Z.of_nat (List.length shown)
       = Z.max 0 (Z.of_nat (List.length l) + maxItems)) /\
    (forall again, 0 <= maxItems -> 0 <= again ->
       limitContent (JArr shown) again
       = limitContent (JArr l) (Z.min maxItems again)).
Proof.
  destruct (slice_to_prefix l maxItems) as [rest E].
  exists (slice_to l maxItems), rest. repeat split.
  - exact E.
  - intros H. rewrite slice_to_length. destruct (Z.ltb_spec maxItems 0); lia.
  - intros H. rewrite slice_to_length. destruct (Z.ltb_spec maxItems 0); lia.
  - intros again H1 H2. simpl. do 2 f_equal. unfold slice_to.
    destruct (Z.ltb_spec maxItems 0); [lia |].
    destruct (Z.ltb_spec again 0); [lia |].
    destruct (Z.ltb_spec (Z.min maxItems again) 0); [lia |].
    rewrite firstn_firstn. f_equal. lia.
Qed.

(** X4.  The bullets that [limitBulletPoints] shows for an experience entry
    are never more than [analyzeContent] counts for it.  A description
    that is a string is shown whole, as one bullet, whatever the limit;
    of an array the first bullets are shown, up to the limit. *)
Theorem shown_bullets_at_most_counted (exp : JsVal) (maxBullets counted : Z)
      (shown : list JsVal) :
  bulletsOf exp = Ok counted ->
  limitBulletPoints (field exp "description") maxBullets = Ok (JArr shown) ->
  Z.of_nat (List.length shown) <= counted /\
  (forall s, field exp "description" = JStr s -> shown = [JStr s]) /\
  (forall l, field exp "description" = JArr l -> 0 <= maxBullets ->
     shown = firstn (Z.to_nat maxBullets) l).
Proof.
  unfold bulletsOf, prop.
  destruct (nullish exp); [discriminate |]. simpl.
  intros [= <-] H.
  destruct (field exp "description") as [| | | | s | l |] eqn:D;
    try discriminate H; simpl in H; injection H as <-.
  - repeat split; [simpl; lia | | discriminate].
    now intros s' [= <-].
  - repeat split.
    + simpl. pose proof (slice_to_length l maxBullets) as L.
      destruct (Z.ltb_spec maxBullets 0); lia.
    + discriminate.
    + intros l' [= <-] M. unfold slice_to.
      destruct (Z.ltb_spec maxBullets 0); [lia | reflexivity].
Qed.

(** X5.  For every layout that [optimizeLayout] produces, the class of the
    small text is [text-xs], the body text is [text-xs] or [text-sm], the
    name is never smaller than [text-2xl], the spacing between sections is
    never below [mb-4], and the tight line spacing [space-y-1] is chosen
    exactly in compact mode. *)
Theorem responsive_classes_of_layout (data : JsVal) (t : TemplateType)
      (c : LayoutConfig) :
  optimizeLayout data t = Ok c ->
  let k := getResponsiveClasses c in
  small k = "text-xs text-gray-500"%string /\
  In (body k) ["text-xs"; "text-sm"]%string /\
  In (name k)
     ["text-2xl font-bold"; "text-3xl font-bold"; "text-4xl font-bold"]%string /\
  In (LayoutUtilities.sectionSpacing k) ["mb-4"; "mb-6"; "mb-8"]%string /\
  (compact k = "space-y-1"%string <-> compactMode c = true).
Proof.
  intros H. unfold optimizeLayout in H. inv_bind H. injection H as <-.
  destruct (contentDensity a), t; cbv;
    repeat split; intros; try discriminate; tauto.
Qed.

End ContentLimits.

Section Validator.
Import TemplateHelpers.

Ltac read_validated :=
  repeat match goal with
         | d := _ |- _ => subst d
         end;
  unfold validateResumeData, orEmpty, orNoItems;
  cbv [field lookup String.eqb Ascii.eqb Bool.eqb andb];
  rewrite ?or_twice; try reflexivity;
  repeat match goal with
         | |- context [isArray ?v] => destruct v; try reflexivity
         end.

(** X6.  The validator is a projection: validating a validated resume
    changes nothing. *)
Theorem validateResumeData_idempotent (data : JsVal) :
  validateResumeData (validateResumeData data) = validateResumeData data.
Proof.
  set (d := validateResumeData data).
  unfold validateResumeData at 1.
  replace (orEmpty d "name") with (orEmpty data "name") by read_validated.
  replace (orEmpty d "title") with (orEmpty data "title") by read_validated.
  replace (orEmpty d "photoUrl") with (orEmpty data "photoUrl")
    by read_validated.
  replace (orEmpty d "summary") with (orEmpty data "summary")
    by read_validated.
  replace (orEmpty (field d "contact") "phone")
    with (orEmpty (field data "contact") "phone") by read_validated.
  replace (orEmpty (field d "contact") "email")
    with (orEmpty (field data "contact") "email") by read_validated.
  replace (orEmpty (field d "contact") "address")
    with (orEmpty (field data "contact") "address") by read_validated.
  replace (orEmpty (field d "contact") "linkedin")
    with (orEmpty (field data "contact") "linkedin") by read_validated.
  replace (orNoItems d "experience") with (orNoItems data "experience")
    by read_validated.
  replace (orNoItems d "education") with (orNoItems data "education")
    by read_validated.
  replace (orNoItems d "certifications")
    with (orNoItems data "certifications") by read_validated.
  replace (orNoItems d "achivements") with (orNoItems data "achivements")
    by read_validated.
  replace (orNoItems d "volunteer") with (orNoItems data "volunteer")
    by read_validated.
  replace (orNoItems d "skills") with (orNoItems data "skills")
    by read_validated.
  replace (orNoItems d "softSkills") with (orNoItems data "softSkills")
    by read_validated.
  replace (orNoItems d "languages") with (orNoItems data "languages")
    by read_validated.
  replace (orNoItems d "interests") with (orNoItems data "interests")
    by read_validated.
  reflexivity.
Qed.

(** X7.  For every value that is not an object -- [null] and [undefined], a
    number, a string, a boolean, an array -- the validator returns the
    empty resume: empty texts and empty lists.  When such a value is
    truthy, [preprocessResume] does not raise: it returns the empty resume,
    not compact, and logs the warning of line 213. *)
Theorem non_object_input_is_empty_resume (input : JsVal) :
  isObject input = false ->
  validateResumeData input = emptyResume /\
  (truthy input = true ->
   exists p,
     Preprocess.preprocessResume input = Ok (p, [Preprocess.emptyWarning]) /\
     Preprocess.data p = emptyResume /\
     Preprocess._layout p = Preprocess.hints false).
Proof.
  intros N.
  assert (V : validateResumeData input = emptyResume)
    by (destruct input; try discriminate N; reflexivity).
  split; [exact V |]. intros T.
  rewrite preprocessResume_eq, T. cbn [negb]. unfold privateCopy. rewrite V.
  eexists. split; [vm_compute; reflexivity |]. split; reflexivity.
Qed.

End Validator.


Section HeightEstimate.
Import TemplateHelpers Preprocess.

Lemma atLeast_nadd (a b : num) (p q : Q) :
  atLeast p a -> atLeast q b -> atLeast (p + q) (nadd a b).
Proof.
  destruct a, b; simpl; auto. intros. now apply Qplus_le_compat.
Qed.

Lemma atLeast_weaken (a : num) (p q : Q) :
  (p <= q)%Q -> atLeast q a -> atLeast p a.
Proof. destruct a; simpl; auto. intros. eapply Qle_trans; eassumption. Qed.

Lemma atLeast_more (a b : num) (p : Q) :
  atLeast p a -> atLeast 0 b -> atLeast p (nadd a b).
Proof.
  intros Ha Hb. eapply atLeast_weaken; [| apply atLeast_nadd; eassumption].
  rewrite Qplus_0_r. apply Qle_refl.
Qed.

Lemma atLeast_zq (z : Z) : 0 <= z -> atLeast 0 (zq z).
Proof.
  intros H. simpl. unfold Qle. simpl. lia.
Qed.

Lemma optLen_nonneg (v : JsVal) : 0 <= optLen v.
Proof. destruct v; simpl; lia. Qed.

Lemma atLeast_whenItems (v : JsVal) (f : Z -> Z) (h : num) (p : Q) :
  (forall n, 0 <= n -> 0 <= f n) -> atLeast p h ->
  atLeast p (whenItems v f h).
Proof.
  intros F H. unfold whenItems. destruct (optLen v =? 0); [exact H |].
  apply atLeast_more; [exact H |]. apply atLeast_zq, F, optLen_nonneg.
Qed.

Lemma sumM_bulletHeight (l : list JsVal) (total n : Z) :
  LayoutOptimizer.sumM bulletHeight l total = Ok n ->
  n = total + 20 * bulletCount l.
Proof.
  revert total. induction l as [| e r IH]; intros total H; simpl in H.
  - injection H as <-. simpl. lia.
  - inv_bind H. apply IH in H. unfold bulletHeight, prop in E.
    destruct (nullish e); [discriminate |].
    cbn [bind] in E. injection E as <-.
    change (bulletCount (e :: r))
      with (optLen (field e "description") + bulletCount r).
    lia.
Qed.

Lemma estimateContentHeight_atLeast (data : JsVal) (h : num) :
  estimateContentHeight data = Ok h ->
  atLeast
    (inject_Z (80 + 60 * Z.of_nat (List.length (items (field data "experience")))
               + 20 * bulletCount (items (field data "experience"))
               + 40 * optLen (field data "education")))
    h.
Proof.
  intros H. unfold estimateContentHeight in H.
  inv_bind H. rename a into summary.
  inv_bind H. rename a into experience, E0 into Ex.
  inv_bind H. rename a into bullets, E0 into Eb.
  inv_bind H. injection H as <-.
  destruct (field data "experience") as [| | | | | l |]; try discriminate Ex.
  injection Ex as <-. cbn [items].
  apply sumM_bulletHeight in Eb. subst bullets.
  repeat apply atLeast_whenItems; try (intros; lia).
  assert (Ed : atLeast (inject_Z (40 * optLen (field data "education")))
                 (nmul (length_num (field data "education")) (zq 40))).
  { destruct (field data "education");
      cbn [length_num nmul nlift2 zq atLeast optLen]; try exact I;
      rewrite <- inject_Z_mult, <- Zle_Qle; lia. }
  assert (Hs : atLeast (inject_Z 80)
                 (if truthy summary
                  then nadd (zq 80)
                         (nmax (zq 40)
                            (nmul (ndiv (length_num summary) (zq 80)) (zq 20)))
                  else zq 80)).
  { destruct (truthy summary); [| simpl; apply Qle_refl].
    eapply atLeast_weaken; [| apply atLeast_nadd with (p := inject_Z 80)
                                                     (q := 0%Q)].
    - rewrite Qplus_0_r. apply Qle_refl.
    - simpl. apply Qle_refl.
    - destruct (nmul (ndiv (length_num summary) (zq 80)) (zq 20)); simpl;
        [| exact I].
      eapply Qle_trans; [| apply Q.le_max_l]. unfold Qle. simpl. lia. }
  assert (A1 : forall z, atLeast (inject_Z z) (zq z))
    by (intros z; simpl; apply Qle_refl).
  pose proof (atLeast_nadd _ _ _ _
                (atLeast_nadd _ _ _ _
                   (atLeast_nadd _ _ _ _ Hs
                      (A1 (Z.of_nat (List.length l) * 60)))
                   (A1 (0 + 20 * bulletCount l))) Ed) as T.
  eapply atLeast_weaken; [| exact T].
  rewrite <- !inject_Z_plus, <- Zle_Qle. lia.
Qed.

(** X8.  A resume whose experience entries, bullets and education entries
    are worth more than 720px in the height estimate (60px an entry, 20px
    a bullet, 40px an education entry: thirteen experience entries, for
    example) is always processed in compact mode, whatever its number of
    characters. *)
Theorem long_lists_force_compact (input : JsVal) (p : ProcessedResume)
      (log : list string) :
  isJSON input = true ->
  preprocessResume input = Ok (p, log) ->
  720 < 60 * Z.of_nat (List.length (items (field input "experience")))
        + 20 * bulletCount (items (field input "experience"))
        + 40 * Z.of_nat (List.length (items (field input "education"))) ->
  _layout p = hints true.
Proof.
  intros J H Big.
  destruct (preprocessResume_inv input p log H)
    as (_ & height & chars & Hh & _ & L & _).
  rewrite L. f_equal. unfold decideCompact.
  rewrite (privateCopy_JSON input J) in Hh.
  apply estimateContentHeight_atLeast in Hh.
  rewrite !validated_lists in Hh by (simpl; tauto).
  cbn [items optLen] in Hh.
  destruct height as [h |]; [| now rewrite orb_true_r].
  cbn [atLeast] in Hh. cbn [nle zq].
  replace (Qle_bool h (inject_Z 800)) with false; [now rewrite orb_true_r |].
  symmetry. apply not_true_is_false. intros T. apply Qle_bool_iff in T.
  pose proof (Qle_trans _ _ _ Hh T) as C. rewrite <- Zle_Qle in C. lia.
Qed.

(** X9.  [preprocessResume] never alters the name, the title, the photo,
    the contact details or the summary beyond the defaults of the
    validator, and it leaves the volunteer and interests lists as they
    are: these two are not capped, trimmed or de-duplicated. *)
Theorem untouched_properties (input : JsVal) (p : ProcessedResume)
      (log : list string) :
  isJSON input = true ->
  preprocessResume input = Ok (p, log) ->
  field (data p) "name" = orEmpty input "name" /\
  field (data p) "title" = orEmpty input "title" /\
  field (data p) "photoUrl" = orEmpty input "photoUrl" /\
  field (data p) "summary" = orEmpty input "summary" /\
  field (data p) "contact"
  = JObj [ ("phone", orEmpty (field input "contact") "phone");
           ("email", orEmpty (field input "contact") "email");
           ("address", orEmpty (field input "contact") "address");
           ("linkedin", orEmpty (field input "contact") "linkedin") ]%string /\
  field (data p) "volunteer" = JArr (items (field input "volunteer")) /\
  field (data p) "interests" = JArr (items (field input "interests")).
Proof.
  intros J H.
  destruct (preprocessResume_inv input p log H)
    as (_ & height & chars & _ & _ & _ & _ & _ & Caps).
  rewrite (privateCopy_JSON input J) in Caps.
  apply applyCaps_inv in Caps. cbv zeta in Caps.
  destruct Caps as (? & ? & ? & ? & ? & ? & ? & ? & _ & _ & _ & _ & _ & _ & _
                    & _ & -> & _).
  match goal with
  | |- context [assignAll ?d ?a ?b ?c ?e ?f ?g ?h] =>
      pose proof (assignAll_fields d a b c e f g h) as F
  end.
  cbv zeta in F.
  destruct F as (_ & _ & _ & _ & _ & _ & _ & -> & -> & -> & -> & -> & -> & ->).
  rewrite (validated_lists input "volunteer") by (simpl; tauto).
  rewrite (validated_lists input "interests") by (simpl; tauto).
  repeat split; reflexivity.
Qed.

End HeightEstimate.

(* ===================================================================== *)
(** ** What the templates show of a processed resume                      *)
(* ===================================================================== *)

Section TemplateLemmas.
Import Preprocess LayoutUtilities Templates.

Lemma processedObject_fields (input : JsVal) (ex ed ce : list JsVal)
      (so sk la ac : list jsstring) :
  let d := processedObject input ex ed ce so sk la ac in
  field d "experience" = JArr ex /\
  field d "education" = JArr ed /\
  field d "certifications" = JArr ce /\
  field d "achivements" = strings ac /\
  field d "skills" = strings sk /\
  field d "softSkills" = strings so /\
  field d "languages" = strings la.
Proof. repeat split. Qed.

Lemma safeArr_strings (l : list jsstring) :
  safeArr (strings l) = List.map JStr l.
Proof. reflexivity. Qed.

Lemma truncate_short (n : Z) (s : jsstring) :
  Z.of_nat (List.length s) <= n -> truncate n (JStr s) = Ok (JStr s).
Proof.
  intros H. unfold truncate.
  destruct (Z.gtb_spec (Z.of_nat (List.length s)) n); [lia |].
  now rewrite andb_false_r.
Qed.

Lemma truncate_string_length (n : Z) (s : jsstring) :
  1 <= n ->
  exists s', truncate n (JStr s) = Ok (JStr s') /\
             Z.of_nat (List.length s') <= n.
Proof.
  intros H. unfold truncate.
  destruct (Z.gtb_spec (Z.of_nat (List.length s)) n) as [G | G].
  - destruct (truthy (JStr s)) eqn:Tr; cbn [andb].
    + eexists. split; [reflexivity |].
      rewrite length_app. cbn [List.length ellipsis].
      pose proof (trim_length (slice_to s (n - 1))) as T.
      pose proof (slice_to_length s (n - 1)) as L.
      destruct (Z.ltb_spec (n - 1) 0); lia.
    + destruct s; [simpl in G; lia | discriminate Tr].
  - rewrite andb_false_r. exists s. split; [reflexivity | lia].
Qed.

Lemma mapM_truncate_short (n : Z) (l : list jsstring) :
  Forall (fun s => Z.of_nat (List.length s) <= n) l ->
  mapM (truncate n) (List.map JStr l) = Ok (List.map JStr l).
Proof.
  induction 1 as [| s r Hs Hr IH]; [reflexivity |].
  cbn [List.map mapM]. rewrite (truncate_short n s Hs), IH. reflexivity.
Qed.

Lemma mapM_truncate_strings (n : Z) (l : list jsstring) :
  1 <= n ->
  exists l',
    mapM (truncate n) (List.map JStr l) = Ok (List.map JStr l') /\
    List.length l' = List.length l /\
    Forall (fun s => Z.of_nat (List.length s) <= n) l'.
Proof.
  intros H. induction l as [| s r (r' & E & L & F)].
  - exists []. repeat split. constructor.
  - destruct (truncate_string_length n s H) as (s' & Es & Ls).
    exists (s' :: r'). cbn [List.map mapM]. rewrite Es, E. repeat split.
    + simpl. now rewrite L.
    + now constructor.
Qed.

Lemma slice_to_map {A B} (f : A -> B) (l : list A) (e : Z) :
  slice_to (List.map f l) e = List.map f (slice_to l e).
Proof. unfold slice_to. now rewrite length_map, firstn_map. Qed.

Lemma Forall_slice_to {A} (P : A -> Prop) (l : list A) (e : Z) :
  Forall P l -> Forall P (slice_to l e).
Proof. apply Forall_firstn. Qed.

Lemma mapM_Forall_total {A B} (f : A -> result B) (P : A -> Prop)
      (Q : B -> Prop) (l : list A) :
  (forall x, P x -> exists y, f x = Ok y /\ Q y) -> Forall P l ->
  exists l', mapM f l = Ok l' /\ Forall Q l' /\
             List.length l' = List.length l.
Proof.
  intros H. induction 1 as [| x r Hx _ (ys & E & F & L)].
  - exists []. repeat split. constructor.
  - destruct (H x Hx) as (y & Ey & Qy). exists (y :: ys).
    cbn [mapM]. rewrite Ey, E. repeat split.
    + now constructor.
    + simpl. now rewrite L.
Qed.

Lemma modern_layout_limits (data : JsVal) (c : LayoutOptimizer.LayoutConfig) :
  LayoutOptimizer.optimizeLayout data LayoutOptimizer.modern = Ok c ->
  (LayoutOptimizer.maxExperienceItems c = 5
   \/ LayoutOptimizer.maxExperienceItems c = 3) /\
  (LayoutOptimizer.maxBulletsPerExp c = 4
   \/ LayoutOptimizer.maxBulletsPerExp c = 3) /\
  (modernTruncateChars c = 220 \/ modernTruncateChars c = 180).
Proof.
  intros H. unfold LayoutOptimizer.optimizeLayout in H. inv_bind H.
  injection H as <-.
  destruct (LayoutOptimizer.contentDensity a); cbv; auto.
Qed.

Lemma modernBullets_settled (c : LayoutOptimizer.LayoutConfig)
      (maxBullets limit : nat) (e : JsVal) :
  0 <= LayoutOptimizer.maxBulletsPerExp c <= 4 ->
  1 <= modernTruncateChars c <= 220 ->
  settled_entry maxBullets limit e ->
  exists bullets,
    modernBullets c e = Ok bullets /\
    (List.length bullets <= 4)%nat /\
    Forall (fun b => exists s, b = JStr s /\ (List.length s <= 220)%nat)
      bullets.
Proof.
  intros Hb Hn (K & _ & given & D & _ & _).
  assert (N : nullish e = false).
  { unfold keepExperience in K. apply andb_prop in K as [K _].
    now destruct e. }
  unfold modernBullets, prop. rewrite N, D.
  cbn [bind or_ truthy strings limitBulletPoints as_array].
  rewrite slice_to_map.
  destruct (mapM_truncate_strings (modernTruncateChars c)
              (slice_to given (LayoutOptimizer.maxBulletsPerExp c)))
    as (shown & E & L & F); [lia |].
  exists (List.map JStr shown). split; [exact E |]. split.
  - rewrite length_map, L.
    pose proof (slice_to_length given (LayoutOptimizer.maxBulletsPerExp c)).
    destruct (Z.ltb_spec (LayoutOptimizer.maxBulletsPerExp c) 0); lia.
  - apply Forall_map. eapply Forall_impl; [| exact F].
    intros s Hs. cbv beta in Hs. exists s. split; [reflexivity | lia].
Qed.

End TemplateLemmas.

Section TemplateTheorems.
Import Preprocess LayoutUtilities Templates.

(** X10.  The creative template shows what [preprocessResume] kept: with the
    layout hints of a processed resume, its own caps cut no experience
    entry, bullet, education entry, achievement, soft skill or language,
    and its [truncate] changes no bullet. *)
Theorem creative_shows_processed_record (input : JsVal) (p : ProcessedResume)
      (log : list string) :
  isJSON input = true -> tolerated input = true ->
  preprocessResume input = Ok (p, log) ->
  let layout := Some (_layout p) in
  let d := data p in
  limitedExperience layout (field d "experience")
  = items (field d "experience") /\
  creativeExperience layout d
  = Ok (List.map (fun e => items (field e "description"))
          (items (field d "experience"))) /\
  limitedEducation layout (field d "education")
  = items (field d "education") /\
  processedAchievements layout (field d "achivements")
  = items (field d "achivements") /\
  processedSoftSkills layout (field d "softSkills")
  = items (field d "softSkills") /\
  processedLanguages layout (field d "languages")
  = items (field d "languages").
Proof.
  intros J T H. cbv zeta.
  destruct (preprocessResume_processed input p log J H) as [P _].
  assert (Hh : _layout p = hints (compactMode (_layout p))).
  { destruct P as (? & ? & ? & ? & ? & ? & ? & ? & Hh & _). exact Hh. }
  destruct (first_pass_settles input p J T P)
    as (ex & ed & ce & so & sk & la & ac & -> & S).
  destruct (processedObject_fields input ex ed ce so sk la ac)
    as (Fe & Fd & _ & Fa & _ & Fs & Fl).
  set (c := compactMode (_layout p)) in *.
  destruct S as (Sex & Lex & _ & Led & _ & _ & (_ & _ & Lso) & _
                 & (_ & _ & Lla) & (_ & _ & Lac)).
  unfold limitedExperience, limitedEducation, processedAchievements,
    processedSoftSkills, processedLanguages, creativeExperience,
    limitedExperience, maxExperienceItems, maxEducationItems, Templates.compact,
    hint.
  rewrite Fe, Fd, Fa, Fs, Fl, Hh. cbn [items safeArr strings].
  assert (Eex : slice_to ex
                  (Z.of_nat (Preprocess.maxExperienceItems (hints c))) = ex)
    by (apply slice_to_all; lia).
  rewrite Eex. repeat split.
  - clear Eex Lex Fe Fd Fa Fs Fl. induction Sex as [| e r He Hr IH]; [reflexivity |].
    cbn [mapM List.map]. rewrite IH. clear IH.
    destruct He as (K & _ & bullets & D & Lb & Fb).
    unfold creativeBullets, processedDescription, prop.
    assert (N : nullish e = false).
    { unfold keepExperience in K. apply andb_prop in K as [K _].
      now destruct e. }
    rewrite N, D. cbn [bind safeArr strings items]. unfold maxBullets, hint.
    rewrite slice_to_all by (rewrite length_map; lia).
    unfold truncateChars, hint.
    rewrite mapM_truncate_short; [reflexivity |].
    eapply Forall_impl; [| exact Fb]. intros s [_ Ls]. lia.
  - apply slice_to_all. lia.
  - apply slice_to_all. rewrite length_map.
    unfold achCap in Lac. cbn [Preprocess.compactMode hints].
    destruct c; lia.
  - apply slice_to_all. rewrite length_map.
    unfold maxSoftSkills in Lso. cbn [Preprocess.compactMode hints].
    destruct c; lia.
  - apply slice_to_all. rewrite length_map.
    unfold maxLanguages in Lla. cbn [Preprocess.compactMode hints].
    destruct c; lia.
Qed.

(** X11.  Of a processed resume the modern template shows the first
    experience entries up to the limit of the layout configuration, five
    at most -- although [preprocessResume] keeps up to six -- and for each
    of them at most four bullets of at most 220 characters. *)
Theorem modern_shows_bounded_experience (input : JsVal) (p : ProcessedResume)
      (log : list string) :
  isJSON input = true -> tolerated input = true ->
  preprocessResume input = Ok (p, log) ->
  exists shown,
    modernLayoutConfig (Some (_layoutConfig p)) (data p)
    = Ok (_layoutConfig p) /\
    modernExperience (_layoutConfig p) (data p) = Ok shown /\
    Z.of_nat (List.length shown)
    = Z.min (LayoutOptimizer.maxExperienceItems (_layoutConfig p))
        (Z.of_nat (List.length (items (field (data p) "experience")))) /\
    (List.length shown <= 5)%nat /\
    Forall (fun bullets =>
              (List.length bullets <= 4)%nat /\
              Forall (fun b => exists s, b = JStr s /\
                                         (List.length s <= 220)%nat) bullets)
      shown.
Proof.
  intros J T H.
  destruct (preprocessResume_processed input p log J H) as [P _].
  destruct (preprocessResume_inv input p log H)
    as (_ & height & chars & _ & _ & _ & Hc & _).
  apply modern_layout_limits in Hc as (He & Hb & Hn).
  destruct (first_pass_settles input p J T P)
    as (ex & ed & ce & so & sk & la & ac & -> & S).
  destruct (processedObject_fields input ex ed ce so sk la ac) as (Fe & _).
  destruct S as (Sex & _).
  set (c := _layoutConfig p) in *.
  unfold modernExperience. rewrite Fe. cbn [nullish optLen items].
  destruct ex as [| e r].
  - exists []. repeat split; try reflexivity; simpl; try lia. constructor.
  - replace (Z.of_nat (List.length (e :: r)) >? 0) with true
      by (symmetry; apply Z.gtb_lt; simpl; lia).
    cbn [limitContent bind as_array].
    destruct (mapM_Forall_total (modernBullets c)
                (settled_entry
                   (maxBulletsPerExp (hints (compactMode (_layout p))))
                   (truncateCharPerLine (hints (compactMode (_layout p)))))
                (fun bullets =>
                   (List.length bullets <= 4)%nat /\
                   Forall (fun b => exists s, b = JStr s /\
                                      (List.length s <= 220)%nat) bullets)
                (slice_to (e :: r) (LayoutOptimizer.maxExperienceItems c)))
      as (shown & E & F & L).
    + intros x Hx. eapply modernBullets_settled; [lia | lia | exact Hx].
    + apply Forall_slice_to. exact Sex.
    + exists shown. repeat split; try assumption.
      * rewrite L, slice_to_length.
        destruct (Z.ltb_spec (LayoutOptimizer.maxExperienceItems c) 0); lia.
      * pose proof (slice_to_length (e :: r)
                      (LayoutOptimizer.maxExperienceItems c)) as Ls.
        destruct (Z.ltb_spec (LayoutOptimizer.maxExperienceItems c) 0); lia.
Qed.

End TemplateTheorems.

Section UtilityWitnesses.
Import LayoutOptimizer LayoutUtilities.

Lemma optimizeLayout_content_limits_witness :
  exists m c,
    analyzeContent eightJobsResume = Ok m /\
    optimizeLayout eightJobsResume creative = Ok c /\
    templateType c = creative /\
    (compactMode c = true <->
       contentDensity m = dense \/ contentDensity m = overflow) /\
    3 <= maxExperienceItems c <= 6.
Proof.
  destruct (analyzeContent_total eightJobsResume eq_refl) as (m & Hm).
  destruct (optimizeLayout eightJobsResume creative) as [c | e] eqn:Hc;
    [| vm_compute in Hc; discriminate Hc].
  exists m, c. split; [exact Hm |]. split; [reflexivity |].
  destruct (optimizeLayout_content_limits eightJobsResume creative c m Hm Hc)
    as (A & B & C & _).
  auto.
Defined.

Lemma analyzeContent_bounds_witness :
  exists m,
    analyzeContent eightJobsResume = Ok m /\
    100 <= estimatedHeight m /\
    0 <= sectionCount m <= 10.
Proof.
  destruct (analyzeContent_total eightJobsResume eq_refl) as (m & Hm).
  exists m. split; [exact Hm |].
  destruct (analyzeContent_bounds eightJobsResume m eq_refl Hm)
    as (A & _ & C).
  auto.
Defined.

Lemma limitContent_prefix_witness :
  exists shown,
    limitContent eightJobs 5 = Ok (JArr shown) /\
    Z.of_nat (List.length shown) = 5 /\
    limitContent (JArr shown) 3 = limitContent eightJobs 3.
Proof.
  destruct (limitContent_prefix (List.map job ["1"; "2"; "3"; "4"; "5"; "6";
                                               "7"; "8"]%string) 5)
    as (shown & rest & E & _ & L & _ & C).
  exists shown. split; [exact E |]. split.
  - rewrite L by discriminate. reflexivity.
  - apply (C 3); discriminate.
Defined.

Lemma shown_bullets_at_most_counted_witness :
  Z.of_nat (List.length [str "Built things"]) <= 1 /\
  (forall s, field (JObj [("description", str "Built things")]%string)
               "description" = JStr s ->
             [str "Built things"] = [JStr s]).
Proof.
  destruct (shown_bullets_at_most_counted
              (JObj [("description", str "Built things")]%string) 0 1
              [str "Built things"] eq_refl eq_refl) as (A & B & _).
  auto.
Defined.

Lemma responsive_classes_of_layout_witness :
  exists c,
    optimizeLayout ledTeamResume modern = Ok c /\
    small (getResponsiveClasses c) = "text-xs text-gray-500"%string.
Proof.
  destruct (optimizeLayout ledTeamResume modern) as [c | e] eqn:Hc;
    [| vm_compute in Hc; discriminate Hc].
  exists c. split; [reflexivity |].
  apply (responsive_classes_of_layout ledTeamResume modern c Hc).
Defined.

End UtilityWitnesses.

Section TemplateWitnesses.
Import Preprocess Templates.

Lemma non_object_input_is_empty_resume_witness :
  TemplateHelpers.validateResumeData JNull = emptyResume /\
  exists p,
    preprocessResume (JNum 42) = Ok (p, [emptyWarning]) /\
    data p = emptyResume /\ _layout p = hints false.
Proof.
  split.
  - apply (non_object_input_is_empty_resume JNull). reflexivity.
  - apply (non_object_input_is_empty_resume (JNum 42)); reflexivity.
Defined.

Lemma long_lists_force_compact_witness :
  exists p log,
    preprocessResume eightJobsResume = Ok (p, log) /\
    _layout p = hints true.
Proof.
  destruct (preprocessResume_returns eightJobsResume eq_refl eq_refl eq_refl
              eq_refl)
    as (p & Hp).
  exists p, (warningFor (data p)). split; [exact Hp |].
  apply (long_lists_force_compact eightJobsResume p _ eq_refl Hp).
  reflexivity.
Defined.

Lemma untouched_properties_witness :
  exists p log,
    preprocessResume ledTeamResume = Ok (p, log) /\
    field (data p) "name" = TemplateHelpers.orEmpty ledTeamResume "name" /\
    field (data p) "interests" = JArr (items (field ledTeamResume "interests")).
Proof.
  destruct (preprocessResume_returns ledTeamResume eq_refl eq_refl eq_refl
              eq_refl)
    as (p & Hp).
  exists p, (warningFor (data p)). split; [exact Hp |].
  destruct (untouched_properties ledTeamResume p _ eq_refl Hp)
    as (A & _ & _ & _ & _ & _ & B).
  auto.
Defined.

Lemma creative_shows_processed_record_witness :
  exists p log,
    preprocessResume eightJobsResume = Ok (p, log) /\
    limitedExperience (Some (_layout p)) (field (data p) "experience")
    = items (field (data p) "experience") /\
    creativeExperience (Some (_layout p)) (data p)
    = Ok (List.map (fun e => items (field e "description"))
            (items (field (data p) "experience"))).
Proof.
  destruct (preprocessResume_returns eightJobsResume eq_refl eq_refl eq_refl
              eq_refl)
    as (p & Hp).
  exists p, (warningFor (data p)). split; [exact Hp |].
  destruct (creative_shows_processed_record eightJobsResume p _ eq_refl
              eq_refl Hp) as (A & B & _).
  auto.
Defined.

Lemma modern_shows_bounded_experience_witness :
  exists p log shown,
    preprocessResume eightJobsResume = Ok (p, log) /\
    modernExperience (_layoutConfig p) (data p) = Ok shown /\
    (List.length shown <= 5)%nat.
Proof.
  destruct (preprocessResume_returns eightJobsResume eq_refl eq_refl eq_refl
              eq_refl)
    as (p & Hp).
  destruct (modern_shows_bounded_experience eightJobsResume p _ eq_refl
              eq_refl Hp) as (shown & _ & E & _ & L & _).
  exists p, (warningFor (data p)), shown. auto.
Defined.

End TemplateWitnesses.

(* ===================================================================== *)
(** ** The submit path                                                    *)
(* ===================================================================== *)

Section Callers.
Import Preprocess HomeContent.

(** X24.  On the submit path a resume is preprocessed only when it has a
    truthy name.  So [preprocessResume] never raises its own error there
    -- a failure that makes the page fall back to the raw data is a
    [TypeError] of the runtime -- and a processed resume keeps that name
    and is never reported as mostly empty. *)
Theorem submit_never_warns (input : JsVal) :
  isJSON input = true ->
  match handleSubmit input with
  | InvalidData => truthy input = false \/ truthy (field input "name") = false
  | Processed p log =>
      preprocessResume input = Ok (p, log) /\
      field (data p) "name" = field input "name" /\ log = []
  | RawData raw => raw = input /\ preprocessResume input = Throw TypeError
  end.
Proof.
  intros J. unfold handleSubmit.
  destruct (truthy input) eqn:T; [| now left].
  destruct (truthy (field input "name")) eqn:N; [| now right].
  cbn [negb orb].
  destruct (preprocessResume input) as [[p log] | e] eqn:H.
  - split; [reflexivity |].
    destruct (preprocessResume_processed input p log J H) as [_ ->].
    destruct (preprocessResume_inv input p _ H)
      as (_ & height & chars & _ & _ & _ & _ & _ & Caps).
    rewrite (privateCopy_JSON input J) in Caps.
    apply applyCaps_inv in Caps. cbv zeta in Caps.
    destruct Caps as (? & ? & ? & ? & ? & ? & ? & ? & _ & _ & _ & _ & _ & _ & _
                      & _ & E & _).
    assert (F : field (data p) "name" = field input "name").
    { rewrite E.
      match goal with
      | |- context [assignAll ?d ?a ?b ?c ?e ?f ?g ?h] =>
          pose proof (assignAll_fields d a b c e f g h) as F
      end.
      cbv zeta in F.
      destruct F as (_ & _ & _ & _ & _ & _ & _ & -> & _).
      change (TemplateHelpers.orEmpty input "name" = field input "name").
      unfold TemplateHelpers.orEmpty, or_. now rewrite N. }
    split; [exact F |].
    unfold warningFor, mostlyEmpty. now rewrite F, N.
  - split; [reflexivity |]. f_equal.
    destruct e; [exfalso | reflexivity].
    rewrite preprocessResume_eq, T in H. cbn [negb] in H.
    now apply runtime_only_process in H.
Qed.

Lemma submit_never_warns_witness :
  exists p,
    handleSubmit ledTeamResume = Processed p [] /\
    field (data p) "name" = str "Ada".
Proof.
  pose proof (submit_never_warns ledTeamResume eq_refl) as H.
  destruct (handleSubmit ledTeamResume) as [| p log | raw] eqn:E.
  - vm_compute in E. discriminate E.
  - destruct H as (_ & F & ->). exists p. split; [reflexivity | exact F].
  - vm_compute in E. discriminate E.
Defined.

End Callers.

(* ===================================================================== *)
(** ** The model selector                                                 *)
(* ===================================================================== *)

Section SelectorLemmas.
Import GeminiModelSelector.
Variable Date_now : nat -> Z.

Lemma get_set_same {V} (k : string) (v : V) (m : Map V) :
  get k (set k v m) = Some v.
Proof.
  induction m as [| [k' x] r IH]; simpl.
  - now rewrite String.eqb_refl.
  - destruct (String.eqb k k') eqn:E; simpl.
    + now rewrite String.eqb_refl.
    + now rewrite E.
Qed.

Lemma get_set_other {V} (k k' : string) (v : V) (m : Map V) :
  k' <> k -> get k' (set k v m) = get k' m.
Proof.
  intros N. induction m as [| [k0 x] r IH]; simpl.
  - apply String.eqb_neq in N. now rewrite N.
  - destruct (String.eqb k k0) eqn:E; simpl.
    + apply String.eqb_eq in E. subst k0.
      apply String.eqb_neq in N. now rewrite N.
    + destruct (String.eqb k' k0); [reflexivity | exact IH].
Qed.

Lemma resetCountersIfNeeded_eq (name : string) (w : World) :
  resetCountersIfNeeded Date_now name w
  = match get name (usage (self w)) with
    | Some u => (tt, withUsage name (resetNow Date_now w u) (S (S (reads w))) w)
    | None => (tt, w)
    end.
Proof.
  unfold resetCountersIfNeeded, bindM, getUsage.
  destruct (get name (usage (self w))) as [u |] eqn:E; [| reflexivity].
  unfold getCurrentMinute, getCurrentDay, bindM, now, ret, mutate. simpl.
  rewrite E. reflexivity.
Qed.

Lemma isModelAvailable_eq (name : string) (e : option Z) (w : World) :
  isModelAvailable Date_now name e w
  = match get name (models (self w)), get name (usage (self w)) with
    | Some model, Some u =>
        (withinLimits model (resetNow Date_now w u) (orDefault 1000 e),
         withUsage name (resetNow Date_now w u) (S (S (reads w))) w)
    | _, _ => (false, w)
    end.
Proof.
  unfold isModelAvailable, bindM, getModel, getUsage.
  destruct (get name (models (self w))) as [model |] eqn:Em; [| reflexivity].
  destruct (get name (usage (self w))) as [u |] eqn:Eu; [| reflexivity].
  rewrite resetCountersIfNeeded_eq, Eu. simpl.
  rewrite get_set_same. reflexivity.
Qed.


Lemma set_set {V} (k : string) (v v' : V) (m : Map V) :
  set k v (set k v' m) = set k v m.
Proof.
  induction m as [| [k' x] r IH]; simpl.
  - now rewrite String.eqb_refl.
  - destruct (String.eqb k k') eqn:E; simpl.
    + now rewrite String.eqb_refl.
    + now rewrite E, IH.
Qed.

Lemma recordUsage_eq (name : string) (actualTokens : Z) (w : World) :
  recordUsage Date_now name actualTokens w
  = match get name (usage (self w)) with
    | Some u =>
        let r := resetNow Date_now w u in
        (tt, withUsage name
               {| requestsThisMinute := requestsThisMinute r + 1;
                  requestsToday := requestsToday r + 1;
                  tokensThisMinute := tokensThisMinute r + actualTokens;
                  lastResetMinute := lastResetMinute r;
                  lastResetDay := lastResetDay r |}
               (S (S (reads w))) w)
    | None => (tt, w)
    end.
Proof.
  unfold recordUsage, bindM, getUsage.
  destruct (get name (usage (self w))) as [u |] eqn:Eu; [| reflexivity].
  rewrite resetCountersIfNeeded_eq, Eu. unfold mutate. simpl.
  rewrite get_set_same. unfold withUsage. simpl. now rewrite set_set.
Qed.

(** *** Resets *)

Lemma relaxed_one (u : ModelUsage) (minute day : Z) :
  relaxed u (resetDay day (resetMinute minute u)).
Proof. apply relaxed_step, relaxed_refl. Qed.

Lemma relaxed_trans (a b c : ModelUsage) :
  relaxed a b -> relaxed b c -> relaxed a c.
Proof.
  intros Hab Hbc. induction Hbc.
  - exact Hab.
  - apply relaxed_step. auto.
Qed.

Lemma onlyResets_refl (s : Selector) : onlyResets s s.
Proof.
  repeat split. intros name.
  destruct (get name (usage s)); [apply relaxed_refl | exact I].
Qed.

Lemma onlyResets_trans (a b c : Selector) :
  onlyResets a b -> onlyResets b c -> onlyResets a c.
Proof.
  intros (Ma & Fa & Ua) (Mb & Fb & Ub). repeat split; try congruence.
  intros name. specialize (Ua name). specialize (Ub name).
  destruct (get name (usage a)), (get name (usage b)), (get name (usage c));
    try contradiction; try exact I.
  eapply relaxed_trans; eassumption.
Qed.

Lemma onlyResets_withUsage (name : string) (u u' : ModelUsage) (n : nat)
      (w : World) :
  get name (usage (self w)) = Some u -> relaxed u u' ->
  onlyResets (self w) (self (withUsage name u' n w)).
Proof.
  intros E R. repeat split. intros k. simpl.
  destruct (string_dec k name) as [-> | N].
  - now rewrite E, get_set_same.
  - rewrite get_set_other by exact N.
    destruct (get k (usage (self w))); [apply relaxed_refl | exact I].
Qed.

Lemma resetCountersIfNeeded_onlyResets (name : string) (w : World) :
  onlyResets (self w) (self (snd (resetCountersIfNeeded Date_now name w))).
Proof.
  rewrite resetCountersIfNeeded_eq.
  destruct (get name (usage (self w))) as [u |] eqn:E.
  - eapply onlyResets_withUsage; [exact E | apply relaxed_one].
  - apply onlyResets_refl.
Qed.

Lemma isModelAvailable_onlyResets (name : string) (e : option Z) (w : World) :
  onlyResets (self w) (self (snd (isModelAvailable Date_now name e w))).
Proof.
  rewrite isModelAvailable_eq.
  destruct (get name (models (self w))); [| apply onlyResets_refl].
  destruct (get name (usage (self w))) as [u |] eqn:E;
    [| apply onlyResets_refl].
  eapply onlyResets_withUsage; [exact E | apply relaxed_one].
Qed.

Lemma isModelAvailable_reads (name : string) (e : option Z) (w : World) :
  (reads w <= reads (snd (isModelAvailable Date_now name e w)))%nat.
Proof.
  rewrite isModelAvailable_eq.
  destruct (get name (models (self w))); [| simpl; lia].
  destruct (get name (usage (self w))); simpl; lia.
Qed.

Lemma isModelAvailable_true (name : string) (e : option Z) (w : World) :
  fst (isModelAvailable Date_now name e w) = true ->
  let w' := snd (isModelAvailable Date_now name e w) in
  exists model u,
    get name (models (self w')) = Some model /\
    get name (usage (self w')) = Some u /\
    withinLimits model u (orDefault 1000 e) = true.
Proof.
  rewrite isModelAvailable_eq.
  destruct (get name (models (self w))) as [model |] eqn:Em;
    [| discriminate].
  destruct (get name (usage (self w))) as [u |] eqn:Eu; [| discriminate].
  simpl. intros H. exists model, (resetNow Date_now w u).
  now rewrite Em, get_set_same.
Qed.

Lemma firstAvailable_onlyResets (chain : list string) (e : Z) (w : World) :
  onlyResets (self w) (self (snd (firstAvailable Date_now chain e w))).
Proof.
  revert w. induction chain as [| name rest IH]; intros w; simpl.
  - apply onlyResets_refl.
  - unfold bindM.
    pose proof (isModelAvailable_onlyResets name (Some e) w) as H.
    destruct (isModelAvailable Date_now name (Some e) w) as [[|] w1]; simpl in *.
    + exact H.
    + eapply onlyResets_trans; [exact H | apply IH].
Qed.

Lemma firstAvailable_reads (chain : list string) (e : Z) (w : World) :
  (reads w <= reads (snd (firstAvailable Date_now chain e w)))%nat.
Proof.
  revert w. induction chain as [| name rest IH]; intros w; simpl.
  - lia.
  - unfold bindM.
    pose proof (isModelAvailable_reads name (Some e) w) as H.
    destruct (isModelAvailable Date_now name (Some e) w) as [[|] w1]; simpl in *.
    + exact H.
    + specialize (IH w1). lia.
Qed.

Lemma firstAvailable_sound (chain : list string) (e : Z) (w : World)
      (m : string) :
  fst (firstAvailable Date_now chain e w) = Some m ->
  let w' := snd (firstAvailable Date_now chain e w) in
  In m chain /\
  exists model u,
    get m (models (self w')) = Some model /\
    get m (usage (self w')) = Some u /\
    withinLimits model u e = true.
Proof.
  revert w. induction chain as [| name rest IH]; intros w; simpl.
  - discriminate.
  - unfold bindM.
    pose proof (isModelAvailable_true name (Some e) w) as H.
    destruct (isModelAvailable Date_now name (Some e) w) as [[|] w1]; simpl in *.
    + intros [= ->]. split; [now left |]. now apply H.
    + intros F. destruct (IH w1 F) as [I R]. split; [now right | exact R].
Qed.


Lemma ask_eq (r : Request) (w : World) :
  ask Date_now r w
  = firstAvailable Date_now (consulted r (self w)) (estimateOf r) w.
Proof.
  destruct r as [e p | c e | u e]; simpl.
  - unfold selectModel, bindM, getFallbackChain.
    destruct (orDefault true p); reflexivity.
  - reflexivity.
  - destruct u; simpl; try reflexivity;
      unfold selectModel, bindM, getFallbackChain; reflexivity.
Qed.

Lemma ask_onlyResets (r : Request) (w : World) :
  onlyResets (self w) (self (snd (ask Date_now r w))).
Proof. rewrite ask_eq. apply firstAvailable_onlyResets. Qed.

Lemma statsOf_onlyResets (name : string) (model : GeminiModel) (w : World) :
  onlyResets (self w) (self (snd (statsOf Date_now name model w))).
Proof.
  unfold statsOf, bindM, getUsage. simpl.
  pose proof (resetCountersIfNeeded_onlyResets name w) as H1.
  destruct (resetCountersIfNeeded Date_now name w) as [[] w1]. simpl in H1.
  destruct (get name (usage (self w))); [| exact H1].
  pose proof (isModelAvailable_onlyResets name None w1) as H2.
  destruct (isModelAvailable Date_now name None w1) as [a w2]. simpl in H2.
  assert (H : onlyResets (self w) (self w2))
    by (eapply onlyResets_trans; eassumption).
  destruct (get name (usage (self w1))); [| exact H].
  destruct (get name (usage (self w2))); exact H.
Qed.

Lemma forEachModel_onlyResets (ms : Map GeminiModel) (stats : Map ModelStats)
      (w : World) :
  onlyResets (self w) (self (snd (forEachModel Date_now ms stats w))).
Proof.
  revert stats w. induction ms as [| [name model] rest IH]; intros stats w.
  - apply onlyResets_refl.
  - simpl. unfold bindM.
    pose proof (statsOf_onlyResets name model w) as H.
    destruct (statsOf Date_now name model w) as [entry w1]. simpl in H.
    eapply onlyResets_trans; [exact H | apply IH].
Qed.

Lemma getUsageStats_onlyResets (w : World) :
  onlyResets (self w) (self (snd (getUsageStats Date_now w))).
Proof. apply forEachModel_onlyResets. Qed.

(** *** Quotas *)

Lemma resetMinute_cases (minute : Z) (u : ModelUsage) :
  requestsToday (resetMinute minute u) = requestsToday u /\
  lastResetDay (resetMinute minute u) = lastResetDay u /\
  ((requestsThisMinute (resetMinute minute u) = 0 /\
    tokensThisMinute (resetMinute minute u) = 0 /\
    lastResetMinute (resetMinute minute u) = minute /\
    lastResetMinute u < minute)
   \/ (resetMinute minute u = u /\ minute <= lastResetMinute u)).
Proof.
  unfold resetMinute. destruct (Z.gtb_spec minute (lastResetMinute u)); simpl.
  - repeat split. left. repeat split. lia.
  - repeat split. right. split; [reflexivity | lia].
Qed.

Lemma resetDay_cases (day : Z) (u : ModelUsage) :
  requestsThisMinute (resetDay day u) = requestsThisMinute u /\
  tokensThisMinute (resetDay day u) = tokensThisMinute u /\
  lastResetMinute (resetDay day u) = lastResetMinute u /\
  ((requestsToday (resetDay day u) = 0 /\
    lastResetDay (resetDay day u) = day /\ lastResetDay u < day)
   \/ (resetDay day u = u /\ day <= lastResetDay u)).
Proof.
  unfold resetDay. destruct (Z.gtb_spec day (lastResetDay u)); simpl.
  - repeat split. left. repeat split. lia.
  - repeat split. right. split; [reflexivity | lia].
Qed.

(** A reset leaves each counter as it is or puts it to zero. *)
Lemma reset_counters (minute day : Z) (u : ModelUsage) :
  let r := resetDay day (resetMinute minute u) in
  (requestsThisMinute r = requestsThisMinute u /\
   tokensThisMinute r = tokensThisMinute u
   \/ requestsThisMinute r = 0 /\ tokensThisMinute r = 0) /\
  (requestsToday r = requestsToday u \/ requestsToday r = 0).
Proof.
  simpl.
  destruct (resetDay_cases day (resetMinute minute u))
    as (-> & -> & _ & D).
  destruct (resetMinute_cases minute u) as (T & _ & Mi).
  split.
  - destruct Mi as [(-> & -> & _) | [-> _]]; auto.
  - destruct D as [(-> & _) | [-> _]]; auto.
Qed.

Lemma relaxed_counters (u u' : ModelUsage) :
  relaxed u u' ->
  (requestsThisMinute u' = requestsThisMinute u /\
   tokensThisMinute u' = tokensThisMinute u
   \/ requestsThisMinute u' = 0 /\ tokensThisMinute u' = 0) /\
  (requestsToday u' = requestsToday u \/ requestsToday u' = 0).
Proof.
  induction 1 as [| u u' minute day R [IHm IHd]].
  - auto.
  - destruct (reset_counters minute day u') as [Cm Cd]. simpl in Cm, Cd.
    split.
    + destruct Cm as [[-> ->] | [-> ->]]; auto.
    + destruct Cd as [-> | ->]; auto.
Qed.

Lemma withinQuota_onlyResets (s s' : Selector) :
  onlyResets s s' -> withinQuota s -> withinQuota s'.
Proof.
  intros (Ms & _ & Us) Q name model u' Hm Hu.
  rewrite Ms in Hm. specialize (Us name). rewrite Hu in Us.
  destruct (get name (usage s)) as [u |] eqn:E; [| contradiction].
  specialize (Q name model u Hm E).
  destruct (relaxed_counters u u' Us) as [Cm Cd]. lia.
Qed.

Lemma withinLimits_true (model : GeminiModel) (u : ModelUsage) (e : Z) :
  withinLimits model u e = true ->
  requestsThisMinute u < rpm model /\
  tokensThisMinute u + e <= tpm model /\
  requestsToday u < rpd model.
Proof.
  unfold withinLimits. intros H.
  apply andb_prop in H as [H H3]. apply andb_prop in H as [H1 H2].
  apply Z.ltb_lt in H1, H3. apply Z.leb_le in H2. auto.
Qed.

Lemma resetNow_counters (w : World) (u : ModelUsage) :
  let r := resetNow Date_now w u in
  (requestsThisMinute r = requestsThisMinute u /\
   tokensThisMinute r = tokensThisMinute u
   \/ requestsThisMinute r = 0 /\ tokensThisMinute r = 0) /\
  (requestsToday r = requestsToday u \/ requestsToday r = 0).
Proof. apply reset_counters. Qed.

Lemma recordUsage_withinQuota (m : string) (actualTokens e : Z) (w : World)
      (model : GeminiModel) (u : ModelUsage) :
  withinQuota (self w) ->
  get m (models (self w)) = Some model ->
  get m (usage (self w)) = Some u ->
  withinLimits model u e = true ->
  0 <= actualTokens <= e ->
  withinQuota (self (snd (recordUsage Date_now m actualTokens w))).
Proof.
  intros Q Hm Hu L A. rewrite recordUsage_eq, Hu. cbv zeta.
  pose proof (resetNow_counters w u) as [Cm Cd]. cbv zeta in Cm, Cd.
  set (r := resetNow Date_now w u) in *.
  intros name model' u' Hm' Hu'. cbn [snd self withUsage models usage] in Hm', Hu'.
  destruct (string_dec name m) as [-> | N].
  - rewrite get_set_same in Hu'. injection Hu' as <-.
    rewrite Hm in Hm'. injection Hm' as <-.
    specialize (Q m model u Hm Hu).
    apply withinLimits_true in L.
    cbn [requestsThisMinute requestsToday tokensThisMinute]. lia.
  - rewrite get_set_other in Hu' by exact N. eauto.
Qed.


(** *** The new selector *)

Lemma newSelector_models (n : nat) :
  models (self (newSelector Date_now n))
  = List.map (fun m => (name m, m)) GEMINI_MODELS.
Proof. reflexivity. Qed.

Lemma newSelector_fallbackChain (n : nat) :
  fallbackChain (self (newSelector Date_now n)) = List.map name GEMINI_MODELS.
Proof. reflexivity. Qed.

Lemma newSelector_usage_eq (n : nat) :
  usage (self (newSelector Date_now n))
  = List.map
      (fun p : nat * GeminiModel =>
         (name (snd p),
          {| requestsThisMinute := 0;
             requestsToday := 0;
             tokensThisMinute := 0;
             lastResetMinute := Date_now (fst p + n) / (1000 * 60);
             lastResetDay := Date_now (S (fst p + n)) / (1000 * 60 * 60 * 24) |}))
      (combine [0; 2; 4; 6; 8]%nat GEMINI_MODELS).
Proof. reflexivity. Qed.

Lemma newSelector_reads (n : nat) :
  reads (newSelector Date_now n) = (10 + n)%nat.
Proof. reflexivity. Qed.

Lemma newSelector_usage (n : nat) (k : string) (u : ModelUsage) :
  get k (usage (self (newSelector Date_now n))) = Some u ->
  requestsThisMinute u = 0 /\ requestsToday u = 0 /\ tokensThisMinute u = 0.
Proof.
  rewrite newSelector_usage_eq. cbn -[Z.div Z.mul String.eqb].
  repeat (destruct (String.eqb k _);
          [intros [= <-]; repeat split |]).
  discriminate.
Qed.

Lemma newSelector_withinQuota (n : nat) :
  withinQuota (self (newSelector Date_now n)).
Proof.
  intros k model u Hm Hu.
  apply newSelector_usage in Hu as (-> & -> & ->).
  rewrite newSelector_models in Hm. cbn -[String.eqb] in Hm.
  repeat (destruct (String.eqb k _); [injection Hm as <-; simpl; lia |]).
  discriminate.
Qed.

Lemma session_withinQuota (w : World) :
  session Date_now w -> withinQuota (self w).
Proof.
  induction 1 as [n | w S IH | w r S IH | w S IH | w r m a S IH F A].
  - apply newSelector_withinQuota.
  - exact IH.
  - eapply withinQuota_onlyResets; [apply ask_onlyResets | exact IH].
  - eapply withinQuota_onlyResets; [apply getUsageStats_onlyResets | exact IH].
  - assert (Q : withinQuota (self (snd (ask Date_now r w))))
      by (eapply withinQuota_onlyResets; [apply ask_onlyResets | exact IH]).
    rewrite ask_eq in F, Q |- *.
    destruct (firstAvailable_sound _ _ _ _ F) as (_ & model & u & Hm & Hu & L).
    eapply recordUsage_withinQuota; eauto.
Qed.


(** *** A clock that stays within one minute *)

Lemma resetNow_steady (w : World) (u : ModelUsage) (minute day : Z) :
  steady Date_now (reads w) minute day ->
  resetNow Date_now w u = resetDay day (resetMinute minute u).
Proof.
  intros St. unfold resetNow.
  destruct (St (reads w)) as [-> _]; [lia |].
  destruct (St (S (reads w))) as [_ ->]; [lia |]. reflexivity.
Qed.

Lemma reset_idem (minute day : Z) (u : ModelUsage) :
  resetDay day (resetMinute minute (resetDay day (resetMinute minute u)))
  = resetDay day (resetMinute minute u).
Proof.
  unfold resetDay, resetMinute.
  destruct (Z.gtb_spec minute (lastResetMinute u)); simpl;
    destruct (Z.gtb_spec day (lastResetDay u)); simpl;
    repeat match goal with
           | |- context [?a >? ?b] =>
               destruct (Z.gtb_spec a b); simpl in *; try lia
           end; reflexivity.
Qed.

Lemma availableAt_withUsage (minute day e : Z) (name k : string)
      (u : ModelUsage) (n : nat) (w : World) :
  get name (usage (self w)) = Some u ->
  availableAt minute day
    (self (withUsage name (resetDay day (resetMinute minute u)) n w)) e k
  = availableAt minute day (self w) e k.
Proof.
  intros E. unfold availableAt. simpl.
  destruct (get k (models (self w))) as [model |]; [| reflexivity].
  destruct (string_dec k name) as [-> | N].
  - now rewrite get_set_same, E, reset_idem.
  - now rewrite get_set_other by exact N.
Qed.

Lemma find_ext {A} (f g : A -> bool) (l : list A) :
  (forall x, f x = g x) -> find f l = find g l.
Proof.
  intros H. induction l as [| x r IH]; simpl; [reflexivity |].
  now rewrite H, IH.
Qed.

Lemma steady_later (n k : nat) (minute day : Z) :
  steady Date_now n minute day -> (n <= k)%nat ->
  steady Date_now k minute day.
Proof. intros St L j Hj. apply St. lia. Qed.

Lemma firstAvailable_steady (chain : list string) (e : Z) (w : World)
      (minute day : Z) :
  steady Date_now (reads w) minute day ->
  fst (firstAvailable Date_now chain e w)
  = find (availableAt minute day (self w) e) chain.
Proof.
  revert w. induction chain as [| name rest IH]; intros w St; simpl.
  - reflexivity.
  - unfold bindM. rewrite isModelAvailable_eq.
    unfold availableAt at 1.
    destruct (get name (models (self w))) as [model |] eqn:Em.
    + destruct (get name (usage (self w))) as [u |] eqn:Eu.
      * rewrite (resetNow_steady w u minute day St). simpl.
        destruct (withinLimits model _ e); [reflexivity |].
        rewrite IH by (eapply steady_later; [exact St | simpl; lia]).
        apply find_ext. intros k. now apply availableAt_withUsage.
      * simpl. now apply IH.
    + simpl. now apply IH.
Qed.


(** *** The tables of a session *)

Lemma onlyResets_known (s s' : Selector) (k : string) :
  onlyResets s s' ->
  (exists u, get k (usage s) = Some u) -> exists u', get k (usage s') = Some u'.
Proof.
  intros (_ & _ & U) [u E]. specialize (U k). rewrite E in U.
  destruct (get k (usage s')) as [u' |]; [eauto | contradiction].
Qed.

Lemma recordUsage_tables (m : string) (a : Z) (w : World) :
  let w' := snd (recordUsage Date_now m a w) in
  models (self w') = models (self w) /\
  fallbackChain (self w') = fallbackChain (self w) /\
  forall k, (exists u, get k (usage (self w)) = Some u) ->
            exists u', get k (usage (self w')) = Some u'.
Proof.
  rewrite recordUsage_eq.
  destruct (get m (usage (self w))) as [u |] eqn:E; simpl; [| auto].
  repeat split. intros k [x Hx].
  destruct (string_dec k m) as [-> | N].
  - rewrite get_set_same. eauto.
  - rewrite get_set_other by exact N. eauto.
Qed.

Lemma session_tables (w : World) :
  session Date_now w ->
  models (self w) = List.map (fun m => (name m, m)) GEMINI_MODELS /\
  fallbackChain (self w) = List.map name GEMINI_MODELS /\
  forall model, In model GEMINI_MODELS ->
                exists u, get (name model) (usage (self w)) = Some u.
Proof.
  induction 1 as [n | w S IH | w r S IH | w S IH | w r m a S IH F A].
  - repeat split. intros model I. rewrite newSelector_usage_eq.
    simpl in I.
    repeat (destruct I as [<- | I]; [cbn -[Z.div Z.mul]; eauto |]).
    contradiction.
  - exact IH.
  - destruct IH as (Hm & Hc & Hu).
    destruct (ask_onlyResets r w) as (Em & Ec & _).
    repeat split; try congruence.
    intros model I. eapply onlyResets_known; [apply ask_onlyResets | auto].
  - destruct IH as (Hm & Hc & Hu).
    destruct (getUsageStats_onlyResets w) as (Em & Ec & _).
    repeat split; try congruence.
    intros model I.
    eapply onlyResets_known; [apply getUsageStats_onlyResets | auto].
  - destruct IH as (Hm & Hc & Hu).
    destruct (ask_onlyResets r w) as (Em & Ec & _).
    destruct (recordUsage_tables m a (snd (ask Date_now r w)))
      as (Rm & Rc & Ru).
    repeat split; try congruence.
    intros model I. apply Ru.
    eapply onlyResets_known; [apply ask_onlyResets | auto].
Qed.

Lemma indexOf_absent (x : string) (l : list string) :
  ~ In x l -> indexOf x l = -1.
Proof.
  induction l as [| y r IH]; simpl; intros N; [reflexivity |].
  destruct (String.eqb_spec x y) as [-> | D].
  - exfalso. apply N. now left.
  - rewrite IH by (intros I; apply N; now right). reflexivity.
Qed.

Lemma find_true {A} (f : A -> bool) (l : list A) (x : A) :
  find f l = Some x -> f x = true.
Proof. intros H. now apply find_some in H. Qed.

(** *** Recorded calls under a steady clock *)

Lemma reset_last (minute day : Z) (u : ModelUsage) :
  minute <= lastResetMinute (resetDay day (resetMinute minute u)) /\
  day <= lastResetDay (resetDay day (resetMinute minute u)).
Proof.
  destruct (resetDay_cases day (resetMinute minute u)) as (_ & _ & -> & D).
  destruct (resetMinute_cases minute u) as (_ & Ld & Mi). split.
  - destruct Mi as [(_ & _ & -> & _) | [-> ?]]; lia.
  - destruct D as [(_ & -> & _) | [-> ?]]; lia.
Qed.

Lemma reset_fixed (minute day : Z) (u : ModelUsage) :
  minute <= lastResetMinute u -> day <= lastResetDay u ->
  resetDay day (resetMinute minute u) = u.
Proof.
  intros Hm Hd. unfold resetDay, resetMinute.
  destruct (Z.gtb_spec minute (lastResetMinute u)); [lia |].
  destruct (Z.gtb_spec day (lastResetDay u)); [lia | reflexivity].
Qed.

Lemma reset_nonneg (minute day : Z) (u : ModelUsage) :
  0 <= requestsThisMinute u ->
  0 <= requestsThisMinute (resetDay day (resetMinute minute u)).
Proof.
  intros H. destruct (reset_counters minute day u) as [[[-> _] | [-> _]] _]; lia.
Qed.

Lemma times_recordUsage_steady (k : nat) (m : string) (a : Z) (w : World)
      (u : ModelUsage) (minute day : Z) :
  steady Date_now (reads w) minute day ->
  get m (usage (self w)) = Some u ->
  let w' := snd (times k (recordUsage Date_now m a) w) in
  models (self w') = models (self w) /\
  fallbackChain (self w') = fallbackChain (self w) /\
  (reads w <= reads w')%nat /\
  exists u',
    get m (usage (self w')) = Some u' /\
    requestsThisMinute (resetDay day (resetMinute minute u'))
    = requestsThisMinute (resetDay day (resetMinute minute u)) + Z.of_nat k.
Proof.
  revert w u. induction k as [| k IH]; intros w u St E.
  - simpl. repeat split; [lia |]. exists u. split; [exact E | lia].
  - cbn [times]. unfold bindM. rewrite recordUsage_eq, E. cbv zeta.
    rewrite (resetNow_steady w u minute day St).
    set (r := resetDay day (resetMinute minute u)).
    set (b := {| requestsThisMinute := requestsThisMinute r + 1;
                 requestsToday := requestsToday r + 1;
                 tokensThisMinute := tokensThisMinute r + a;
                 lastResetMinute := lastResetMinute r;
                 lastResetDay := lastResetDay r |}).
    set (w1 := withUsage m b (S (S (reads w))) w).
    assert (St1 : steady Date_now (reads w1) minute day)
      by (eapply steady_later; [exact St | simpl; lia]).
    assert (E1 : get m (usage (self w1)) = Some b)
      by (simpl; apply get_set_same).
    destruct (IH w1 b St1 E1) as (Hm & Hc & Hr & u' & Hu & Hn).
    repeat split; [exact Hm | exact Hc | simpl in Hr; lia |].
    exists u'. split; [exact Hu |]. rewrite Hn.
    assert (F : resetDay day (resetMinute minute b) = b).
    { destruct (reset_last minute day u). now apply reset_fixed. }
    rewrite F. simpl. lia.
Qed.

(** *** The daily counter *)

Lemma resetNow_sameDay (w : World) (u : ModelUsage) :
  (forall k, Date_now k / (1000 * 60 * 60 * 24) <= lastResetDay u) ->
  requestsToday (resetNow Date_now w u) = requestsToday u /\
  lastResetDay (resetNow Date_now w u) = lastResetDay u.
Proof.
  intros D. unfold resetNow.
  destruct (resetMinute_cases (Date_now (reads w) / (1000 * 60)) u)
    as (T & L & _).
  rewrite <- T, <- L. rewrite <- L in D.
  destruct (resetDay_cases (Date_now (S (reads w)) / (1000 * 60 * 60 * 24))
              (resetMinute (Date_now (reads w) / (1000 * 60)) u))
    as (_ & _ & _ & [(_ & _ & Lt) | [-> _]]).
  - specialize (D (S (reads w))). lia.
  - auto.
Qed.

Lemma firstAvailable_sameDay (chain : list string) (e : Z) (w : World)
      (m : string) (u : ModelUsage) :
  (forall k, Date_now k / (1000 * 60 * 60 * 24) <= lastResetDay u) ->
  get m (usage (self w)) = Some u ->
  exists u',
    get m (usage (self (snd (firstAvailable Date_now chain e w)))) = Some u' /\
    requestsToday u' = requestsToday u /\ lastResetDay u' = lastResetDay u.
Proof.
  revert w u. induction chain as [| name rest IH]; intros w u D E.
  - exists u. auto.
  - simpl. unfold bindM. rewrite isModelAvailable_eq.
    assert (Keep : forall x n,
               get name (usage (self w)) = Some x ->
               exists u1,
                 get m (usage (self (withUsage name (resetNow Date_now w x) n w)))
                 = Some u1 /\
                 requestsToday u1 = requestsToday u /\
                 lastResetDay u1 = lastResetDay u).
    { intros x n Ex. simpl. destruct (string_dec m name) as [-> | N].
      - rewrite get_set_same. rewrite E in Ex. injection Ex as <-.
        eexists. split; [reflexivity |]. now apply resetNow_sameDay.
      - rewrite get_set_other by exact N. eauto. }
    destruct (get name (models (self w))) as [model |];
      [| simpl; now apply IH].
    destruct (get name (usage (self w))) as [x |] eqn:Ex;
      [| simpl; now apply IH].
    destruct (Keep x (S (S (reads w))) eq_refl) as (u1 & E1 & T1 & L1).
    match goal with
    | |- context [withinLimits model ?x ?t] => destruct (withinLimits model x t)
    end; simpl.
    + eauto.
    + assert (D1 : forall k,
                 Date_now k / (1000 * 60 * 60 * 24) <= lastResetDay u1)
        by (intros k; rewrite L1; apply D).
      destruct (IH _ u1 D1 E1) as (u' & E' & T' & L').
      exists u'. repeat split; congruence.
Qed.

End SelectorLemmas.

(* ------------------------------------------------------------------ *)
Section SelectorTheorems.
Import GeminiModelSelector.
Variable Date_now : nat -> Z.

(** X12.  A model handed out by [selectModel], [getNextBestModel] or
    [selectForUseCase] is one of the models the request consults, and at
    that moment it is under its requests-per-minute limit, under its
    requests-per-day limit, and has room for the estimated tokens. *)
Theorem selected_model_within_limits (r : Request) (w : World) (m : string) :
  fst (ask Date_now r w) = Some m ->
  In m (consulted r (self w)) /\
  exists model u,
    get m (models (self (snd (ask Date_now r w)))) = Some model /\
    get m (usage (self (snd (ask Date_now r w)))) = Some u /\
    requestsThisMinute u < rpm model /\
    tokensThisMinute u + estimateOf r <= tpm model /\
    requestsToday u < rpd model.
Proof.
  rewrite ask_eq. intros F.
  destruct (firstAvailable_sound Date_now _ _ _ _ F)
    as (I & model & u & Hm & Hu & L).
  split; [exact I |]. exists model, u.
  apply withinLimits_true in L. auto.
Qed.

(** X13.  While every recorded call is the one the selector was just asked
    about and uses at most the estimated tokens, every model of the table
    has a usage record whose three counters stay between zero and the
    model's limits. *)
Theorem quota_never_exceeded (w : World) (model : GeminiModel) :
  session Date_now w -> In model GEMINI_MODELS ->
  exists u,
    get (name model) (usage (self w)) = Some u /\
    0 <= requestsThisMinute u <= rpm model /\
    0 <= requestsToday u <= rpd model /\
    0 <= tokensThisMinute u <= tpm model.
Proof.
  intros S I.
  destruct (session_tables Date_now w S) as (Hm & _ & Hu).
  destruct (Hu model I) as [u E]. exists u. split; [exact E |].
  apply (session_withinQuota Date_now w S (name model) model u); [| exact E].
  rewrite Hm. simpl in I.
  repeat (destruct I as [<- | I]; [reflexivity |]). contradiction.
Qed.

(** X14.  When the clock stays within one minute during the call, a request
    returns the first model, in the order in which it consults them, that
    is within its three limits once its counters are reset for that minute
    and day; it returns [null] when there is none. *)
Theorem ask_first_available (r : Request) (w : World) (minute day : Z) :
  steady Date_now (reads w) minute day ->
  fst (ask Date_now r w)
  = find (availableAt minute day (self w) (estimateOf r))
      (consulted r (self w)).
Proof. intros St. rewrite ask_eq. now apply firstAvailable_steady. Qed.

(** X15.  Asked for the alternative to a model that is not in the fallback
    chain, [getNextBestModel] starts from the top of the chain: it answers
    as [selectModel] does when high performance is preferred. *)
Theorem next_best_of_unknown_model (currentModel : string)
      (estimatedTokens : option Z) (w : World) :
  ~ In currentModel (fallbackChain (self w)) ->
  getNextBestModel Date_now currentModel estimatedTokens w
  = selectModel Date_now estimatedTokens (Some true) w.
Proof.
  intros N. unfold getNextBestModel, selectModel, bindM, getFallbackChain.
  now rewrite indexOf_absent.
Qed.

(** X16.  The alternative that [getNextBestModel] offers for a model of the
    table has a strictly lower priority than that model. *)
Theorem next_best_has_lower_priority (currentModel m : string)
      (estimatedTokens : option Z) (w : World) (mc mm : GeminiModel) :
  session Date_now w ->
  fst (getNextBestModel Date_now currentModel estimatedTokens w) = Some m ->
  get currentModel (models (self w)) = Some mc ->
  get m (models (self w)) = Some mm ->
  priority mm < priority mc.
Proof.
  intros S F Hc Hm.
  destruct (session_tables Date_now w S) as (Em & Ec & _).
  change (getNextBestModel Date_now currentModel estimatedTokens w)
    with (ask Date_now (ByNextBest currentModel estimatedTokens) w) in F.
  rewrite ask_eq in F.
  apply firstAvailable_sound in F as [I _].
  cbn [consulted] in I. rewrite Ec in I. rewrite Em in Hc, Hm.
  revert Hc I. cbn -[String.eqb].
  repeat match goal with
         | |- context [String.eqb currentModel ?s] =>
             destruct (String.eqb_spec currentModel s) as [-> | ?];
             [ intros [= <-] I; cbv in I;
               repeat (destruct I as [<- | I];
                       [cbv in Hm; injection Hm as <-; cbn; lia |]);
               contradiction
             | cbv iota ]
         end.
  intros Hc. discriminate Hc.
Qed.

(** X17.  For a complex analysis the selector never falls back to a lite
    model: it returns one of the three high-performance models or [null]. *)
Theorem complex_analysis_never_lite (estimatedTokens : option Z) (w : World)
      (m : string) :
  fst (selectForUseCase Date_now complex_analysis estimatedTokens w) = Some m ->
  In m ["gemini-2.5-pro"; "gemini-2.5-flash"; "gemini-2.0-flash"]%string.
Proof.
  intros F.
  change (selectForUseCase Date_now complex_analysis estimatedTokens w)
    with (ask Date_now (ByUseCase complex_analysis estimatedTokens) w) in F.
  rewrite ask_eq in F. now apply firstAvailable_sound in F as [I _].
Qed.


(** X18.  Under a clock that stays within one minute, once as many calls have
    been recorded for a model as its requests-per-minute limit allows, no
    request returns that model. *)
Theorem exhausted_after_rpm_calls (m : string) (model : GeminiModel)
      (u : ModelUsage) (k : nat) (actualTokens : Z) (r : Request) (w : World)
      (minute day : Z) :
  steady Date_now (reads w) minute day ->
  get m (models (self w)) = Some model ->
  get m (usage (self w)) = Some u ->
  0 <= requestsThisMinute u ->
  rpm model <= Z.of_nat k ->
  fst (ask Date_now r
         (snd (times k (recordUsage Date_now m actualTokens) w)))
  <> Some m.
Proof.
  intros St Hm Hu Hn Hk F.
  destruct (times_recordUsage_steady Date_now k m actualTokens w u minute day
              St Hu) as (Em & _ & Hr & u' & Hu' & Hc).
  rewrite ask_eq in F.
  rewrite (firstAvailable_steady Date_now _ _ _ minute day) in F
    by (eapply steady_later; [exact St | exact Hr]).
  apply find_true in F. unfold availableAt in F.
  rewrite Em, Hm, Hu' in F. apply withinLimits_true in F as (F & _).
  rewrite Hc in F.
  pose proof (reset_nonneg minute day u Hn). lia.
Qed.

(** X19.  A model whose requests-per-day limit is reached is not returned by
    any request as long as the clock shows no later day, however the
    minutes change. *)
Theorem daily_quota_outlasts_minutes (m : string) (model : GeminiModel)
      (u : ModelUsage) (r : Request) (w : World) :
  (forall k, Date_now k / (1000 * 60 * 60 * 24) <= lastResetDay u) ->
  get m (models (self w)) = Some model ->
  get m (usage (self w)) = Some u ->
  rpd model <= requestsToday u ->
  fst (ask Date_now r w) <> Some m.
Proof.
  intros D Hm Hu Hq F.
  destruct (ask_onlyResets Date_now r w) as (Em & _ & _).
  rewrite ask_eq in F, Em.
  destruct (firstAvailable_sameDay Date_now (consulted r (self w))
              (estimateOf r) w m u D Hu) as (u' & Hu' & T & _).
  destruct (firstAvailable_sound Date_now _ _ _ _ F)
    as (_ & model' & u'' & Hm' & Hu'' & L).
  rewrite Em, Hm in Hm'. injection Hm' as <-.
  rewrite Hu' in Hu''. injection Hu'' as <-.
  apply withinLimits_true in L. lia.
Qed.

(** X20.  During a session no request that estimates more than 1000000
    tokens is given a model. *)
Theorem oversized_request_refused (r : Request) (w : World) :
  session Date_now w -> 1000000 < estimateOf r ->
  fst (ask Date_now r w) = None.
Proof.
  intros S Big.
  destruct (fst (ask Date_now r w)) as [m |] eqn:F; [exfalso | reflexivity].
  pose proof (session_ask Date_now w r S) as S'.
  destruct (session_tables Date_now _ S') as (Em & _ & _).
  pose proof (session_withinQuota Date_now _ S') as Q.
  rewrite ask_eq in F, Em, Q.
  destruct (firstAvailable_sound Date_now _ _ _ _ F)
    as (_ & model & u' & Hm & Hu & L).
  apply withinLimits_true in L as (_ & L & _).
  destruct (Q m model u' Hm Hu) as (_ & _ & T).
  rewrite Em in Hm. cbn -[String.eqb] in Hm.
  repeat match goal with
         | H : context [String.eqb m ?s] |- _ =>
             destruct (String.eqb m s);
             [injection H as <-; cbn in L; lia |]
         end.
  discriminate.
Qed.

(** X21.  Asking for a model consumes nothing: a request leaves the model
    table and the fallback chain as they are, and each counter keeps its
    value or is reset to zero. *)
Theorem asking_consumes_nothing (r : Request) (w : World) (k : string)
      (u : ModelUsage) :
  get k (usage (self w)) = Some u ->
  models (self (snd (ask Date_now r w))) = models (self w) /\
  fallbackChain (self (snd (ask Date_now r w))) = fallbackChain (self w) /\
  exists u',
    get k (usage (self (snd (ask Date_now r w)))) = Some u' /\
    (requestsThisMinute u' = requestsThisMinute u /\
     tokensThisMinute u' = tokensThisMinute u
     \/ requestsThisMinute u' = 0 /\ tokensThisMinute u' = 0) /\
    (requestsToday u' = requestsToday u \/ requestsToday u' = 0).
Proof.
  intros E. destruct (ask_onlyResets Date_now r w) as (Em & Ec & U).
  repeat split; [exact Em | exact Ec |].
  specialize (U k). rewrite E in U.
  destruct (get k (usage (self (snd (ask Date_now r w))))) as [u' |];
    [| contradiction].
  exists u'. split; [reflexivity |]. now apply relaxed_counters.
Qed.


(** X22.  A model that ran out of requests for a minute is offered again in
    the next one: when the clock has reached a later minute than the last
    reset of a consulted model that has daily quota left and room for the
    estimated tokens, the request returns a model. *)
Theorem new_minute_restores (m : string) (model : GeminiModel)
      (u : ModelUsage) (r : Request) (w : World) (minute day : Z) :
  steady Date_now (reads w) minute day ->
  In m (consulted r (self w)) ->
  get m (models (self w)) = Some model ->
  get m (usage (self w)) = Some u ->
  lastResetMinute u < minute ->
  0 < rpm model ->
  estimateOf r <= tpm model ->
  0 <= requestsToday u < rpd model ->
  exists chosen, fst (ask Date_now r w) = Some chosen.
Proof.
  intros St I Hm Hu Late Hr Ht Hd.
  rewrite ask_eq, (firstAvailable_steady Date_now _ _ _ minute day St).
  destruct (find _ _) as [chosen |] eqn:F; [eauto | exfalso].
  apply find_none with (x := m) in F; [| exact I].
  unfold availableAt in F. rewrite Hm, Hu in F.
  destruct (resetDay_cases day (resetMinute minute u)) as (Er & Et & _ & D).
  destruct (resetMinute_cases minute u) as (Td & _ & [(R0 & T0 & _) | [_ ?]]);
    [| lia].
  unfold withinLimits in F. rewrite Er, Et, R0, T0 in F.
  replace (0 <? rpm model) with true in F by (symmetry; apply Z.ltb_lt; lia).
  replace (0 + estimateOf r <=? tpm model) with true in F
    by (symmetry; apply Z.leb_le; lia).
  cbn [andb] in F. apply Z.ltb_ge in F.
  destruct D as [(D0 & _) | [D1 _]]; [rewrite D0 in F | rewrite D1, Td in F];
    lia.
Qed.

End SelectorTheorems.

Section StatsLemmas.
Import GeminiModelSelector StatsEndpoint.
Variable Date_now : nat -> Z.

Lemma statsOf_steady (name : string) (model : GeminiModel) (u : ModelUsage)
      (w : World) (minute day : Z) :
  steady Date_now (reads w) minute day ->
  get name (models (self w)) = Some model ->
  get name (usage (self w)) = Some u ->
  exists entry w',
    statsOf Date_now name model w = (Some entry, w') /\
    current_available entry = availableAt minute day (self w) 1000 name /\
    (forall e k, availableAt minute day (self w') e k
                 = availableAt minute day (self w) e k) /\
    (reads w <= reads w')%nat /\
    models (self w') = models (self w) /\
    fallbackChain (self w') = fallbackChain (self w) /\
    (forall k, (exists x, get k (usage (self w)) = Some x) ->
               exists x', get k (usage (self w')) = Some x').
Proof.
  intros St Hm Hu.
  set (r := resetDay day (resetMinute minute u)).
  set (w1 := withUsage name r (S (S (reads w))) w).
  assert (St1 : steady Date_now (reads w1) minute day)
    by (eapply steady_later; [exact St | simpl; lia]).
  assert (E1 : get name (usage (self w1)) = Some r)
    by (simpl; apply get_set_same).
  set (w2 := withUsage name r (S (S (reads w1))) w1).
  assert (E2 : get name (usage (self w2)) = Some r)
    by (simpl; apply get_set_same).
  assert (R1 : resetNow Date_now w1 r = r).
  { rewrite (resetNow_steady Date_now w1 r minute day St1).
    apply reset_idem. }
  assert (S1 : resetCountersIfNeeded Date_now name w = (tt, w1)).
  { rewrite resetCountersIfNeeded_eq, Hu.
    now rewrite (resetNow_steady Date_now w u minute day St). }
  assert (S2 : isModelAvailable Date_now name None w1
               = (withinLimits model r 1000, w2)).
  { rewrite isModelAvailable_eq.
    replace (get name (models (self w1))) with (Some model)
      by (symmetry; exact Hm).
    rewrite E1, R1. reflexivity. }
  eexists. exists w2. split.
  - unfold statsOf, bindM, getUsage. cbn [fst snd].
    rewrite Hu, S1, E1, S2, E2. reflexivity.
  - cbn [current_available]. repeat split.
    + unfold availableAt. now rewrite Hm, Hu.
    + intros e k. unfold w2.
      replace r with (resetDay day (resetMinute minute r)) at 1
        by apply reset_idem.
      rewrite (availableAt_withUsage minute day e name k r _ w1 E1).
      apply (availableAt_withUsage minute day e name k u _ w Hu).
    + simpl. lia.
    + intros k [x Hx]. simpl.
      destruct (string_dec k name) as [-> | N].
      * rewrite get_set_same. eauto.
      * rewrite !get_set_other by exact N. eauto.
Qed.

Lemma forEachModel_steady (ms : Map GeminiModel) (stats : Map ModelStats)
      (w : World) (minute day : Z) :
  steady Date_now (reads w) minute day ->
  Forall (fun p => get (fst p) (models (self w)) = Some (snd p) /\
                   exists u, get (fst p) (usage (self w)) = Some u) ms ->
  exists entries w',
    forEachModel Date_now ms stats w
    = (fold_left (fun acc p => set (fst p) (snd p) acc) entries stats, w') /\
    List.map fst entries = List.map fst ms /\
    Forall (fun p => current_available (snd p)
                     = availableAt minute day (self w) 1000 (fst p)) entries /\
    (forall e k, availableAt minute day (self w') e k
                 = availableAt minute day (self w) e k) /\
    (reads w <= reads w')%nat /\
    fallbackChain (self w') = fallbackChain (self w).
Proof.
  revert stats w. induction ms as [| [name model] rest IH]; intros stats w St F.
  - exists [], w. simpl. repeat split; [constructor | lia].
  - inversion F as [| p l [Hm [u Hu]] Fr]; subst. simpl in Hm, Hu.
    destruct (statsOf_steady name model u w minute day St Hm Hu)
      as (entry & w1 & E & A & Inv & R & Em & Ec & K).
    destruct (IH (set name entry stats) w1)
      as (entries & w' & E' & N' & A' & Inv' & R' & Ec').
    + eapply steady_later; [exact St | exact R].
    + eapply Forall_impl; [| exact Fr]. intros p [Hp Hk]. split.
      * now rewrite Em.
      * now apply K.
    + exists ((name, entry) :: entries), w'. repeat split.
      * simpl. unfold bindM. rewrite E. exact E'.
      * simpl. now rewrite N'.
      * constructor; [exact A |].
        eapply Forall_impl; [| exact A']. intros p Hp. now rewrite Hp, Inv.
      * intros e k. now rewrite Inv', Inv.
      * lia.
      * congruence.
Qed.

Lemma availableAt_fewer_tokens (minute day : Z) (s : Selector) (e e' : Z)
      (k : string) :
  e' <= e -> availableAt minute day s e k = true ->
  availableAt minute day s e' k = true.
Proof.
  unfold availableAt. intros L.
  destruct (get k (models s)); [| discriminate].
  destruct (get k (usage s)); [| discriminate].
  unfold withinLimits. intros H.
  apply andb_prop in H as [H H3]. apply andb_prop in H as [H1 H2].
  rewrite H1, H3. apply Z.leb_le in H2.
  replace (_ <=? _) with true by (symmetry; apply Z.leb_le; lia). reflexivity.
Qed.

End StatsLemmas.

Section StatsTheorems.
Import GeminiModelSelector StatsEndpoint.
Variable Date_now : nat -> Z.

(** X23.  Answering a GET request during a session, with a clock that stays
    within one minute, the statistics endpoint lists the five models, and
    a model it recommends is listed as available; so a recommendation
    implies that at least one model is counted as available. *)
Theorem recommended_model_is_listed_available (w w' : World) (s : Summary)
      (stats : Map ModelStats) (m : string) (minute day : Z) :
  session Date_now w ->
  steady Date_now (reads w) minute day ->
  handler Date_now "GET" w = (Statistics s stats, w') ->
  recommendedModel s = Some m ->
  totalModels s = 5 /\
  (exists entry, get m stats = Some entry /\ current_available entry = true) /\
  1 <= availableModels s.
Proof.
  intros S St H Rm.
  destruct (session_tables Date_now w S) as (Em & Ec & Ku).
  unfold handler in H. cbn [String.eqb Ascii.eqb Bool.eqb andb negb] in H.
  unfold bindM, getUsageStats in H.
  destruct (forEachModel_steady Date_now (models (self w)) [] w minute day St)
    as (entries & w1 & E & N & A & Inv & R & C).
  { rewrite Em. repeat constructor; simpl;
      try (rewrite Em; reflexivity);
      match goal with
      | |- exists u, get ?n _ = Some u =>
          match eval cbv in (find (fun x => String.eqb (name x) n) GEMINI_MODELS)
          with Some ?model => apply (Ku model); simpl; tauto end
      end. }
  rewrite E in H.
  change (selectForUseCase Date_now resume_generation None w1)
    with (ask Date_now (ByUseCase resume_generation None) w1) in H.
  pose proof (firstAvailable_steady Date_now
                (consulted (ByUseCase resume_generation None) (self w1))
                (estimateOf (ByUseCase resume_generation None)) w1 minute day)
    as F.
  rewrite <- ask_eq in F.
  destruct (ask Date_now (ByUseCase resume_generation None) w1) as [rec w2].
  injection H as H1 H2 H3. subst s stats w'.
  cbn [recommendedModel] in Rm.
  specialize (F (steady_later Date_now _ _ minute day St R)).
  cbn [fst] in F. rewrite Rm in F. symmetry in F. clear E Rm.
  apply find_some in F as [I Av].
  cbn [consulted] in I. rewrite C, Ec in I.
  apply (availableAt_fewer_tokens minute day _ _ 1000) in Av;
    [| cbn; lia].
  rewrite Inv in Av.
  rewrite Em in N.
  destruct entries as [| [n1 e1] [| [n2 e2] [| [n3 e3] [| [n4 e4]
                      [| [n5 e5] [| ? ?]]]]]]; try discriminate N.
  cbn in N. injection N as -> -> -> -> ->.
  inversion A as [| ? ? A1 T1]; subst.
  inversion T1 as [| ? ? A2 T2]; subst.
  inversion T2 as [| ? ? A3 T3]; subst.
  inversion T3 as [| ? ? A4 T4]; subst.
  inversion T4 as [| ? ? A5 T5]; subst.
  cbn [fst snd] in A1, A2, A3, A4, A5.
  cbn [fold_left fst snd set String.eqb Ascii.eqb Bool.eqb andb List.map
       List.length totalModels availableModels].
  split; [reflexivity |].
  cbn in I.
  repeat (destruct I as [<- | I];
          [ split;
            [ eexists; split; [reflexivity | congruence]
            | cbn [filter];
              repeat match goal with
                     | |- context [current_available ?e] =>
                         let b := fresh "b" in
                         destruct (current_available e) eqn:b;
                         try congruence
                     end; cbn [List.length]; lia ]
          | ]).
  contradiction.
Qed.

End StatsTheorems.

Section SelectorWitnesses.
Import GeminiModelSelector StatsEndpoint.

Lemma steady_midnight (n : nat) : steady midnight n 0 0.
Proof. intros k _. split; reflexivity. Qed.

Lemma selected_model_within_limits_witness :
  fst (ask midnight (BySelectModel None None) freshSelector)
  = Some "gemini-2.5-pro"%string /\
  exists model u,
    get "gemini-2.5-pro"
      (models (self (snd (ask midnight (BySelectModel None None)
                            freshSelector)))) = Some model /\
    get "gemini-2.5-pro"
      (usage (self (snd (ask midnight (BySelectModel None None)
                           freshSelector)))) = Some u /\
    requestsThisMinute u < rpm model /\
    tokensThisMinute u + 1000 <= tpm model /\
    requestsToday u < rpd model.
Proof.
  split; [reflexivity |].
  apply (selected_model_within_limits midnight (BySelectModel None None)
           freshSelector "gemini-2.5-pro").
  reflexivity.
Defined.

Lemma session_served : session midnight servedSelector.
Proof.
  apply (session_serve midnight freshSelector (BySelectModel None None)
           "gemini-2.5-pro" 800).
  - apply session_new.
  - reflexivity.
  - split; discriminate.
Qed.

Lemma quota_never_exceeded_witness :
  exists u,
    get "gemini-2.5-pro" (usage (self servedSelector)) = Some u /\
    0 <= requestsThisMinute u <= 5 /\
    0 <= requestsToday u <= 100 /\
    0 <= tokensThisMinute u <= 250000.
Proof.
  apply (quota_never_exceeded midnight servedSelector
           {| name := "gemini-2.5-pro"; rpm := 5; tpm := 250000; rpd := 100;
              priority := 5 |}).
  - apply session_served.
  - simpl. tauto.
Defined.

Lemma ask_first_available_witness :
  fst (ask midnight (ByUseCase simple_task None) busySelector)
  = find (availableAt 0 0 (self busySelector) 500)
      (rev (fallbackChain (self busySelector))).
Proof.
  apply (ask_first_available midnight (ByUseCase simple_task None)
           busySelector 0 0).
  apply steady_midnight.
Defined.

Lemma next_best_of_unknown_model_witness :
  getNextBestModel midnight "gemini-1.0" None freshSelector
  = selectModel midnight None (Some true) freshSelector.
Proof.
  apply (next_best_of_unknown_model midnight "gemini-1.0" None freshSelector).
  simpl. intros [H | [H | [H | [H | [H | []]]]]]; discriminate H.
Defined.

Lemma next_best_has_lower_priority_witness :
  fst (getNextBestModel midnight "gemini-2.5-pro" None freshSelector)
  = Some "gemini-2.5-flash"%string /\
  4 < 5.
Proof.
  split; [reflexivity |].
  apply (next_best_has_lower_priority midnight "gemini-2.5-pro"
           "gemini-2.5-flash" None freshSelector
           {| name := "gemini-2.5-pro"; rpm := 5; tpm := 250000; rpd := 100;
              priority := 5 |}
           {| name := "gemini-2.5-flash"; rpm := 10; tpm := 250000;
              rpd := 250; priority := 4 |}).
  - apply session_new.
  - reflexivity.
  - reflexivity.
  - reflexivity.
Defined.

Lemma complex_analysis_never_lite_witness :
  fst (selectForUseCase midnight complex_analysis None busySelector)
  = Some "gemini-2.5-flash"%string /\
  In "gemini-2.5-flash"%string
     ["gemini-2.5-pro"; "gemini-2.5-flash"; "gemini-2.0-flash"]%string.
Proof.
  split; [reflexivity |].
  apply (complex_analysis_never_lite midnight None busySelector).
  reflexivity.
Defined.

Lemma exhausted_after_rpm_calls_witness :
  fst (ask midnight (BySelectModel None None) busySelector)
  <> Some "gemini-2.5-pro"%string.
Proof.
  apply (exhausted_after_rpm_calls midnight "gemini-2.5-pro"
           {| name := "gemini-2.5-pro"; rpm := 5; tpm := 250000; rpd := 100;
              priority := 5 |}
           {| requestsThisMinute := 0; requestsToday := 0;
              tokensThisMinute := 0; lastResetMinute := 0;
              lastResetDay := 0 |}
           5 10 (BySelectModel None None) freshSelector 0 0).
  - apply steady_midnight.
  - reflexivity.
  - reflexivity.
  - discriminate.
  - discriminate.
Defined.

Lemma daily_quota_outlasts_minutes_witness :
  fst (ask oneMinuteLater (BySelectModel None None) spentSelector)
  <> Some "gemini-2.5-pro"%string.
Proof.
  apply (daily_quota_outlasts_minutes oneMinuteLater "gemini-2.5-pro"
           {| name := "gemini-2.5-pro"; rpm := 5; tpm := 250000; rpd := 100;
              priority := 5 |}
           {| requestsThisMinute := 100; requestsToday := 100;
              tokensThisMinute := 1000; lastResetMinute := 0;
              lastResetDay := 0 |}).
  - intros k. discriminate.
  - reflexivity.
  - reflexivity.
  - discriminate.
Defined.

Lemma oversized_request_refused_witness :
  fst (ask midnight (BySelectModel (Some 2000000) None) servedSelector) = None.
Proof.
  apply (oversized_request_refused midnight
           (BySelectModel (Some 2000000) None) servedSelector).
  - apply session_served.
  - reflexivity.
Defined.

Lemma asking_consumes_nothing_witness :
  models (self (snd (ask midnight (ByUseCase simple_task None) busySelector)))
  = models (self busySelector) /\
  fallbackChain
    (self (snd (ask midnight (ByUseCase simple_task None) busySelector)))
  = fallbackChain (self busySelector) /\
  exists u',
    get "gemini-2.5-pro"
      (usage (self (snd (ask midnight (ByUseCase simple_task None)
                           busySelector)))) = Some u' /\
    (requestsThisMinute u' = 5 /\ tokensThisMinute u' = 50
     \/ requestsThisMinute u' = 0 /\ tokensThisMinute u' = 0) /\
    (requestsToday u' = 5 \/ requestsToday u' = 0).
Proof.
  apply (asking_consumes_nothing midnight (ByUseCase simple_task None)
           busySelector "gemini-2.5-pro"
           {| requestsThisMinute := 5; requestsToday := 5;
              tokensThisMinute := 50; lastResetMinute := 0;
              lastResetDay := 0 |}).
  reflexivity.
Defined.

Lemma new_minute_restores_witness :
  fst (ask midnight (ByUseCase complex_analysis (Some 300000)) busySelector)
  = Some "gemini-2.0-flash"%string /\
  exists chosen,
    fst (ask oneMinuteLater (BySelectModel None None) busySelector)
    = Some chosen.
Proof.
  split; [reflexivity |].
  apply (new_minute_restores oneMinuteLater "gemini-2.5-pro"
           {| name := "gemini-2.5-pro"; rpm := 5; tpm := 250000; rpd := 100;
              priority := 5 |}
           {| requestsThisMinute := 5; requestsToday := 5;
              tokensThisMinute := 50; lastResetMinute := 0;
              lastResetDay := 0 |}
           (BySelectModel None None) busySelector 1 0).
  - intros k _. split; reflexivity.
  - vm_compute. left. reflexivity.
  - vm_compute. reflexivity.
  - vm_compute. reflexivity.
  - reflexivity.
  - reflexivity.
  - discriminate.
  - split; [discriminate | reflexivity].
Defined.

Lemma recommended_model_is_listed_available_witness :
  exists s stats w',
    handler midnight "GET" servedSelector = (Statistics s stats, w') /\
    recommendedModel s = Some "gemini-2.5-pro"%string /\
    totalModels s = 5 /\
    (exists entry, get "gemini-2.5-pro" stats = Some entry /\
                   current_available entry = true) /\
    1 <= availableModels s.
Proof.
  destruct (handler midnight "GET" servedSelector) as [[| s stats] w'] eqn:E;
    [vm_compute in E; discriminate E |].
  exists s, stats, w'. split; [reflexivity |].
  assert (R : recommendedModel s = Some "gemini-2.5-pro"%string).
  { vm_compute in E. injection E as <- _ _. reflexivity. }
  split; [exact R |].
  apply (recommended_model_is_listed_available midnight servedSelector w' s
           stats "gemini-2.5-pro" 0 0).
  - apply session_served.
  - apply steady_midnight.
  - exact E.
  - exact R.
Defined.

End SelectorWitnesses.

Section FreshLemmas.
Import GeminiModelSelector.
Variable Date_now : nat -> Z.

Lemma idle_reset (minute day : Z) (u : ModelUsage) :
  requestsThisMinute u = 0 /\ requestsToday u = 0 /\ tokensThisMinute u = 0 ->
  let r := resetDay day (resetMinute minute u) in
  requestsThisMinute r = 0 /\ requestsToday r = 0 /\ tokensThisMinute r = 0.
Proof.
  intros (A & B & C). destruct (reset_counters minute day u) as [Cm Cd].
  cbv zeta in *. lia.
Qed.

Lemma firstAvailable_idle (chain : list string) (e : Z) (w : World) :
  idle (self w) ->
  fst (firstAvailable Date_now chain e w) = find (roomFor (self w) e) chain.
Proof.
  revert w. induction chain as [| name rest IH]; intros w I; [reflexivity |].
  cbn [firstAvailable find]. unfold bindM. rewrite isModelAvailable_eq.
  unfold roomFor at 1.
  destruct (get name (models (self w))) as [model |] eqn:Em;
    [| cbn [fst snd]; now apply IH].
  destruct (get name (usage (self w))) as [u |] eqn:Eu;
    [| cbn [fst snd]; now apply IH].
  destruct (idle_reset (Date_now (reads w) / (1000 * 60))
              (Date_now (S (reads w)) / (1000 * 60 * 60 * 24)) u (I name u Eu))
    as (A & B & C).
  unfold withinLimits. fold (resetNow Date_now w u) in A, B, C.
  rewrite A, B, C. cbn [orDefault].
  destruct ((0 <? rpm model) && (0 + e <=? tpm model) && (0 <? rpd model));
    [reflexivity |].
  rewrite IH.
  - apply find_ext. intros k. unfold roomFor. cbn [withUsage self models usage].
    destruct (string_dec k name) as [-> | N].
    + now rewrite get_set_same, Eu.
    + now rewrite get_set_other by exact N.
  - intros k x. cbn [withUsage self usage].
    destruct (string_dec k name) as [-> | N].
    + rewrite get_set_same. intros [= <-]. auto.
    + rewrite get_set_other by exact N. apply I.
Qed.

Lemma newSelector_idle (n : nat) : idle (self (newSelector Date_now n)).
Proof. intros k u. apply newSelector_usage. Qed.

End FreshLemmas.

Section FreshTheorem.
Import GeminiModelSelector.
Variable Date_now : nat -> Z.

(** X25.  A new selector, whatever the clock shows: when high performance is
    preferred it returns [gemini-2.5-pro] for an estimate of at most 250000
    tokens and [gemini-2.0-flash] for a larger one of at most 1000000;
    when it is not, it returns [gemini-2.0-flash-lite] for every estimate
    of at most 1000000 tokens. *)
Theorem new_selector_choice (n : nat) (estimatedTokens : Z) :
  let fresh := newSelector Date_now n in
  (estimatedTokens <= 250000 ->
   fst (selectModel Date_now (Some estimatedTokens) (Some true) fresh)
   = Some "gemini-2.5-pro"%string) /\
  (250000 < estimatedTokens <= 1000000 ->
   fst (selectModel Date_now (Some estimatedTokens) (Some true) fresh)
   = Some "gemini-2.0-flash"%string) /\
  (estimatedTokens <= 1000000 ->
   fst (selectModel Date_now (Some estimatedTokens) (Some false) fresh)
   = Some "gemini-2.0-flash-lite"%string).
Proof.
  cbv zeta.
  assert (R : forall p,
             fst (selectModel Date_now (Some estimatedTokens) (Some p)
                    (newSelector Date_now n))
             = find (roomFor (self (newSelector Date_now n)) estimatedTokens)
                 (if p then List.map name GEMINI_MODELS
                  else rev (List.map name GEMINI_MODELS))).
  { intros p.
    change (selectModel Date_now (Some estimatedTokens) (Some p)
              (newSelector Date_now n))
      with (ask Date_now (BySelectModel (Some estimatedTokens) (Some p))
              (newSelector Date_now n)).
    rewrite ask_eq, firstAvailable_idle by apply newSelector_idle.
    cbn [consulted orDefault estimateOf].
    now rewrite newSelector_fallbackChain. }
  repeat split; intros H; rewrite R; unfold roomFor;
    rewrite newSelector_models, newSelector_usage_eq;
    cbn -[Z.div Z.mul Z.add Z.leb];
    repeat match goal with
           | |- context [?a <=? ?b] => destruct (Z.leb_spec a b); try lia
           end; reflexivity.
Qed.

End FreshTheorem.

Section FreshWitness.
Import GeminiModelSelector.

Lemma new_selector_choice_witness :
  fst (selectModel midnight (Some 300000) (Some true) freshSelector)
  = Some "gemini-2.0-flash"%string.
Proof.
  apply (proj1 (proj2 (new_selector_choice midnight 0 300000))).
  split; [reflexivity | discriminate].
Defined.

End FreshWitness.
